(** * The allocation tracking core of tracking_api.cpp

    A shallow embedding of [src/bloomberg/pensieve/_pensieve/tracking_api.cpp]:
    the recursion guard, the per-thread [PythonStackTracker], the [Tracker]
    methods that write records, the module-map snapshot, the constructor and
    the profile hook [PyTraceFunction].

    One thread is modelled: the thread-local variables of the file are the
    fields of [World] that belong to that thread.  Unsigned C++ integers are
    [N] (with the wrap-around of [uint32_t] written out where the code adds),
    [int] is [Z], pointers are addresses in [N] with [nullptr = 0]. *)

From Stdlib Require Import List ZArith NArith String Bool Lia.
From Equations Require Import Equations.
Import ListNotations.

Local Open Scope string_scope.
Local Open Scope N_scope.
Local Open Scope list_scope.

(** ** Records (records.h is not part of the sources; only the fields that
    tracking_api.cpp fills in are kept) *)

Definition thread_id_t := N.
Definition frame_id_t := N.

(** A pointer is its address; [nullptr] is address 0. *)
Definition PyFramePtr := N.
Definition PyObjectPtr := N.
Definition nullptr : N := 0.

Record RawFrame := mkRawFrame {
  function_name : string;
  filename : string;
  parent_lineno : Z
}.

Definition RawFrame_eqb (a b : RawFrame) : bool :=
  String.eqb (function_name a) (function_name b)
  && String.eqb (filename a) (filename b)
  && Z.eqb (parent_lineno a) (parent_lineno b).

Record AllocationRecord := mkAllocationRecord {
  ar_tid : thread_id_t;
  ar_address : N;
  ar_size : N;
  ar_allocator : N;
  ar_py_lineno : Z;
  ar_native_frame_id : N
}.

(** The record kinds of the output stream.  [HEADER b] is what
    [writeHeader(b)] writes, [b] telling whether it is the final header. *)
Inductive Rec :=
| HEADER (terminal : bool)
| MEMORY_MAP_START
| SEGMENT_HEADER (file : string) (num_segments : N) (addr : N)
| SEGMENT (vaddr : N) (memsz : N)
| ALLOCATION (r : AllocationRecord)
| FRAME_INDEX (id : frame_id_t) (f : RawFrame)
| FRAME_PUSH (id : frame_id_t) (tid : thread_id_t)
| FRAME_POP (tid : thread_id_t) (count : N)
| NATIVE_TRACE_INDEX (ip : N) (index : N)
| MEMORY_RECORD (ms : N) (rss : N)
| THREAD_RECORD (tid : thread_id_t) (name : string).

Definition is_FRAME_POP (r : Rec) : bool :=
  match r with FRAME_POP _ _ => true | _ => false end.

Definition is_FRAME_PUSH (r : Rec) : bool :=
  match r with FRAME_PUSH _ _ => true | _ => false end.

Definition is_FRAME_INDEX (r : Rec) : bool :=
  match r with FRAME_INDEX _ _ => true | _ => false end.

Definition is_NATIVE_TRACE_INDEX (r : Rec) : bool :=
  match r with NATIVE_TRACE_INDEX _ _ => true | _ => false end.

Definition is_ALLOCATION (r : Rec) : bool :=
  match r with ALLOCATION _ => true | _ => false end.

Definition pop_count (r : Rec) : N :=
  match r with FRAME_POP _ c => c | _ => 0 end.

(** ** External collaborators *)

(** Modelled from the spec: the [RecordWriter] (record_writer.h is not part of
    the sources).  The spec calls it a binary sink whose writes can fail; this
    file only fixes the logical sequence of records.  The sink is the list of
    records accepted so far together with the outcome of every future write:
    the head of [w_oracle] decides the next write, and an exhausted oracle
    means that every further write succeeds.  A failed write adds nothing. *)
Record RecordWriter := mkWriter {
  w_log : list Rec;
  w_oracle : list bool
}.

Definition writer_write (r : Rec) (wr : RecordWriter) : bool * RecordWriter :=
  match w_oracle wr with
  | [] => (true, mkWriter (w_log wr ++ [r]) [])
  | true :: o => (true, mkWriter (w_log wr ++ [r]) o)
  | false :: o => (false, mkWriter (w_log wr) o)
  end.

(** No write of this sink will ever fail. *)
Definition never_fails (wr : RecordWriter) : bool :=
  forallb (fun b => b) (w_oracle wr).

(** Modelled from the spec: the [FrameRegistry] ([d_frames], declared in a
    header that is not part of the sources): a mapping from raw frame to
    frame id with insert-or-get semantics.  The frames are kept in order of
    first sight and the id of a frame is its position. *)
Definition FrameRegistry := list RawFrame.

Fixpoint registry_find (f : RawFrame) (reg : FrameRegistry) : option nat :=
  match reg with
  | [] => None
  | g :: reg' =>
      if RawFrame_eqb g f then Some O
      else option_map S (registry_find f reg')
  end.

Definition registry_getIndex (f : RawFrame) (reg : FrameRegistry)
  : (frame_id_t * bool) * FrameRegistry :=
  match registry_find f reg with
  | Some i => ((N.of_nat i, false), reg)
  | None => ((N.of_nat (List.length reg), true), reg ++ [f])
  end.

(** Modelled from the spec: the native-trace trie ([d_native_trace_tree]),
    known only through [getTraceIndex(trace, emit_fn) -> index].  A node is
    the pair of its parent's index and an instruction pointer; node [i + 1]
    is entry [i] of the list and index 0 is the root. *)
Definition TraceTree := list (N * N).

Fixpoint tree_find (parent ip : N) (t : TraceTree) : option nat :=
  match t with
  | [] => None
  | (p, i) :: t' =>
      if (p =? parent) && (i =? ip) then Some O
      else option_map S (tree_find parent ip t')
  end.

(** One loaded shared object as [dl_iterate_phdr] reports it (link.h). *)
Record Elf_Phdr := mkPhdr {
  p_type : N;
  p_vaddr : N;
  p_memsz : N
}.

Record dl_phdr_info := mkPhdrInfo {
  dlpi_addr : N;
  dlpi_name : string;
  dlpi_phdr : list Elf_Phdr
}.

Definition PT_LOAD : N := 1.
Definition PATH_MAX : Z := 4096.

(** What the host interpreter and the operating system answer when the code
    asks.  Every operation of the model takes the answers of the moment of the
    call, so a frame's line number may differ from one call to the next. *)
Record Env := mkEnv {
  PyFrame_GetLineNumber : PyFramePtr -> Z;
  Py_REFCNT : PyFramePtr -> Z;
  co_name : PyFramePtr -> PyObjectPtr;       (* frame->f_code->co_name *)
  co_filename : PyFramePtr -> PyObjectPtr;   (* frame->f_code->co_filename *)
  PyUnicode_AsUTF8 : PyObjectPtr -> option string;  (* None: nullptr *)
  PyEval_GetFrame : PyFramePtr;
  PyGILState_Check : bool;
  pthread_self : thread_id_t;
  NativeTrace_fill : N -> list N;            (* the unwinder, after the skip *)
  loaded_objects : list dl_phdr_info;        (* what dl_iterate_phdr visits *)
  readlink_proc_self_exe : Z * string;       (* (len, buff) *)
  statm_opens : bool                         (* /proc/self/statm can be opened *)
}.

(** ** The state *)

Record LazilyEmittedFrame := mkLazy {
  frame : PyFramePtr;
  raw_frame_record : RawFrame;
  emitted : bool
}.

(** [d_stack] is the nullable pointer to the thread-local vector: [None] is
    [nullptr], [Some s] points to the vector [s], bottom of the stack first. *)
Record PythonStackTracker := mkStackTracker {
  d_num_pending_pops : N;
  d_entry_frame : PyFramePtr;
  d_stack : option (list LazilyEmittedFrame)
}.

Record Tracker := mkTracker {
  d_writer : RecordWriter;
  d_unwind_native_frames : bool;
  d_memory_interval : N;
  d_follow_fork : bool;
  d_frames : FrameRegistry;
  d_native_trace_tree : TraceTree
}.

(** The statics of [Tracker], the thread-locals of the calling thread, the
    profile hook slot of its thread state and the lines sent to [std::cerr].
    [d_instance] is the observer pointer together with the object it points
    to; [None] is [nullptr]. *)
Record World := mkWorld {
  d_active : bool;
  d_instance : option Tracker;
  isActive : bool;                       (* RecursionGuard::isActive *)
  t_python_stack_tracker : PythonStackTracker;
  c_profilefunc : bool;                  (* ts->c_profilefunc == PyTraceFunction *)
  cerr : list string
}.

Definition set_active (b : bool) (w : World) : World :=
  mkWorld b (d_instance w) (isActive w) (t_python_stack_tracker w)
          (c_profilefunc w) (cerr w).

Definition set_instance (t : option Tracker) (w : World) : World :=
  mkWorld (d_active w) t (isActive w) (t_python_stack_tracker w)
          (c_profilefunc w) (cerr w).

Definition set_guard (b : bool) (w : World) : World :=
  mkWorld (d_active w) (d_instance w) b (t_python_stack_tracker w)
          (c_profilefunc w) (cerr w).

Definition set_stack_tracker (s : PythonStackTracker) (w : World) : World :=
  mkWorld (d_active w) (d_instance w) (isActive w) s
          (c_profilefunc w) (cerr w).

Definition set_profilefunc (b : bool) (w : World) : World :=
  mkWorld (d_active w) (d_instance w) (isActive w) (t_python_stack_tracker w)
          b (cerr w).

Definition log_cerr (line : string) (w : World) : World :=
  mkWorld (d_active w) (d_instance w) (isActive w) (t_python_stack_tracker w)
          (c_profilefunc w) (cerr w ++ [line]).

Definition set_pending (n : N) (t : PythonStackTracker) : PythonStackTracker :=
  mkStackTracker n (d_entry_frame t) (d_stack t).

Definition set_entry (f : PyFramePtr) (t : PythonStackTracker) : PythonStackTracker :=
  mkStackTracker (d_num_pending_pops t) f (d_stack t).

Definition set_stack (s : option (list LazilyEmittedFrame)) (t : PythonStackTracker)
  : PythonStackTracker :=
  mkStackTracker (d_num_pending_pops t) (d_entry_frame t) s.

Definition set_writer (wr : RecordWriter) (t : Tracker) : Tracker :=
  mkTracker wr (d_unwind_native_frames t) (d_memory_interval t)
            (d_follow_fork t) (d_frames t) (d_native_trace_tree t).

Definition set_frames (reg : FrameRegistry) (t : Tracker) : Tracker :=
  mkTracker (d_writer t) (d_unwind_native_frames t) (d_memory_interval t)
            (d_follow_fork t) reg (d_native_trace_tree t).

Definition set_tree (tr : TraceTree) (t : Tracker) : Tracker :=
  mkTracker (d_writer t) (d_unwind_native_frames t) (d_memory_interval t)
            (d_follow_fork t) (d_frames t) tr.

(** The records the tracker's writer has accepted; nothing without a tracker. *)
Definition output (w : World) : list Rec :=
  match d_instance w with
  | Some t => w_log (d_writer t)
  | None => []
  end.

(** ** Computations

    A call either returns, or leaves by a C++ exception, or stops the process:
    [Abort] stands for a failed [assert] and for a method called through a
    null [Tracker*]. *)
Inductive Exception :=
| IoError (what : string)
| runtime_error (what : string).

Inductive Result (A : Type) :=
| Ok (a : A) (w : World)
| Throw (e : Exception) (w : World)
| Abort.
Arguments Ok {A} a w.
Arguments Throw {A} e w.
Arguments Abort {A}.

Definition M (A : Type) := World -> Result A.

Definition ret {A} (a : A) : M A := fun w => Ok a w.

Definition bind {A B} (m : M A) (k : A -> M B) : M B :=
  fun w =>
    match m w with
    | Ok a w' => k a w'
    | Throw e w' => Throw e w'
    | Abort => Abort
    end.

Notation "x <- m ;; k" := (bind m (fun x => k))
  (at level 61, m at next level, right associativity).
Notation "m ;;; k" := (bind m (fun _ => k))
  (at level 61, right associativity).

Definition get : M World := fun w => Ok w w.
Definition modify (f : World -> World) : M unit := fun w => Ok tt (f w).
Definition throw {A} (e : Exception) : M A := fun w => Throw e w.
Definition abort {A} : M A := fun _ => Abort.
Definition assert (b : bool) : M unit := if b then ret tt else abort.

(** ** Small helpers on vectors *)

(** [std::vector::back] and [pop_back]; the code calls them on a non-empty
    vector only. *)
Definition back {A} (s : list A) : option A :=
  match rev s with
  | x :: _ => Some x
  | [] => None
  end.

Definition pop_back {A} (s : list A) : list A := removelast s.

Definition empty {A} (s : list A) : bool :=
  match s with
  | [] => true
  | _ :: _ => false
  end.

(** [std::find_if]: the distance from the start of the range to the first
    element satisfying [p], or the length of the range when there is none. *)
Fixpoint find_if {A} (p : A -> bool) (l : list A) : nat :=
  match l with
  | [] => O
  | x :: l' => if p x then O else S (find_if p l')
  end.

(** [starts_with(haystack, needle)]:
    [haystack.compare(0, needle.size(), needle) == 0]. *)
Definition starts_with (haystack needle : string) : bool :=
  String.prefix needle haystack.

Definition UINT32_MOD : N := 4294967296.

Definition PyTrace_CALL : Z := 0.
Definition PyTrace_RETURN : Z := 3.

Definition write_failed_msg : string :=
  "pensieve: Failed to write output, deactivating tracking".
Definition write_failed_msg_short : string :=
  "Failed to write output, deactivating tracking".

Section Model.

Variable env : Env.

(** ** RecursionGuard *)

(** The scope of a [RecursionGuard guard;]: the flag is set on entry and put
    back to its previous value when the scope is left, also by an exception. *)
Definition with_RecursionGuard {A} (body : M A) : M A :=
  fun w =>
    let wasLocked := isActive w in
    match body (set_guard true w) with
    | Ok a w' => Ok a (set_guard wasLocked w')
    | Throw e w' => Throw e (set_guard wasLocked w')
    | Abort => Abort
    end.

Definition thread_id : thread_id_t := pthread_self env.

(** ** Tracker: statics and record-writing methods *)

Definition Tracker_activate : M unit := modify (set_active true).
Definition Tracker_deactivate : M unit := modify (set_active false).
Definition Tracker_isActive : M bool := fun w => Ok (d_active w) w.

(** [Tracker::getTracker()] followed by [->]: the object behind [d_instance];
    a method called through a null pointer stops the model. *)
Definition getTracker : M Tracker :=
  fun w =>
    match d_instance w with
    | Some t => Ok t w
    | None => Abort
    end.

Definition update_tracker (f : Tracker -> Tracker) : M unit :=
  t <- getTracker ;; modify (set_instance (Some (f t))).

(** [d_writer->writeRecord(type, payload)].  [writeRecordUnsafe],
    [writeSimpleType] and [writeHeader] differ from it only in locking and in
    the payload, so all of them are this one write. *)
Definition writeRecord (r : Rec) : M bool :=
  t <- getTracker ;;
  let (ok, wr) := writer_write r (d_writer t) in
  modify (set_instance (Some (set_writer wr t))) ;;;
  ret ok.

Definition writeRecordUnsafe := writeRecord.
Definition writeSimpleType := writeRecord.
Definition writeHeader (is_final : bool) : M bool := writeRecord (HEADER is_final).

Definition fail_write (msg : string) : M unit :=
  modify (log_cerr msg) ;;; Tracker_deactivate.

Definition registerFrame (f : RawFrame) : M frame_id_t :=
  t <- getTracker ;;
  let '((frame_id, is_new_frame), reg) := registry_getIndex f (d_frames t) in
  modify (set_instance (Some (set_frames reg t))) ;;;
  (if is_new_frame then
     ok <- writeRecord (FRAME_INDEX frame_id f) ;;
     if ok then ret tt else fail_write write_failed_msg
   else ret tt) ;;;
  ret frame_id.

Equations? popFrames (count : N) (w : World) : Result bool
  by wf (N.to_nat count) lt :=
  popFrames count w with N.eq_dec count 0 := {
    | left _ := Ok true w
    | right _ :=
        let to_pop := if 255 <? count then 255 else count in
        match writeRecord (FRAME_POP thread_id to_pop) w with
        | Ok true w1 => popFrames (count - to_pop) w1
        | Ok false w1 => Ok false (set_active false (log_cerr write_failed_msg w1))
        | Throw e w1 => Throw e w1
        | Abort => Abort
        end }.
Proof.
  destruct (255 <? count) eqn:E; [apply N.ltb_lt in E | apply N.ltb_ge in E]; lia.
Qed.

Definition pushFrame (f : RawFrame) : M bool :=
  frame_id <- registerFrame f ;;
  ok <- writeRecord (FRAME_PUSH frame_id thread_id) ;;
  if ok then ret true
  else fail_write write_failed_msg ;;; ret false.

(** ** PythonStackTracker *)

Definition tracker_get : M PythonStackTracker :=
  fun w => Ok (t_python_stack_tracker w) w.

Definition tracker_upd (f : PythonStackTracker -> PythonStackTracker) : M unit :=
  modify (fun w => set_stack_tracker (f (t_python_stack_tracker w)) w).

Definition reset (current_frame : PyFramePtr) : M unit :=
  tracker_upd (set_entry current_frame) ;;;
  st <- tracker_get ;;
  match d_stack st with
  | Some _ => tracker_upd (set_stack (Some []))
  | None => ret tt
  end.

Definition emitPendingPops : M unit :=
  st <- tracker_get ;;
  _ <- getTracker ;;
  _ <- popFrames (d_num_pending_pops st) ;;
  tracker_upd (set_pending 0).

(** [last_emitted_rit.base()]: the index just above the topmost emitted
    frame, 0 when no frame is emitted. *)
Definition last_emitted_base (s : list LazilyEmittedFrame) : nat :=
  (List.length s - find_if emitted (rev s))%nat.

Definition mark_emitted (f : LazilyEmittedFrame) : LazilyEmittedFrame :=
  mkLazy (frame f) (raw_frame_record f) true.

(** The [for] loop of [emitPendingPushes] over the frames from [to_emit] to
    the end of the vector; the result is that part of the vector afterwards. *)
Fixpoint emit_from (to_emit : list LazilyEmittedFrame) : M (list LazilyEmittedFrame) :=
  match to_emit with
  | [] => ret []
  | f :: rest =>
      _ <- getTracker ;;
      ok <- pushFrame (raw_frame_record f) ;;
      if ok then
        rest' <- emit_from rest ;;
        ret (mark_emitted f :: rest')
      else ret (f :: rest)
  end.

Definition emitPendingPushes : M unit :=
  st <- tracker_get ;;
  match d_stack st with
  | None => ret tt
  | Some s =>
      let b := last_emitted_base s in
      tail <- emit_from (skipn b s) ;;
      tracker_upd (set_stack (Some (firstn b s ++ tail)))
  end.

Definition getCurrentPythonLineNumber : M Z :=
  st <- tracker_get ;;
  assert ((d_entry_frame st =? nullptr)
          || (0 <? Py_REFCNT env (d_entry_frame st))%Z) ;;;
  let the_python_stack :=
    match d_stack st with
    | Some s =>
        match back s with
        | Some top => frame top
        | None => d_entry_frame st
        end
    | None => d_entry_frame st
    end in
  ret (if the_python_stack =? nullptr then 0%Z
       else PyFrame_GetLineNumber env the_python_stack).

(** The thread-local [StackCreator] is built the first time control passes
    its declaration: its constructor points [d_stack] at its vector.  As the
    comment above the class says, this is the only method that creates the
    vector. *)
Definition pushPythonFrame (frame : PyFramePtr) (function file_name : string)
    (parent_lineno : Z) : M unit :=
  st <- tracker_get ;;
  let stack := match d_stack st with Some s => s | None => [] end in
  tracker_upd (set_stack
    (Some (stack ++ [mkLazy frame (mkRawFrame function file_name parent_lineno) false]))) ;;;
  st' <- tracker_get ;;
  assert (match d_stack st' with Some _ => true | None => false end).

Definition popPythonFrame : M unit :=
  st <- tracker_get ;;
  match d_stack st with
  | Some s =>
      if negb (empty s) then
        (match back s with
         | Some top =>
             if emitted top then
               let n := (d_num_pending_pops st + 1) mod UINT32_MOD in
               tracker_upd (set_pending n) ;;;
               assert (negb (n =? 0))
             else ret tt
         | None => ret tt
         end) ;;;
        tracker_upd (set_stack (Some (pop_back s))) ;;;
        if empty (pop_back s) then emitPendingPops else ret tt
      else tracker_upd (set_entry nullptr)
  | None => tracker_upd (set_entry nullptr)
  end.

Definition resetInChildProcess : M unit :=
  tracker_upd (set_pending 0) ;;;
  st <- tracker_get ;;
  match d_stack st with
  | Some s =>
      tracker_upd (set_stack
        (Some (map (fun f => mkLazy (frame f) (raw_frame_record f) false) s)))
  | None => ret tt
  end.

(** ** The allocation path *)

(** Modelled from the spec: [d_native_trace_tree.getTraceIndex(trace, emit_fn)]
    (the trie is an external collaborator whose code is not part of the
    sources): walk the trace from the root, reuse the nodes already there and,
    for every instruction pointer seen for the first time, add a node and
    hand it to [callback]; a failing callback ends the walk with index 0. *)
Fixpoint getTraceIndex (trace : list N) (parent : N)
    (callback : N -> N -> M bool) : M N :=
  match trace with
  | [] => ret parent
  | ip :: rest =>
      t <- getTracker ;;
      match tree_find parent ip (d_native_trace_tree t) with
      | Some i => getTraceIndex rest (N.of_nat i + 1) callback
      | None =>
          let index := N.of_nat (List.length (d_native_trace_tree t)) + 1 in
          update_tracker (set_tree (d_native_trace_tree t ++ [(parent, ip)])) ;;;
          ok <- callback ip parent ;;
          if ok then getTraceIndex rest index callback else ret 0
      end
  end.

(** The methods [...Impl] are called on the singleton, so [this] is the
    object behind [d_instance].  [trace.fill(2)] is the unwinder, an external
    collaborator: it is true when it captured at least one frame. *)
Definition trackAllocationImpl (ptr size func : N) : M unit :=
  w <- get ;;
  if isActive w || negb (d_active w) then ret tt
  else
    with_RecursionGuard (
      lineno <- getCurrentPythonLineNumber ;;
      emitPendingPops ;;;
      emitPendingPushes ;;;
      this <- getTracker ;;
      native_index <-
        (if d_unwind_native_frames this then
           let trace := NativeTrace_fill env 2 in
           if empty trace then ret 0
           else getTraceIndex trace 0
                  (fun ip index => writeRecord (NATIVE_TRACE_INDEX ip index))
         else ret 0) ;;
      ok <- writeRecord
              (ALLOCATION (mkAllocationRecord thread_id ptr size func lineno native_index)) ;;
      if ok then ret tt else fail_write write_failed_msg_short).

Definition trackDeallocationImpl (ptr size func : N) : M unit :=
  w <- get ;;
  if isActive w || negb (d_active w) then ret tt
  else
    with_RecursionGuard (
      lineno <- getCurrentPythonLineNumber ;;
      emitPendingPops ;;;
      emitPendingPushes ;;;
      ok <- writeRecord
              (ALLOCATION (mkAllocationRecord thread_id ptr size func lineno 0)) ;;
      if ok then ret tt else fail_write write_failed_msg_short).

(** ** The module map *)

Definition get_executable : M string :=
  let (len, buff) := readlink_proc_self_exe env in
  if (PATH_MAX <? len)%Z then
    throw (runtime_error "Path to executable is more than PATH_MAX bytes")
  else if (len =? -1)%Z then
    throw (runtime_error "Could not determine executable path")
  else ret (substring 0 (Z.to_nat len) buff).

Definition load_segments (info : dl_phdr_info) : list (N * N) :=
  map (fun phdr => (p_vaddr phdr, p_memsz phdr))
      (filter (fun phdr => p_type phdr =? PT_LOAD) (dlpi_phdr info)).

(** The second loop of the callback: one [SEGMENT] per loadable segment. *)
Fixpoint write_segments (segments : list (N * N)) : M Z :=
  match segments with
  | [] => ret 0%Z
  | (vaddr, memsz) :: rest =>
      ok <- writeRecordUnsafe (SEGMENT vaddr memsz) ;;
      if ok then write_segments rest
      else fail_write write_failed_msg ;;; ret 1%Z
  end.

(** [info->dlpi_name] is a string here, so the assertion that it is not null
    holds by typing; [data] is the tracker's writer. *)
Definition dl_iterate_phdr_callback (info : dl_phdr_info) : M Z :=
  file <- (if String.eqb (dlpi_name info) "" then get_executable
           else ret (dlpi_name info)) ;;
  if starts_with file "linux-vdso.so" then ret 0%Z
  else
    let segments := load_segments info in
    ok <- writeRecordUnsafe
            (SEGMENT_HEADER file (N.of_nat (List.length segments)) (dlpi_addr info)) ;;
    if ok then write_segments segments
    else fail_write write_failed_msg ;;; ret 1%Z.

(** [dl_iterate_phdr] calls the callback on every loaded object until one
    call returns a non-zero value. *)
Fixpoint dl_iterate_phdr (callback : dl_phdr_info -> M Z)
    (objects : list dl_phdr_info) : M Z :=
  match objects with
  | [] => ret 0%Z
  | info :: rest =>
      r <- callback info ;;
      if (r =? 0)%Z then dl_iterate_phdr callback rest else ret r
  end.

Definition updateModuleCacheImpl : M unit :=
  this <- getTracker ;;
  if negb (d_unwind_native_frames this) then ret tt
  else
    ok <- writeSimpleType MEMORY_MAP_START ;;
    (if ok then ret tt else fail_write write_failed_msg) ;;;
    _ <- dl_iterate_phdr dl_iterate_phdr_callback (loaded_objects env) ;;
    ret tt.

(** Modelled from the spec: [updateModuleCache] is declared in tracking_api.h,
    which is not part of the sources; construction step 4 of the spec, "take
    an initial module-map snapshot", is the call of the snapshotter on the
    instance. *)
Definition updateModuleCache : M unit := updateModuleCacheImpl.

(** ** The profile hook *)

Definition PyTraceFunction (frame : PyFramePtr) (what : Z) : M Z :=
  with_RecursionGuard (
    active <- Tracker_isActive ;;
    if negb active then ret 0%Z
    else if (what =? PyTrace_CALL)%Z then
      match PyUnicode_AsUTF8 env (co_name env frame) with
      | None => ret (-1)%Z
      | Some function =>
          match PyUnicode_AsUTF8 env (co_filename env frame) with
          | None => ret (-1)%Z
          | Some file_name =>
              parent_lineno <- getCurrentPythonLineNumber ;;
              pushPythonFrame frame function file_name parent_lineno ;;;
              ret 0%Z
          end
      end
    else if (what =? PyTrace_RETURN)%Z then
      popPythonFrame ;;; ret 0%Z
    else ret 0%Z).

Definition install_trace_function : M unit :=
  assert (PyGILState_Check env) ;;;
  with_RecursionGuard (
    w <- get ;;
    if c_profilefunc w then ret tt
    else
      modify (set_profilefunc true) ;;;
      reset (PyEval_GetFrame env)).

(** ** Construction

    [Tracker::Tracker].  The one-time setup, the symbol patcher and the start
    of the sampler thread touch nothing of [World]; the constructor of the
    sampler throws when /proc/self/statm cannot be opened. *)
Definition Tracker_ctor (record_writer : RecordWriter) (native_traces : bool)
    (memory_interval : N) (follow_fork : bool) : M unit :=
  modify (set_instance
    (Some (mkTracker record_writer native_traces memory_interval follow_fork [] []))) ;;;
  ok <- writeHeader false ;;
  if negb ok then throw (IoError "Failed to write output header")
  else
    updateModuleCache ;;;
    with_RecursionGuard (
      install_trace_function ;;;
      (if statm_opens env then ret tt
       else throw (IoError "Failed to open /proc/self/statm")) ;;;
      Tracker_activate).

(** ** The operations of the stack tracker as one type *)

Inductive StackOp :=
| OpReset (current_frame : PyFramePtr)
| OpPush (frame : PyFramePtr) (function file_name : string) (parent_lineno : Z)
| OpPop
| OpCurrentLine
| OpEmitPendingPops
| OpEmitPendingPushes
| OpResetInChild.

Definition is_push (op : StackOp) : bool :=
  match op with
  | OpPush _ _ _ _ => true
  | _ => false
  end.

(** The value is the line number for [OpCurrentLine] and 0 for the
    operations that return nothing. *)
Definition run_op (op : StackOp) : M Z :=
  match op with
  | OpReset f => reset f ;;; ret 0%Z
  | OpPush f fn file l => pushPythonFrame f fn file l ;;; ret 0%Z
  | OpPop => popPythonFrame ;;; ret 0%Z
  | OpCurrentLine => getCurrentPythonLineNumber
  | OpEmitPendingPops => emitPendingPops ;;; ret 0%Z
  | OpEmitPendingPushes => emitPendingPushes ;;; ret 0%Z
  | OpResetInChild => resetInChildProcess ;;; ret 0%Z
  end.

End Model.

(** * The rest of the life cycle: destruction, fork handlers, thread names,
    module-cache invalidation and the sampler thread *)

(** One wake-up of the sampler thread: whether [d_stop] is set when the wait
    ends, what [sscanf] extracts from /proc/self/statm ([None] when the text
    does not match) and the clock. *)
Record Tick := mkTick {
  tick_stop : bool;
  tick_statm : option N;
  tick_now : N
}.

Definition SIZE_MOD : N := 18446744073709551616.

Definition rss_failed_msg : string :=
  "WARNING: Failed to read RSS value from /proc/self/statm".

Section Lifecycle.

Variable env : Env.

(** [Tracker::~Tracker] on the singleton.  Stopping the sampler thread and
    restoring the patched symbols touch nothing of [World].  The writer goes
    away with the object, so the value returned is the sink as it is when
    [d_writer.reset()] drops it. *)
Definition Tracker_dtor : M RecordWriter :=
  with_RecursionGuard (
    Tracker_deactivate ;;;
    reset nullptr ;;;
    _ <- writeHeader true ;;
    this <- getTracker ;;
    modify (set_instance None) ;;;
    ret (d_writer this)).

Definition prepareFork : M unit := modify (set_guard true).
Definition parentFork : M unit := modify (set_guard false).

(** [Tracker::childFork].  [cloneInChildProcess] is the answer of the
    inherited writer, [None] for a null pointer.  The owning pointer
    [d_instance_owner] is not part of [World]: releasing it only leaks the
    old object, and the new object is reached through [d_instance], which
    its constructor sets. *)
Definition childFork (cloneInChildProcess : RecordWriter -> option RecordWriter) : M unit :=
  resetInChildProcess ;;;
  w <- get ;;
  let old_tracker := d_instance w in
  let new_writer :=
    match old_tracker with
    | Some t =>
        if d_active w && d_follow_fork t then cloneInChildProcess (d_writer t)
        else None
    | None => None
    end in
  match new_writer, old_tracker with
  | Some wr, Some t =>
      Tracker_ctor env wr (d_unwind_native_frames t) (d_memory_interval t)
                   (d_follow_fork t) ;;;
      modify (set_guard false)
  | _, _ =>
      modify (set_instance None) ;;;
      modify (set_guard false)
  end.

Definition invalidate_module_cache_impl : M unit :=
  with_RecursionGuard (updateModuleCache env).

Definition registerThreadNameImpl (name : string) : M unit :=
  ok <- writeRecord (THREAD_RECORD (thread_id env) name) ;;
  if ok then ret tt else fail_write write_failed_msg.

(** [BackgroundThread::getRSS]: the resident pages times the page size, in
    [size_t]; 0 with a warning when the statm text cannot be read. *)
Definition getRSS (statm : option N) (pagesize : N) : M N :=
  match statm with
  | None => modify (log_cerr rss_failed_msg) ;;; ret 0
  | Some rss => ret ((rss * pagesize) mod SIZE_MOD)
  end.

(** The loop of the sampler thread, one [Tick] per wake-up, as far as the
    ticks go.  The thread writes through its own pointer to the tracker's
    writer; its recursion flag is a thread-local of its own and is not in
    [World]. *)
Fixpoint sampler_loop (pagesize : N) (ticks : list Tick) : M unit :=
  match ticks with
  | [] => ret tt
  | t :: rest =>
      if tick_stop t then ret tt
      else
        rss <- getRSS (tick_statm t) pagesize ;;
        if rss =? 0 then Tracker_deactivate
        else
          ok <- writeRecord (MEMORY_RECORD (tick_now t) rss) ;;
          if ok then sampler_loop pagesize rest
          else fail_write write_failed_msg_short
  end.

End Lifecycle.

(** * Properties *)

(** ** Predicates used in the statements *)

(** Invariant (S1): the emitted frames form a prefix of the shadow stack. *)
Definition S1 (s : list LazilyEmittedFrame) : Prop :=
  forall i j fi fj,
    nth_error s i = Some fi -> nth_error s j = Some fj ->
    (j < i)%nat -> emitted fi = true -> emitted fj = true.

Definition stack_of (w : World) : list LazilyEmittedFrame :=
  match d_stack (t_python_stack_tracker w) with
  | Some s => s
  | None => []
  end.

Definition S1_world (w : World) : Prop := S1 (stack_of w).

(** The tracker exists and no write of its sink will fail. *)
Definition healthy (w : World) : Prop :=
  match d_instance w with
  | Some t => never_fails (d_writer t) = true
  | None => False
  end.

Fixpoint sum_N (l : list N) : N :=
  match l with
  | [] => 0
  | x :: l' => x + sum_N l'
  end.

Definition is_push_or_index (r : Rec) : bool :=
  is_FRAME_PUSH r || is_FRAME_INDEX r.

(** The assertion at the top of [getCurrentPythonLineNumber]. *)
Definition entry_frame_alive (env : Env) (w : World) : Prop :=
  d_entry_frame (t_python_stack_tracker w) = nullptr
  \/ (0 < Py_REFCNT env (d_entry_frame (t_python_stack_tracker w)))%Z.

(** What the operations need in order to return: a tracker behind
    [d_instance], room in the [uint32_t] counter for one more pop, and an
    entry frame that is still referenced. *)
Definition op_pre (env : Env) (w : World) : Prop :=
  d_instance w <> None
  /\ d_num_pending_pops (t_python_stack_tracker w) + 1 < UINT32_MOD
  /\ entry_frame_alive env w.

(** [w'] differs from [w] by the records [recs] that the tracker's sink
    accepted, and by nothing that belongs to the thread. *)
Record Writes (w w' : World) (recs : list Rec) : Prop := mkWrites {
  wr_stack : t_python_stack_tracker w' = t_python_stack_tracker w;
  wr_guard : isActive w' = isActive w;
  wr_prof : c_profilefunc w' = c_profilefunc w;
  wr_inst : d_instance w' <> None;
  wr_cfg : option_map d_unwind_native_frames (d_instance w')
           = option_map d_unwind_native_frames (d_instance w);
  wr_out : output w' = output w ++ recs;
  wr_ok : healthy w ->
          healthy w' /\ d_active w' = d_active w /\ cerr w' = cerr w
}.

(** The shadow stack after [emitPendingPushes] when the loop marked [m]
    frames. *)
Definition pushed_stack (m : nat) (s : list LazilyEmittedFrame) : list LazilyEmittedFrame :=
  firstn (last_emitted_base s) s
  ++ map mark_emitted (firstn m (skipn (last_emitted_base s) s))
  ++ skipn m (skipn (last_emitted_base s) s).

Definition all_emitted (l : list LazilyEmittedFrame) : bool := forallb emitted l.
Definition none_emitted (l : list LazilyEmittedFrame) : bool :=
  forallb (fun f => negb (emitted f)) l.

Definition unmark (f : LazilyEmittedFrame) : LazilyEmittedFrame :=
  mkLazy (frame f) (raw_frame_record f) false.

Definition top_frame_ptr (w : World) : PyFramePtr :=
  match back (stack_of w) with
  | Some top => frame top
  | None => d_entry_frame (t_python_stack_tracker w)
  end.

(** The counter after a pop that removed [top]. *)
Definition popped_count (n : N) (top : LazilyEmittedFrame) : N :=
  if emitted top then (n + 1) mod UINT32_MOD else n.

(** The world with the pointer [d_stack] replaced. *)
Definition with_stack (s : option (list LazilyEmittedFrame)) (w : World) : World :=
  set_stack_tracker (set_stack s (t_python_stack_tracker w)) w.

Definition map_world {A} (f : World -> World) (r : Result A) : Result A :=
  match r with
  | Ok a w => Ok a (f w)
  | Throw e w => Throw e (f w)
  | Abort => Abort
  end.

(** The line [getCurrentPythonLineNumber] reports in [w]. *)
Definition current_line (env : Env) (w : World) : Z :=
  if top_frame_ptr w =? nullptr then 0%Z
  else PyFrame_GetLineNumber env (top_frame_ptr w).

(** The hook on a call event in the specification's words, for every call
    event: -1 and no push when a decode fails, a push and 0 when both
    succeed. *)
Definition hook_on_call_as_claimed (env : Env) (frame : PyFramePtr) (w : World) : Prop :=
  match PyUnicode_AsUTF8 env (co_name env frame),
        PyUnicode_AsUTF8 env (co_filename env frame) with
  | Some fn, Some file =>
      exists w' line,
        PyTraceFunction env frame PyTrace_CALL w = Ok 0%Z w'
        /\ stack_of w' = stack_of w ++ [mkLazy frame (mkRawFrame fn file line) false]
  | _, _ =>
      exists w',
        PyTraceFunction env frame PyTrace_CALL w = Ok (-1)%Z w'
        /\ stack_of w' = stack_of w
  end.

(** The path [get_executable] returns when [readlink] succeeds. *)
Definition executable (env : Env) : string :=
  substring 0 (Z.to_nat (fst (readlink_proc_self_exe env)))
            (snd (readlink_proc_self_exe env)).

Definition readlink_ok (env : Env) : bool :=
  negb (PATH_MAX <? fst (readlink_proc_self_exe env))%Z
  && negb (fst (readlink_proc_self_exe env) =? -1)%Z.

(** The module map in the spec's words: for each loaded object, except the
    virtual DSO, one [SEGMENT_HEADER] followed by one [SEGMENT] per loadable
    segment; an object without a path is given the executable's path. *)
Definition object_records (exe : string) (info : dl_phdr_info) : list Rec :=
  let file := if String.eqb (dlpi_name info) "" then exe else dlpi_name info in
  if starts_with file "linux-vdso.so" then []
  else
    SEGMENT_HEADER file (N.of_nat (List.length (load_segments info))) (dlpi_addr info)
    :: map (fun s => SEGMENT (fst s) (snd s)) (load_segments info).

Definition module_map (env : Env) : list Rec :=
  MEMORY_MAP_START :: flat_map (object_records (executable env)) (loaded_objects env).

(** The output of a construction in the specification's words: whatever the
    configuration, the header is followed by the marker of a module map. *)
Definition ctor_output_as_claimed (env : Env) (record_writer : RecordWriter)
    (native_traces : bool) (memory_interval : N) (follow_fork : bool) (w : World) : Prop :=
  exists w' rest,
    Tracker_ctor env record_writer native_traces memory_interval follow_fork w = Ok tt w'
    /\ output w' = w_log record_writer ++ HEADER false :: MEMORY_MAP_START :: rest.

(** [w'] has the tracker of [w] after its sink accepted [recs]. *)
Record Emits (w w' : World) (recs : list Rec) : Prop := mkEmits {
  em_inst : d_instance w' <> None;
  em_cfg : option_map d_unwind_native_frames (d_instance w')
           = option_map d_unwind_native_frames (d_instance w);
  em_out : output w' = output w ++ recs;
  em_ok : healthy w -> healthy w'
}.

(** The records of one allocation or deallocation event in order: the pops,
    then the pushes with the frame indexes they need, then the native
    frames, then the allocation record; and all of them when no write
    fails. *)
Definition event_records_in_order (w : World) (r : Result unit) : Prop :=
  exists w' pops pushes natives allocs,
    r = Ok tt w'
    /\ output w' = output w ++ pops ++ pushes ++ natives ++ allocs
    /\ forallb is_FRAME_POP pops = true
    /\ forallb is_push_or_index pushes = true
    /\ forallb is_NATIVE_TRACE_INDEX natives = true
    /\ forallb is_ALLOCATION allocs = true
    /\ (List.length allocs <= 1)%nat
    /\ (healthy w ->
        sum_N (map pop_count pops) = d_num_pending_pops (t_python_stack_tracker w)
        /\ List.length (filter is_FRAME_PUSH pushes)
           = List.length (skipn (last_emitted_base (stack_of w)) (stack_of w))
        /\ List.length allocs = 1%nat).

(** ** Further predicates and reference functions *)

(** How a guarded function leaves the recursion flag, on every kind of exit. *)
Definition guard_restored {A} (w : World) (r : Result A) : Prop :=
  match r with
  | Ok _ w' => isActive w' = isActive w
  | Throw _ w' => isActive w' = isActive w
  | Abort => True
  end.

(** The sink after it accepted [recs] without a refusal. *)
Definition write_all (recs : list Rec) (wr : RecordWriter) : RecordWriter :=
  mkWriter (w_log wr ++ recs) (skipn (List.length recs) (w_oracle wr)).

(** The world after the tracker's sink accepted [recs]: nothing else moves. *)
Definition wrote (recs : list Rec) (w : World) : World :=
  match d_instance w with
  | Some t => set_instance (Some (set_writer (write_all recs (d_writer t)) t)) w
  | None => w
  end.

(** The outcomes the sink still has in store. *)
Definition oracle_of (w : World) : list bool :=
  match d_instance w with
  | Some t => w_oracle (d_writer t)
  | None => []
  end.

(** The shortest run of pop counts for [n] pops: as many 255s as fit and
    then the remainder. *)
Definition pop_run (n : N) : list N :=
  repeat 255 (N.to_nat (n / 255)) ++ (if n mod 255 =? 0 then [] else [n mod 255]).

(** What a record adds to the number of frames a reader of the log holds:
    a push adds one, a pop takes its count away. *)
Definition depth_change (r : Rec) : Z :=
  match r with
  | FRAME_PUSH _ _ => 1
  | FRAME_POP _ c => - Z.of_N c
  | _ => 0
  end%Z.

(** The pushes of a log minus the pops of the log. *)
Fixpoint net_pushes (log : list Rec) : Z :=
  match log with
  | [] => 0%Z
  | r :: log' => (depth_change r + net_pushes log')%Z
  end.

Definition emitted_count (s : list LazilyEmittedFrame) : nat :=
  List.length (filter emitted s).

(** The log and the thread agree: the pushes written and not yet popped in
    the log are the emitted frames of the shadow stack and the pops that are
    still pending. *)
Definition balanced (w : World) : Prop :=
  net_pushes (output w)
  = (Z.of_nat (emitted_count (stack_of w))
     + Z.of_N (d_num_pending_pops (t_python_stack_tracker w)))%Z.

(** The operations that keep the log and the thread in agreement: all but
    the two resets. *)
Definition keeps_balance (op : StackOp) : bool :=
  match op with
  | OpReset _ => false
  | OpResetInChild => false
  | _ => true
  end.




(** The records a module-map snapshot may write: the marker, segments, and
    segment headers of objects other than the virtual DSO. *)
Definition snapshot_record (r : Rec) : bool :=
  match r with
  | MEMORY_MAP_START => true
  | SEGMENT _ _ => true
  | SEGMENT_HEADER file _ _ => negb (starts_with file "linux-vdso.so")
  | _ => false
  end.

(** A call that ends, by a return or by an exception, having added to the
    output only records that satisfy [P]. *)
Definition ends_writing {A} (P : Rec -> bool) (w : World) (r : Result A) : Prop :=
  match r with
  | Ok _ w' => exists recs, Writes w w' recs /\ forallb P recs = true
  | Throw _ w' => exists recs, Writes w w' recs /\ forallb P recs = true
  | Abort => False
  end.

(** What a tick reads as resident set size; 0 stands for a failed reading. *)
Definition tick_rss (pagesize : N) (t : Tick) : N :=
  match tick_statm t with
  | None => 0
  | Some rss => (rss * pagesize) mod SIZE_MOD
  end.

(** The samples of the ticks up to the first tick that finds the stop flag
    set or reads no resident set size. *)
Fixpoint samples (pagesize : N) (ticks : list Tick) : list Rec :=
  match ticks with
  | [] => []
  | t :: rest =>
      if tick_stop t || (tick_rss pagesize t =? 0) then []
      else MEMORY_RECORD (tick_now t) (tick_rss pagesize t) :: samples pagesize rest
  end.

(** Whether the ticks end the loop by a failed reading rather than by the
    stop flag, and the lines that go to [cerr] on the way. *)
Fixpoint ends_on_zero (pagesize : N) (ticks : list Tick) : bool :=
  match ticks with
  | [] => false
  | t :: rest =>
      if tick_stop t then false
      else if tick_rss pagesize t =? 0 then true
      else ends_on_zero pagesize rest
  end.

Fixpoint sampler_warnings (pagesize : N) (ticks : list Tick) : list string :=
  match ticks with
  | [] => []
  | t :: rest =>
      if tick_stop t then []
      else if tick_rss pagesize t =? 0 then
        match tick_statm t with None => [rss_failed_msg] | Some _ => [] end
      else sampler_warnings pagesize rest
  end.

(** ** Concrete inputs used by the examples *)

Definition env0 : Env :=
  mkEnv (fun p => Z.of_N p * 10)%Z
        (fun _ => 1%Z)
        (fun p => p + 1000)
        (fun p => p + 2000)
        (fun o => if (o =? 1666) || (o =? 2667) then None else Some "name")
        7 true 42
        (fun _ => [11; 12])
        [mkPhdrInfo 4096 "" [mkPhdr 1 0 100; mkPhdr 2 5 5; mkPhdr 1 200 50];
         mkPhdrInfo 0 "linux-vdso.so.1" [mkPhdr 1 0 1];
         mkPhdrInfo 8192 "libc.so" [mkPhdr 1 0 7]]
        (9%Z, "/bin/python3xxxx")
        true.

Definition frame_f1 : LazilyEmittedFrame := mkLazy 1 (mkRawFrame "f1" "a.py" 70) true.
Definition frame_f2 : LazilyEmittedFrame := mkLazy 2 (mkRawFrame "f2" "a.py" 10) false.

Definition tracker0 : Tracker :=
  mkTracker (mkWriter [HEADER false] []) false 10 false [] [].

Definition frame_f3 : LazilyEmittedFrame := mkLazy 3 (mkRawFrame "f3" "a.py" 20) false.

(** A tracker whose sink accepts three more records and refuses the fourth. *)
Definition tracker_failing : Tracker :=
  mkTracker (mkWriter [HEADER false] [true; true; true; false]) false 10 false [] [].

Definition world_failing : World :=
  mkWorld true (Some tracker_failing) false
          (mkStackTracker 0 7 (Some [frame_f1; frame_f2; frame_f3])) true [].

Definition world0 : World :=
  mkWorld true (Some tracker0) false
          (mkStackTracker 3 7 (Some [frame_f1; frame_f2])) true [].

Definition world_blank : World :=
  mkWorld false None false (mkStackTracker 0 0 None) false [].

(** ** Basic facts *)

Lemma set_stack_tracker_same w : set_stack_tracker (t_python_stack_tracker w) w = w.
Proof. destruct w; reflexivity. Qed.

Lemma Writes_refl w : d_instance w <> None -> Writes w w [].
Proof.
  intros H. constructor; auto. now rewrite app_nil_r.
Qed.

Lemma Writes_trans w1 w2 w3 r1 r2 :
  Writes w1 w2 r1 -> Writes w2 w3 r2 -> Writes w1 w3 (r1 ++ r2).
Proof.
  intros [a1 b1 c1 d1 e1 f1 g1] [a2 b2 c2 d2 e2 f2 g2].
  constructor; try congruence.
  - rewrite f2, f1, app_assoc. reflexivity.
  - intros H. destruct (g1 H) as (h & ? & ?). destruct (g2 h) as (? & ? & ?).
    repeat split; congruence.
Qed.

Lemma writer_write_log r wr :
  w_log (snd (writer_write r wr))
  = w_log wr ++ (if fst (writer_write r wr) then [r] else []).
Proof.
  unfold writer_write. destruct (w_oracle wr) as [|[] o]; simpl; auto.
  now rewrite app_nil_r.
Qed.

Lemma writer_write_healthy r wr :
  never_fails wr = true ->
  fst (writer_write r wr) = true /\ never_fails (snd (writer_write r wr)) = true.
Proof.
  unfold never_fails, writer_write.
  destruct (w_oracle wr) as [|[] o]; simpl; auto; discriminate.
Qed.

Section Facts.

Variable env : Env.

Lemma writeRecord_eq r w t :
  d_instance w = Some t ->
  writeRecord r w
  = Ok (fst (writer_write r (d_writer t)))
       (set_instance (Some (set_writer (snd (writer_write r (d_writer t))) t)) w).
Proof.
  intros H. unfold writeRecord, bind, getTracker. rewrite H.
  destruct (writer_write r (d_writer t)); reflexivity.
Qed.

Lemma writeRecord_Writes r w :
  d_instance w <> None ->
  exists ok w',
    writeRecord r w = Ok ok w'
    /\ Writes w w' (if ok then [r] else [])
    /\ (healthy w -> ok = true).
Proof.
  intros H. destruct (d_instance w) as [t|] eqn:E; [clear H | congruence].
  rewrite (writeRecord_eq r w t E).
  eexists; eexists; split; [reflexivity|]. split.
  - constructor; simpl; try reflexivity; try discriminate.
    + rewrite E. reflexivity.
    + unfold output; simpl. rewrite E. apply writer_write_log.
    + unfold healthy; simpl. rewrite E. intros Hh.
      destruct (writer_write_healthy r _ Hh). auto.
  - unfold healthy. rewrite E. intros Hh.
    now destruct (writer_write_healthy r _ Hh).
Qed.

Lemma Writes_fail msg w w' recs :
  Writes w w' recs -> ~ healthy w ->
  Writes w (set_active false (log_cerr msg w')) recs.
Proof.
  intros [a b c d e f g] Hn. constructor; simpl; auto. intros H; contradiction.
Qed.

Lemma bind_Ok {A B} (m : M A) (k : A -> M B) w a w1 :
  m w = Ok a w1 -> bind m k w = k a w1.
Proof. unfold bind. intros ->. reflexivity. Qed.

Lemma set_frames_Writes w t reg :
  d_instance w = Some t ->
  Writes w (set_instance (Some (set_frames reg t)) w) [].
Proof.
  intros E. constructor; simpl; try reflexivity; try discriminate.
  - now rewrite E.
  - unfold output; simpl. rewrite E, app_nil_r. reflexivity.
  - unfold healthy; simpl. rewrite E. auto.
Qed.

Lemma set_tree_Writes w t tr :
  d_instance w = Some t ->
  Writes w (set_instance (Some (set_tree tr t)) w) [].
Proof.
  intros E. constructor; simpl; try reflexivity; try discriminate.
  - now rewrite E.
  - unfold output; simpl. rewrite E, app_nil_r. reflexivity.
  - unfold healthy; simpl. rewrite E. auto.
Qed.

(** A write followed by the error branch of the code: the line on [cerr] and
    the deactivation. *)
Lemma checked_write_Writes r msg w :
  d_instance w <> None ->
  exists (ok : bool) w',
    ((ok <- writeRecord r ;; if ok then ret tt else fail_write msg) : M unit) w
    = Ok tt w'
    /\ Writes w w' (if ok then [r] else [])
    /\ (healthy w -> ok = true).
Proof.
  intros H. destruct (writeRecord_Writes r w H) as (ok & w1 & E & HW & Hh).
  rewrite (bind_Ok _ _ _ _ _ E). destruct ok.
  - exists true, w1. split; [reflexivity|]. split; auto.
  - exists false, (set_active false (log_cerr msg w1)).
    split; [reflexivity|]. split.
    + apply Writes_fail; auto. intros Hw. specialize (Hh Hw). discriminate.
    + intros Hw. specialize (Hh Hw). discriminate.
Qed.

Lemma registerFrame_Writes f w :
  d_instance w <> None ->
  exists id w' recs,
    registerFrame f w = Ok id w'
    /\ Writes w w' recs
    /\ forallb is_FRAME_INDEX recs = true.
Proof.
  intros H. destruct (d_instance w) as [t|] eqn:E; [clear H | congruence].
  unfold registerFrame. unfold bind at 1. unfold getTracker. rewrite E.
  destruct (registry_getIndex f (d_frames t)) as [[id is_new] reg].
  unfold bind at 1. unfold modify at 1.
  pose proof (set_frames_Writes w t reg E) as W1.
  set (w1 := set_instance (Some (set_frames reg t)) w) in *.
  destruct is_new.
  - destruct (checked_write_Writes (FRAME_INDEX id f) write_failed_msg w1)
      as (ok & w2 & E2 & W2 & _); [apply (wr_inst _ _ _ W1)|].
    unfold bind at 1. rewrite E2. unfold ret.
    exists id, w2, (if ok then [FRAME_INDEX id f] else []).
    split; [reflexivity|]. split.
    + apply (Writes_trans _ _ _ [] _ W1 W2).
    + destruct ok; reflexivity.
  - unfold bind, ret. exists id, w1, []. split; [reflexivity|]. split; auto.
Qed.

Lemma pushFrame_Writes f w :
  d_instance w <> None ->
  exists ok w' recs,
    pushFrame env f w = Ok ok w'
    /\ Writes w w' recs
    /\ forallb is_push_or_index recs = true
    /\ List.length (filter is_FRAME_PUSH recs) = (if ok then 1 else 0)%nat
    /\ (healthy w -> ok = true).
Proof.
  intros H. destruct (registerFrame_Writes f w H) as (id & w1 & r1 & E1 & W1 & F1).
  unfold pushFrame. rewrite (bind_Ok _ _ _ _ _ E1).
  destruct (writeRecord_Writes (FRAME_PUSH id (thread_id env)) w1)
    as (ok & w2 & E2 & W2 & Hh); [apply (wr_inst _ _ _ W1)|].
  rewrite (bind_Ok _ _ _ _ _ E2).
  assert (Fidx : forallb is_push_or_index r1 = true).
  { rewrite forallb_forall in *. intros x Hx. unfold is_push_or_index.
    rewrite (F1 x Hx). apply orb_true_r. }
  assert (Fnone : filter is_FRAME_PUSH r1 = []).
  { clear - F1. induction r1 as [|x r IH]; simpl in *; auto.
    apply andb_true_iff in F1 as [Hx Hr]. destruct x; try discriminate.
    simpl. auto. }
  destruct ok.
  - exists true, w2, (r1 ++ [FRAME_PUSH id (thread_id env)]).
    split; [reflexivity|]. split; [apply (Writes_trans _ _ _ _ _ W1 W2)|].
    split; [rewrite forallb_app, Fidx; reflexivity|].
    split; [rewrite filter_app, Fnone; reflexivity | auto].
  - exists false, (set_active false (log_cerr write_failed_msg w2)), r1.
    assert (Hn : ~ healthy w).
    { intros Hw. destruct (wr_ok _ _ _ W1 Hw) as (Hw1 & _).
      specialize (Hh Hw1). discriminate. }
    split; [reflexivity|]. split.
    + apply Writes_fail; auto.
      rewrite <- (app_nil_r r1). apply (Writes_trans _ _ _ _ _ W1 W2).
    + split; [assumption|]. split; [rewrite Fnone; reflexivity|].
      intros Hw; contradiction.
Qed.

(** *** The pop loop *)

Lemma popFrames_step count w :
  popFrames env count w
  = if count =? 0 then Ok true w
    else
      let to_pop := if 255 <? count then 255 else count in
      match writeRecord (FRAME_POP (thread_id env) to_pop) w with
      | Ok true w1 => popFrames env (count - to_pop) w1
      | Ok false w1 => Ok false (set_active false (log_cerr write_failed_msg w1))
      | Throw e w1 => Throw e w1
      | Abort => Abort
      end.
Proof.
  rewrite popFrames_equation_1.
  destruct (N.eq_dec count 0) as [->|n].
  - reflexivity.
  - rewrite popFrames_clause_1_equation_2.
    destruct (N.eqb_spec count 0); [contradiction | reflexivity].
Qed.

Lemma popFrames_Writes count :
  forall w,
    d_instance w <> None ->
    exists ok w' run,
      popFrames env count w = Ok ok w'
      /\ Writes w w' (map (FRAME_POP (thread_id env)) run)
      /\ Forall (fun c => 1 <= c <= 255) run
      /\ sum_N run <= count
      /\ (ok = true -> sum_N run = count)
      /\ (healthy w -> ok = true)
      /\ (count = 0 -> run = []).
Proof.
  induction count as [count IH] using (well_founded_induction N.lt_wf_0).
  intros w H. rewrite popFrames_step.
  destruct (N.eqb_spec count 0) as [->|Hc].
  - exists true, w, []. split; [reflexivity|].
    split; [apply Writes_refl; assumption|].
    split; [constructor|]. simpl. repeat split; auto; lia.
  - cbv zeta.
    set (to_pop := if 255 <? count then 255 else count).
    assert (Hp : 1 <= to_pop <= 255 /\ to_pop <= count).
    { unfold to_pop. destruct (N.ltb_spec 255 count); lia. }
    destruct (writeRecord_Writes (FRAME_POP (thread_id env) to_pop) w H)
      as (ok & w1 & E1 & W1 & Hh).
    rewrite E1. destruct ok.
    + destruct (IH (count - to_pop)) with (w := w1)
        as (ok & w2 & run & E2 & W2 & F2 & S2 & T2 & H2 & _);
        [lia | apply (wr_inst _ _ _ W1) |].
      exists ok, w2, (to_pop :: run). split; [assumption|].
      split; [apply (Writes_trans _ _ _ [_] _ W1 W2)|].
      split; [constructor; [lia | assumption]|].
      simpl. split; [lia|]. split; [intros Hok; specialize (T2 Hok); lia|].
      split; [|intros; contradiction].
      intros Hw. apply H2. apply (wr_ok _ _ _ W1 Hw).
    + exists false, (set_active false (log_cerr write_failed_msg w1)), [].
      assert (Hn : ~ healthy w) by (intros Hw; specialize (Hh Hw); discriminate).
      split; [reflexivity|]. split; [apply Writes_fail; assumption|].
      split; [constructor|]. simpl. split; [lia|].
      split; [discriminate|]. split; [intros; contradiction | intros; contradiction].
Qed.

(** *** The push loop *)

Lemma emit_from_spec l :
  forall w,
    d_instance w <> None ->
    exists l' w' recs m,
      emit_from env l w = Ok l' w'
      /\ Writes w w' recs
      /\ forallb is_push_or_index recs = true
      /\ (m <= List.length l)%nat
      /\ l' = map mark_emitted (firstn m l) ++ skipn m l
      /\ List.length (filter is_FRAME_PUSH recs) = m
      /\ (healthy w -> m = List.length l).
Proof.
  induction l as [|f rest IH]; intros w H.
  - exists [], w, [], O. split; [reflexivity|].
    split; [apply Writes_refl; assumption|]. simpl. repeat split; auto.
  - cbn [emit_from].
    destruct (d_instance w) as [t|] eqn:E; [|congruence].
    unfold bind at 1. unfold getTracker. rewrite E.
    destruct (pushFrame_Writes (raw_frame_record f) w)
      as (ok & w1 & r1 & E1 & W1 & F1 & C1 & H1); [congruence|].
    rewrite (bind_Ok _ _ _ _ _ E1). destruct ok.
    + destruct (IH w1 (wr_inst _ _ _ W1))
        as (l' & w2 & r2 & m & E2 & W2 & F2 & Lm & -> & C2 & H2).
      rewrite (bind_Ok _ _ _ _ _ E2). unfold ret.
      exists (mark_emitted f :: map mark_emitted (firstn m rest) ++ skipn m rest),
        w2, (r1 ++ r2), (S m).
      split; [reflexivity|]. split; [apply (Writes_trans _ _ _ _ _ W1 W2)|].
      split; [rewrite forallb_app, F1, F2; reflexivity|].
      split; [simpl; lia|]. split; [reflexivity|].
      split; [rewrite filter_app, length_app, C1, C2; reflexivity|].
      intros Hw. simpl. f_equal. apply H2. apply (wr_ok _ _ _ W1 Hw).
    + unfold ret. exists (f :: rest), w1, r1, O.
      split; [reflexivity|]. split; [assumption|]. split; [assumption|].
      split; [lia|]. split; [reflexivity|]. split; [assumption|].
      intros Hw. specialize (H1 Hw). discriminate.
Qed.

(** *** The native-trace walk *)

Lemma getTraceIndex_Writes trace :
  forall parent w,
    d_instance w <> None ->
    exists idx w' recs,
      getTraceIndex trace parent
        (fun ip index => writeRecord (NATIVE_TRACE_INDEX ip index)) w = Ok idx w'
      /\ Writes w w' recs
      /\ forallb is_NATIVE_TRACE_INDEX recs = true.
Proof.
  induction trace as [|ip rest IH]; intros parent w H.
  - exists parent, w, []. split; [reflexivity|].
    split; [apply Writes_refl; assumption | reflexivity].
  - cbn [getTraceIndex].
    destruct (d_instance w) as [t|] eqn:E; [|congruence].
    unfold bind at 1. unfold getTracker at 1. rewrite E.
    destruct (tree_find parent ip (d_native_trace_tree t)) as [i|].
    + apply IH. congruence.
    + unfold update_tracker, bind at 1 2, getTracker at 1. rewrite E.
      unfold modify at 1.
      pose proof (set_tree_Writes w t (d_native_trace_tree t ++ [(parent, ip)]) E) as W0.
      set (w0 := set_instance _ w) in *.
      destruct (writeRecord_Writes (NATIVE_TRACE_INDEX ip parent) w0)
        as (ok & w1 & E1 & W1 & _); [apply (wr_inst _ _ _ W0)|].
      rewrite (bind_Ok _ _ _ _ _ E1).
      pose proof (Writes_trans _ _ _ _ _ W0 W1) as W01. simpl in W01.
      destruct ok.
      * destruct (IH (N.of_nat (List.length (d_native_trace_tree t)) + 1) w1)
          as (idx & w2 & r2 & E2 & W2 & F2); [apply (wr_inst _ _ _ W1)|].
        exists idx, w2, ([NATIVE_TRACE_INDEX ip parent] ++ r2).
        split; [assumption|]. split; [apply (Writes_trans _ _ _ _ _ W01 W2)|].
        simpl. assumption.
      * exists 0, w1, []. split; [reflexivity|]. split; [assumption | reflexivity].
Qed.

(** *** The two flushes *)

Lemma Writes_set_stack_tracker w w1 recs st :
  Writes w w1 recs ->
  Writes (set_stack_tracker st w) (set_stack_tracker st w1) recs.
Proof.
  intros [a b c d e f g]. constructor; simpl; auto.
Qed.

Lemma emitPendingPops_spec w :
  d_instance w <> None ->
  exists w' run,
    emitPendingPops env w = Ok tt w'
    /\ Writes (set_stack_tracker (set_pending 0 (t_python_stack_tracker w)) w) w'
              (map (FRAME_POP (thread_id env)) run)
    /\ Forall (fun c => 1 <= c <= 255) run
    /\ sum_N run <= d_num_pending_pops (t_python_stack_tracker w)
    /\ (healthy w -> sum_N run = d_num_pending_pops (t_python_stack_tracker w))
    /\ (d_num_pending_pops (t_python_stack_tracker w) = 0 -> run = []).
Proof.
  intros H.
  destruct (popFrames_Writes (d_num_pending_pops (t_python_stack_tracker w)) w H)
    as (ok & w1 & run & E & W & F & S & T & Hh & Z0).
  unfold emitPendingPops, bind at 1, tracker_get.
  destruct (d_instance w) as [t|] eqn:Et; [|congruence].
  unfold bind at 1, getTracker. rewrite Et.
  rewrite (bind_Ok _ _ _ _ _ E). unfold tracker_upd, modify.
  eexists; exists run. split; [reflexivity|].
  rewrite (wr_stack _ _ _ W).
  split; [apply Writes_set_stack_tracker; assumption|].
  repeat (split; [assumption|]). split; [|assumption].
  intros Hw. apply T, Hh, Hw.
Qed.

Lemma emitPendingPushes_spec w :
  d_instance w <> None ->
  exists w' recs m,
    emitPendingPushes env w = Ok tt w'
    /\ Writes
         (set_stack_tracker
            (set_stack (option_map (pushed_stack m) (d_stack (t_python_stack_tracker w)))
                       (t_python_stack_tracker w)) w)
         w' recs
    /\ forallb is_push_or_index recs = true
    /\ List.length (filter is_FRAME_PUSH recs) = m
    /\ (m <= List.length (skipn (last_emitted_base (stack_of w)) (stack_of w)))%nat
    /\ (healthy w ->
        m = List.length (skipn (last_emitted_base (stack_of w)) (stack_of w))).
Proof.
  intros H. unfold emitPendingPushes, bind at 1, tracker_get, stack_of.
  destruct (d_stack (t_python_stack_tracker w)) as [s|] eqn:Es.
  - destruct (emit_from_spec (skipn (last_emitted_base s) s) w H)
      as (l' & w1 & recs & m & E & W & F & Lm & -> & C & Hh).
    rewrite (bind_Ok _ _ _ _ _ E). unfold tracker_upd, modify.
    eexists; exists recs, m. split; [reflexivity|].
    rewrite (wr_stack _ _ _ W). simpl.
    split; [apply Writes_set_stack_tracker; assumption|]. auto.
  - exists w, [], O. split; [reflexivity|]. simpl.
    replace (set_stack None (t_python_stack_tracker w)) with (t_python_stack_tracker w)
      by (destruct (t_python_stack_tracker w); unfold set_stack; simpl in *;
          subst; reflexivity).
    rewrite set_stack_tracker_same.
    split; [apply Writes_refl; assumption|]. auto.
Qed.

(** *** The shape of the emitted flags *)

Lemma S1_app a b :
  all_emitted a = true -> none_emitted b = true -> S1 (a ++ b).
Proof.
  unfold all_emitted, none_emitted. rewrite !forallb_forall.
  intros Ha Hb i j fi fj Hi Hj Hlt He.
  destruct (Nat.lt_ge_cases i (List.length a)) as [Hia|Hia].
  - apply Ha. rewrite nth_error_app1 in Hj by lia.
    eapply nth_error_In; eassumption.
  - rewrite nth_error_app2 in Hi by lia. apply nth_error_In in Hi.
    apply Hb in Hi. rewrite He in Hi. discriminate.
Qed.

Lemma S1_tail f s : S1 (f :: s) -> S1 s.
Proof.
  intros H i j fi fj Hi Hj Hlt He.
  apply (H (S i) (S j) fi fj); simpl; auto; lia.
Qed.

Lemma S1_split s :
  S1 s ->
  exists a b, s = a ++ b /\ all_emitted a = true /\ none_emitted b = true.
Proof.
  induction s as [|f s IH]; intros H.
  - exists [], []. auto.
  - destruct (IH (S1_tail _ _ H)) as (a & b & -> & Ha & Hb).
    destruct (emitted f) eqn:Ef.
    + exists (f :: a), b. simpl. rewrite Ef. auto.
    + exists [], (f :: a ++ b). simpl. rewrite Ef. simpl.
      repeat split; auto. unfold none_emitted. apply forallb_forall.
      intros x Hx. destruct (emitted x) eqn:Ex; [|reflexivity].
      apply In_nth_error in Hx as [n Hn].
      assert (emitted f = true).
      { apply (H (S n) O x f); simpl; auto; lia. }
      congruence.
Qed.

Lemma S1_prefix a b : S1 (a ++ b) -> S1 a.
Proof.
  intros H i j fi fj Hi Hj Hlt He.
  apply (H i j fi fj); auto; rewrite nth_error_app1; auto;
    apply nth_error_Some; congruence.
Qed.

Lemma find_if_none_emitted (l rest : list LazilyEmittedFrame) :
  none_emitted l = true ->
  find_if emitted (l ++ rest) = (List.length l + find_if emitted rest)%nat.
Proof.
  induction l as [|f l IH]; simpl; intros H; auto.
  apply andb_true_iff in H as [Hf Hl].
  destruct (emitted f); [discriminate|]. now rewrite IH.
Qed.

Lemma none_emitted_rev l : none_emitted (rev l) = none_emitted l.
Proof.
  unfold none_emitted. induction l as [|f l IH]; simpl; auto.
  rewrite forallb_app, IH. simpl. rewrite andb_true_r. apply andb_comm.
Qed.

Lemma last_emitted_base_split a b :
  all_emitted a = true -> none_emitted b = true ->
  last_emitted_base (a ++ b) = List.length a.
Proof.
  intros Ha Hb. unfold last_emitted_base.
  rewrite rev_app_distr, find_if_none_emitted by now rewrite none_emitted_rev.
  rewrite length_rev, length_app.
  assert (find_if emitted (rev a) = O).
  { destruct a as [|x a _] using rev_ind; [reflexivity|].
    rewrite rev_unit. simpl.
    unfold all_emitted in Ha. rewrite forallb_app in Ha.
    apply andb_true_iff in Ha as [_ Hx]. simpl in Hx.
    now destruct (emitted x). }
  lia.
Qed.

Lemma none_emitted_firstn_skipn m l :
  none_emitted l = true ->
  none_emitted (firstn m l) = true /\ none_emitted (skipn m l) = true.
Proof.
  intros H. rewrite <- (firstn_skipn m l) in H.
  unfold none_emitted in *. rewrite forallb_app in H.
  now apply andb_true_iff in H.
Qed.

Lemma none_emitted_skipn m l : none_emitted l = true -> none_emitted (skipn m l) = true.
Proof. intros H. apply (none_emitted_firstn_skipn m l H). Qed.

Lemma all_emitted_mark l : all_emitted (map mark_emitted l) = true.
Proof. induction l; simpl; auto. Qed.

Lemma S1_pushed_stack m s : S1 s -> S1 (pushed_stack m s).
Proof.
  intros H. destruct (S1_split s H) as (a & b & -> & Ha & Hb).
  unfold pushed_stack. rewrite (last_emitted_base_split a b Ha Hb).
  rewrite firstn_app, skipn_app, Nat.sub_diag, firstn_all, skipn_all. simpl.
  rewrite app_nil_r, app_assoc. apply S1_app.
  - unfold all_emitted. rewrite forallb_app. fold (all_emitted a).
    rewrite Ha. apply all_emitted_mark.
  - apply none_emitted_skipn, Hb.
Qed.

(** *** The operations of the stack tracker in closed form *)

Lemma reset_eq f w :
  reset f w
  = Ok tt (set_stack_tracker
             (mkStackTracker (d_num_pending_pops (t_python_stack_tracker w)) f
                (option_map (fun _ => []) (d_stack (t_python_stack_tracker w)))) w).
Proof.
  unfold reset, bind, tracker_upd, tracker_get, modify, ret, set_entry, set_stack.
  simpl. destruct (d_stack (t_python_stack_tracker w)); reflexivity.
Qed.

Lemma pushPythonFrame_eq f fn file l w :
  pushPythonFrame f fn file l w
  = Ok tt (set_stack_tracker
             (set_stack (Some (stack_of w ++ [mkLazy f (mkRawFrame fn file l) false]))
                        (t_python_stack_tracker w)) w).
Proof. reflexivity. Qed.

Lemma resetInChildProcess_eq w :
  resetInChildProcess w
  = Ok tt (set_stack_tracker
             (mkStackTracker 0 (d_entry_frame (t_python_stack_tracker w))
                (option_map (map unmark) (d_stack (t_python_stack_tracker w)))) w).
Proof.
  unfold resetInChildProcess, bind, tracker_upd, tracker_get, modify, ret,
    set_pending, set_stack.
  simpl. destruct (d_stack (t_python_stack_tracker w)); reflexivity.
Qed.

Lemma getCurrentPythonLineNumber_eq w :
  getCurrentPythonLineNumber env w
  = if (d_entry_frame (t_python_stack_tracker w) =? nullptr)
       || (0 <? Py_REFCNT env (d_entry_frame (t_python_stack_tracker w)))%Z
    then Ok (if top_frame_ptr w =? nullptr then 0%Z
             else PyFrame_GetLineNumber env (top_frame_ptr w)) w
    else Abort.
Proof.
  unfold getCurrentPythonLineNumber, bind, tracker_get, assert, top_frame_ptr, stack_of.
  destruct (_ || _); [|reflexivity]. unfold ret.
  destruct (d_stack (t_python_stack_tracker w)); reflexivity.
Qed.

Lemma entry_frame_alive_true w :
  entry_frame_alive env w ->
  (d_entry_frame (t_python_stack_tracker w) =? nullptr)
  || (0 <? Py_REFCNT env (d_entry_frame (t_python_stack_tracker w)))%Z = true.
Proof.
  intros [H|H]; apply orb_true_iff; [left; now apply N.eqb_eq | right; now apply Z.ltb_lt].
Qed.

Lemma popPythonFrame_empty w :
  stack_of w = [] ->
  popPythonFrame env w
  = Ok tt (set_stack_tracker (set_entry nullptr (t_python_stack_tracker w)) w).
Proof.
  unfold stack_of, popPythonFrame, bind at 1, tracker_get.
  destruct (d_stack (t_python_stack_tracker w)) as [s|]; [|reflexivity].
  intros ->. reflexivity.
Qed.

Lemma back_snoc {A} (s : list A) x : back (s ++ [x]) = Some x.
Proof. unfold back. now rewrite rev_unit. Qed.

Lemma empty_snoc {A} (s : list A) x : empty (s ++ [x]) = false.
Proof. destruct s; reflexivity. Qed.

Lemma popPythonFrame_snoc w s top :
  d_stack (t_python_stack_tracker w) = Some (s ++ [top]) ->
  popPythonFrame env w
  = let n := popped_count (d_num_pending_pops (t_python_stack_tracker w)) top in
    if emitted top && (n =? 0) then Abort
    else
      let w1 := set_stack_tracker
                  (mkStackTracker n (d_entry_frame (t_python_stack_tracker w)) (Some s)) w in
      if empty s then emitPendingPops env w1 else Ok tt w1.
Proof.
  intros E. unfold popPythonFrame, bind at 1, tracker_get. rewrite E.
  rewrite empty_snoc, back_snoc. cbn [negb]. unfold pop_back.
  rewrite removelast_last. unfold popped_count.
  destruct (emitted top); cbn [andb].
  - unfold bind at 1 2, tracker_upd at 1, modify at 1, assert.
    destruct (_ =? 0); cbn [negb]; [reflexivity|].
    unfold ret at 1, bind at 1, tracker_upd at 1, modify at 1. cbn.
    destruct (empty s); reflexivity.
  - unfold bind at 1 2, ret at 1, tracker_upd at 1, modify at 1. cbn.
    destruct (empty s); reflexivity.
Qed.

Lemma emitPendingPops_Ok w r w' :
  emitPendingPops env w = Ok r w' ->
  t_python_stack_tracker w' = set_pending 0 (t_python_stack_tracker w).
Proof.
  intros H. destruct (d_instance w) as [t|] eqn:E.
  - destruct (emitPendingPops_spec w) as (w1 & run & E1 & W & _); [congruence|].
    rewrite E1 in H. inversion H; subst. apply (wr_stack _ _ _ W).
  - unfold emitPendingPops, bind, tracker_get, getTracker in H.
    rewrite E in H. discriminate.
Qed.

Lemma emitPendingPushes_Ok w r w' :
  emitPendingPushes env w = Ok r w' ->
  exists m,
    d_stack (t_python_stack_tracker w')
    = option_map (pushed_stack m) (d_stack (t_python_stack_tracker w)).
Proof.
  intros H. destruct (d_instance w) as [t|] eqn:E.
  - destruct (emitPendingPushes_spec w) as (w1 & recs & m & E1 & W & _); [congruence|].
    rewrite E1 in H. inversion H; subst. exists m.
    rewrite (wr_stack _ _ _ W). reflexivity.
  - unfold emitPendingPushes, bind at 1, tracker_get in H.
    destruct (d_stack (t_python_stack_tracker w)) as [s|] eqn:Es.
    + exists O. unfold pushed_stack. simpl.
      destruct (skipn (last_emitted_base s) s) as [|f rest] eqn:Ek.
      * unfold bind, emit_from, ret, tracker_upd, modify in H.
        inversion H; subst. reflexivity.
      * cbn [emit_from] in H. unfold bind, getTracker in H.
        rewrite E in H. discriminate.
    + inversion H; subst. exists O. rewrite Es. reflexivity.
Qed.

(** The record-writing methods do not look at the thread's stack tracker. *)
Lemma writeRecord_set_stack_tracker r st w :
  writeRecord r (set_stack_tracker st w)
  = map_world (set_stack_tracker st) (writeRecord r w).
Proof.
  unfold writeRecord, bind, getTracker. simpl.
  destruct (d_instance w) as [t|]; [|reflexivity].
  destruct (writer_write r (d_writer t)); reflexivity.
Qed.

Lemma popFrames_set_stack_tracker count st :
  forall w,
    popFrames env count (set_stack_tracker st w)
    = map_world (set_stack_tracker st) (popFrames env count w).
Proof.
  induction count as [count IH] using (well_founded_induction N.lt_wf_0).
  intros w. rewrite (popFrames_step count w), popFrames_step.
  destruct (N.eqb_spec count 0) as [->|Hc]; [reflexivity|].
  cbv zeta. rewrite writeRecord_set_stack_tracker.
  destruct (writeRecord _ w) as [[] w1|e w1|]; try reflexivity.
  simpl. apply IH. destruct (N.ltb_spec 255 count); lia.
Qed.

Lemma emitPendingPops_with_stack s w :
  emitPendingPops env (with_stack s w)
  = map_world (with_stack s) (emitPendingPops env w).
Proof.
  unfold emitPendingPops, bind, tracker_get, getTracker, with_stack,
    tracker_upd, modify.
  simpl. destruct (d_instance w) as [t|] eqn:E; [|reflexivity].
  rewrite popFrames_set_stack_tracker.
  destruct (popFrames_Writes (d_num_pending_pops (t_python_stack_tracker w)) w)
    as (ok & w1 & run & E1 & W & _); [congruence|].
  rewrite E1. simpl. rewrite (wr_stack _ _ _ W). reflexivity.
Qed.

End Facts.

(** ** Further facts used by the main results *)

Lemma S1_nil : S1 [].
Proof. intros i j fi fj Hi. destruct i; discriminate. Qed.

(** A thread starts with a null [d_stack], which satisfies (S1). *)
Lemma S1_world_null w :
  d_stack (t_python_stack_tracker w) = None -> S1_world w.
Proof. unfold S1_world, stack_of. intros ->. apply S1_nil. Qed.

Lemma S1_push s f : S1 s -> emitted f = false -> S1 (s ++ [f]).
Proof.
  intros H Ef. destruct (S1_split s H) as (a & b & -> & Ha & Hb).
  rewrite <- app_assoc. apply S1_app; [assumption|].
  unfold none_emitted in *. rewrite forallb_app, Hb. simpl. now rewrite Ef.
Qed.

Lemma S1_unmark s : S1 (map unmark s).
Proof.
  apply (S1_app [] (map unmark s)); [reflexivity|].
  unfold none_emitted. induction s; simpl; auto.
Qed.

Lemma popPythonFrame_returns env w s top :
  d_instance w <> None ->
  d_num_pending_pops (t_python_stack_tracker w) + 1 < UINT32_MOD ->
  d_stack (t_python_stack_tracker w) = Some (s ++ [top]) ->
  exists w', popPythonFrame env w = Ok tt w'.
Proof.
  intros Hinst Hroom Es. rewrite (popPythonFrame_snoc env w s top Es). cbv zeta.
  assert (Hz : emitted top
               && (popped_count (d_num_pending_pops (t_python_stack_tracker w)) top =? 0)
               = false).
  { unfold popped_count. destruct (emitted top); [|reflexivity].
    simpl. apply N.eqb_neq. rewrite N.mod_small by assumption. lia. }
  rewrite Hz. destruct (empty s); [|eauto].
  set (w1 := set_stack_tracker _ w).
  destruct (emitPendingPops_spec env w1 Hinst) as (w' & run & E & _). eauto.
Qed.

Lemma set_guard_restore st w :
  set_guard (isActive w) (set_stack_tracker st (set_guard true w))
  = set_stack_tracker st w.
Proof. destruct w; reflexivity. Qed.

Lemma set_guard_same w : set_guard (isActive w) (set_guard true w) = w.
Proof. destruct w; reflexivity. Qed.

(** *** The module map when no write fails *)

Lemma write_segments_healthy segments :
  forall w,
    healthy w ->
    exists w',
      write_segments segments w = Ok 0%Z w'
      /\ Writes w w' (map (fun s => SEGMENT (fst s) (snd s)) segments).
Proof.
  induction segments as [|[vaddr memsz] rest IH]; intros w Hw.
  - exists w. split; [reflexivity|]. apply Writes_refl.
    unfold healthy in Hw. destruct (d_instance w); [discriminate | contradiction].
  - cbn [write_segments]. unfold writeRecordUnsafe.
    destruct (writeRecord_Writes (SEGMENT vaddr memsz) w) as (ok & w1 & E & W & Hh).
    { unfold healthy in Hw. destruct (d_instance w); [discriminate | contradiction]. }
    rewrite (bind_Ok _ _ _ _ _ E). rewrite (Hh Hw) in *.
    destruct (IH w1) as (w2 & E2 & W2); [apply (wr_ok _ _ _ W Hw)|].
    exists w2. split; [assumption|]. apply (Writes_trans _ _ _ [_] _ W W2).
Qed.

Lemma get_executable_ok env w :
  readlink_ok env = true -> get_executable env w = Ok (executable env) w.
Proof.
  unfold readlink_ok, get_executable, executable.
  destruct (readlink_proc_self_exe env) as [len buff]. simpl.
  intros H. apply andb_true_iff in H as [H1 H2].
  destruct (PATH_MAX <? len)%Z; [discriminate|].
  destruct (len =? -1)%Z; [discriminate | reflexivity].
Qed.

Lemma healthy_inst w : healthy w -> d_instance w <> None.
Proof. unfold healthy. destruct (d_instance w); [discriminate | contradiction]. Qed.

Lemma callback_healthy env info w :
  readlink_ok env = true -> healthy w ->
  exists w',
    dl_iterate_phdr_callback env info w = Ok 0%Z w'
    /\ Writes w w' (object_records (executable env) info).
Proof.
  intros Hexe Hw. unfold dl_iterate_phdr_callback, object_records. cbv zeta.
  assert (Ef : (if String.eqb (dlpi_name info) "" then get_executable env
                else ret (dlpi_name info)) w
               = Ok (if String.eqb (dlpi_name info) "" then executable env
                     else dlpi_name info) w).
  { destruct (String.eqb (dlpi_name info) ""); [now apply get_executable_ok | reflexivity]. }
  rewrite (bind_Ok _ _ _ _ _ Ef).
  destruct (starts_with _ "linux-vdso.so").
  - exists w. split; [reflexivity|]. apply Writes_refl, healthy_inst, Hw.
  - unfold writeRecordUnsafe.
    destruct (writeRecord_Writes
                (SEGMENT_HEADER
                   (if String.eqb (dlpi_name info) "" then executable env else dlpi_name info)
                   (N.of_nat (List.length (load_segments info))) (dlpi_addr info)) w)
      as (ok & w1 & E & W & Hh); [apply healthy_inst, Hw|].
    rewrite (bind_Ok _ _ _ _ _ E). rewrite (Hh Hw) in *.
    destruct (write_segments_healthy (load_segments info) w1) as (w2 & E2 & W2);
      [apply (wr_ok _ _ _ W Hw)|].
    exists w2. split; [assumption|]. apply (Writes_trans _ _ _ [_] _ W W2).
Qed.

Lemma dl_iterate_phdr_healthy env objects :
  forall w,
    readlink_ok env = true -> healthy w ->
    exists w',
      dl_iterate_phdr (dl_iterate_phdr_callback env) objects w = Ok 0%Z w'
      /\ Writes w w' (flat_map (object_records (executable env)) objects).
Proof.
  induction objects as [|info rest IH]; intros w Hexe Hw.
  - exists w. split; [reflexivity|]. apply Writes_refl, healthy_inst, Hw.
  - cbn [dl_iterate_phdr flat_map].
    destruct (callback_healthy env info w Hexe Hw) as (w1 & E & W).
    rewrite (bind_Ok _ _ _ _ _ E). cbn.
    destruct (IH w1 Hexe) as (w2 & E2 & W2); [apply (wr_ok _ _ _ W Hw)|].
    exists w2. split; [assumption|]. apply (Writes_trans _ _ _ _ _ W W2).
Qed.

Lemma updateModuleCache_healthy env w t :
  readlink_ok env = true -> healthy w -> d_instance w = Some t ->
  exists w',
    updateModuleCache env w = Ok tt w'
    /\ Writes w w' (if d_unwind_native_frames t then module_map env else []).
Proof.
  intros Hexe Hw Et. unfold updateModuleCache, updateModuleCacheImpl.
  unfold bind at 1, getTracker. rewrite Et.
  destruct (d_unwind_native_frames t); cbn [negb].
  - unfold writeSimpleType.
    destruct (writeRecord_Writes MEMORY_MAP_START w) as (ok & w1 & E & W & Hh);
      [congruence|].
    rewrite (bind_Ok _ _ _ _ _ E). rewrite (Hh Hw) in *.
    unfold bind at 1, ret at 1.
    destruct (dl_iterate_phdr_healthy env (loaded_objects env) w1 Hexe) as (w2 & E2 & W2);
      [apply (wr_ok _ _ _ W Hw)|].
    rewrite (bind_Ok _ _ _ _ _ E2). exists w2. split; [reflexivity|].
    apply (Writes_trans _ _ _ [_] _ W W2).
  - exists w. split; [reflexivity|]. apply Writes_refl. congruence.
Qed.

Lemma install_trace_function_ok env w :
  PyGILState_Check env = true ->
  exists w',
    install_trace_function env w = Ok tt w'
    /\ d_instance w' = d_instance w /\ isActive w' = isActive w.
Proof.
  intros Hgil. unfold install_trace_function, assert. rewrite Hgil.
  unfold bind at 1, ret at 1, with_RecursionGuard, bind at 1, get.
  cbn [c_profilefunc set_guard].
  destruct (c_profilefunc w).
  - unfold ret. eexists. split; [reflexivity|]. split; reflexivity.
  - unfold bind, modify. rewrite reset_eq. eexists.
    split; [reflexivity|]. split; reflexivity.
Qed.

(** *** One event of the allocation path *)

Lemma Emits_of_Writes w0 w w' recs :
  d_instance w0 = d_instance w -> Writes w0 w' recs -> Emits w w' recs.
Proof.
  intros E [a b c d e f g]. unfold output, healthy in *. rewrite E in *.
  constructor; auto. intros H. apply (g H).
Qed.

Lemma Emits_trans w1 w2 w3 r1 r2 :
  Emits w1 w2 r1 -> Emits w2 w3 r2 -> Emits w1 w3 (r1 ++ r2).
Proof.
  intros [a1 b1 c1 d1] [a2 b2 c2 d2]. constructor; auto; try congruence.
  rewrite c2, c1, app_assoc. reflexivity.
Qed.

Lemma pop_records_sum tid run :
  forallb is_FRAME_POP (map (FRAME_POP tid) run) = true
  /\ sum_N (map pop_count (map (FRAME_POP tid) run)) = sum_N run.
Proof.
  induction run as [|c run [IH1 IH2]]; simpl; auto. now rewrite IH2.
Qed.

(** The two flushes at the start of both entry points. *)
Lemma flushes_spec env w :
  d_instance w <> None ->
  exists w2 run pushes,
    (emitPendingPops env ;;; emitPendingPushes env) w = Ok tt w2
    /\ Emits w w2 (map (FRAME_POP (thread_id env)) run ++ pushes)
    /\ forallb is_push_or_index pushes = true
    /\ (healthy w ->
        sum_N run = d_num_pending_pops (t_python_stack_tracker w)
        /\ List.length (filter is_FRAME_PUSH pushes)
           = List.length (skipn (last_emitted_base (stack_of w)) (stack_of w))).
Proof.
  intros Hinst.
  destruct (emitPendingPops_spec env w Hinst) as (w1 & run & E1 & W1 & _ & _ & S1 & _).
  rewrite (bind_Ok _ _ _ _ _ E1).
  destruct (emitPendingPushes_spec env w1 (wr_inst _ _ _ W1))
    as (w2 & pushes & m & E2 & W2 & F2 & C2 & _ & H2).
  exists w2, run, pushes. split; [assumption|].
  assert (Em1 : Emits w w1 (map (FRAME_POP (thread_id env)) run))
    by (eapply Emits_of_Writes; [|exact W1]; reflexivity).
  assert (Em2 : Emits w1 w2 pushes)
    by (eapply Emits_of_Writes; [|exact W2]; reflexivity).
  split; [apply (Emits_trans _ _ _ _ _ Em1 Em2)|]. split; [assumption|].
  intros Hw. split; [apply S1, Hw|].
  rewrite C2, H2 by (apply (em_ok _ _ _ Em1 Hw)).
  unfold stack_of. rewrite (wr_stack _ _ _ W1). reflexivity.
Qed.

(** The last write of both entry points. *)
Lemma allocation_write_spec r w :
  d_instance w <> None ->
  exists w' allocs,
    ((ok <- writeRecord (ALLOCATION r) ;;
      if ok then ret tt else fail_write write_failed_msg_short) : M unit) w = Ok tt w'
    /\ Emits w w' allocs
    /\ forallb is_ALLOCATION allocs = true
    /\ (List.length allocs <= 1)%nat
    /\ (healthy w -> List.length allocs = 1%nat).
Proof.
  intros Hinst.
  destruct (checked_write_Writes (ALLOCATION r) write_failed_msg_short w Hinst)
    as (ok & w' & E & W & Hh).
  exists w', (if ok then [ALLOCATION r] else []). split; [assumption|].
  split; [eapply Emits_of_Writes; [|exact W]; reflexivity|].
  destruct ok; simpl; repeat split; auto.
  intros Hw. specialize (Hh Hw). discriminate.
Qed.

(** * Main results *)

(** C1 as the claim states it fails: a construction without native traces
    writes the header and no module map. *)
Lemma C1_counterexample :
  (exists w',
      Tracker_ctor env0 (mkWriter [] []) false 10 false world_blank = Ok tt w'
      /\ output w' = [HEADER false])
  /\ ~ ctor_output_as_claimed env0 (mkWriter [] []) false 10 false world_blank.
Proof.
  split.
  - eexists. split; reflexivity.
  - intros (w' & rest & E & Ho). vm_compute in E. inversion E; subst.
    vm_compute in Ho. discriminate.
Qed.

(** C1, amended: a construction whose writes succeed leaves an output that
    begins with the non-terminal header; with native traces enabled the
    header is followed by the module map, [MEMORY_MAP_START] and then the
    segment header and segments of every loaded object that is not the
    virtual DSO; with native traces disabled no module map is written.
    Nothing else is written by the constructor, which ends with tracking
    active.  The host must hold its lock and the operating system must
    answer: the statm file opens and the executable's path can be read. *)
Theorem C1_ctor_output env record_writer native_traces memory_interval follow_fork w
  (Hgil : PyGILState_Check env = true)
  (Hstatm : statm_opens env = true)
  (Hexe : readlink_ok env = true)
  (Hwriter : never_fails record_writer = true) :
  exists w',
    Tracker_ctor env record_writer native_traces memory_interval follow_fork w = Ok tt w'
    /\ output w'
       = w_log record_writer
         ++ HEADER false :: (if native_traces then module_map env else [])
    /\ d_active w' = true.
Proof.
  unfold Tracker_ctor. unfold bind at 1, modify at 1.
  set (t0 := mkTracker record_writer native_traces memory_interval follow_fork [] []).
  set (w1 := set_instance (Some t0) w).
  assert (H1 : healthy w1) by exact Hwriter.
  unfold writeHeader.
  destruct (writeRecord_Writes (HEADER false) w1) as (ok & w2 & E2 & W2 & Hh);
    [discriminate|].
  rewrite (bind_Ok _ _ _ _ _ E2). rewrite (Hh H1) in *. cbn [negb].
  destruct (wr_ok _ _ _ W2 H1) as (H2 & _).
  assert (Hcfg : exists t2, d_instance w2 = Some t2 /\ d_unwind_native_frames t2 = native_traces).
  { pose proof (wr_cfg _ _ _ W2) as C. pose proof (wr_inst _ _ _ W2) as I.
    destruct (d_instance w2) as [t2|]; [|congruence].
    exists t2. split; [reflexivity|]. simpl in C. congruence. }
  destruct Hcfg as (t2 & Et2 & Ecfg).
  destruct (updateModuleCache_healthy env w2 t2 Hexe H2 Et2) as (w3 & E3 & W3).
  rewrite (bind_Ok _ _ _ _ _ E3). rewrite Ecfg in W3.
  unfold with_RecursionGuard.
  destruct (install_trace_function_ok env (set_guard true w3) Hgil) as (w4 & E4 & I4 & _).
  rewrite (bind_Ok _ _ _ _ _ E4). rewrite Hstatm.
  unfold bind, ret, Tracker_activate, modify.
  eexists. split; [reflexivity|]. split; [|reflexivity].
  unfold output. simpl. rewrite I4. simpl.
  change (match d_instance w3 with Some t => w_log (d_writer t) | None => [] end)
    with (output w3).
  rewrite (wr_out _ _ _ W3), (wr_out _ _ _ W2). unfold output, w1. simpl.
  rewrite <- app_assoc. reflexivity.
Qed.

Lemma C1_ctor_output_witness :
  exists w',
    Tracker_ctor env0 (mkWriter [] []) true 10 false world_blank = Ok tt w'
    /\ output w'
       = [HEADER false; MEMORY_MAP_START;
          SEGMENT_HEADER "/bin/pyth" 2 4096; SEGMENT 0 100; SEGMENT 200 50;
          SEGMENT_HEADER "libc.so" 1 8192; SEGMENT 0 7]
    /\ d_active w' = true.
Proof.
  apply (C1_ctor_output env0 (mkWriter [] []) true 10 false world_blank);
    reflexivity.
Defined.

(** C2: [popPythonFrame].  On a non-empty shadow stack it removes the top
    frame, adds one to the pending-pop counter exactly when that frame was
    emitted, and, when the stack has become empty, flushes the pending pops
    at once (the counter is back to zero and the [FRAME_POP] run is in the
    output); otherwise nothing is written.  On an empty or absent stack it
    clears the entry frame and changes nothing else.  The tracker has to
    exist and the counter must have room for one more pop, which the code
    asserts. *)
Theorem C2_pop env w
  (Hinst : d_instance w <> None)
  (Hroom : d_num_pending_pops (t_python_stack_tracker w) + 1 < UINT32_MOD) :
  (forall s top,
      d_stack (t_python_stack_tracker w) = Some (s ++ [top]) ->
      let n := if emitted top
               then d_num_pending_pops (t_python_stack_tracker w) + 1
               else d_num_pending_pops (t_python_stack_tracker w) in
      exists w',
        popPythonFrame env w = Ok tt w'
        /\ d_stack (t_python_stack_tracker w') = Some s
        /\ d_entry_frame (t_python_stack_tracker w')
           = d_entry_frame (t_python_stack_tracker w)
        /\ (s <> [] ->
            w' = set_stack_tracker
                   (mkStackTracker n (d_entry_frame (t_python_stack_tracker w)) (Some s)) w)
        /\ (s = [] ->
            d_num_pending_pops (t_python_stack_tracker w') = 0
            /\ exists run,
                output w' = output w ++ map (FRAME_POP (thread_id env)) run
                /\ Forall (fun c => 1 <= c <= 255) run
                /\ (healthy w -> sum_N run = n)))
  /\ (stack_of w = [] ->
      popPythonFrame env w
      = Ok tt (set_stack_tracker (set_entry nullptr (t_python_stack_tracker w)) w)).
Proof.
  split; [|apply popPythonFrame_empty].
  intros s top Es n.
  rewrite (popPythonFrame_snoc env w s top Es). cbv zeta.
  assert (En : popped_count (d_num_pending_pops (t_python_stack_tracker w)) top = n).
  { unfold popped_count, n. destruct (emitted top); [|reflexivity].
    apply N.mod_small. assumption. }
  rewrite En.
  assert (Hz : emitted top && (n =? 0) = false).
  { unfold n. destruct (emitted top); [|reflexivity].
    simpl. apply N.eqb_neq. lia. }
  rewrite Hz.
  set (w1 := set_stack_tracker _ w).
  destruct s as [|x s']; cbn [empty].
  - destruct (emitPendingPops_spec env w1 Hinst)
      as (w' & run & E & W & F & _ & S & _).
    exists w'. split; [assumption|]. rewrite (wr_stack _ _ _ W). simpl.
    split; [reflexivity|]. split; [reflexivity|].
    split; [intros C; contradiction|]. intros _. split; [reflexivity|].
    exists run. split; [apply (wr_out _ _ _ W)|]. split; [assumption|].
    intros Hw. apply S. exact Hw.
  - exists w1. split; [reflexivity|]. simpl.
    split; [reflexivity|]. split; [reflexivity|].
    split; [reflexivity | discriminate].
Qed.

Lemma C2_pop_witness :
  (exists w',
      popPythonFrame env0 (with_stack (Some [frame_f1]) world0) = Ok tt w'
      /\ d_stack (t_python_stack_tracker w') = Some []
      /\ d_num_pending_pops (t_python_stack_tracker w') = 0
      /\ exists run,
          output w' = [HEADER false] ++ map (FRAME_POP 42) run
          /\ sum_N run = 4)
  /\ popPythonFrame env0 world0
     = Ok tt (set_stack_tracker (mkStackTracker 3 7 (Some [frame_f1])) world0).
Proof.
  assert (Hinst : forall s, d_instance (with_stack s world0) <> None) by discriminate.
  assert (Hroom : forall s,
             d_num_pending_pops (t_python_stack_tracker (with_stack s world0)) + 1
             < UINT32_MOD) by (intros; reflexivity).
  split.
  - destruct (C2_pop env0 _ (Hinst (Some [frame_f1])) (Hroom (Some [frame_f1])))
      as [H _].
    destruct (H [] frame_f1 eq_refl) as (w' & E & Hs & _ & _ & Hflush).
    destruct (Hflush eq_refl) as (Hz & run & Ho & _ & Hsum).
    exists w'. split; [exact E|]. split; [exact Hs|]. split; [exact Hz|].
    exists run. split; [exact Ho|]. apply Hsum. reflexivity.
  - destruct (C2_pop env0 _ (Hinst (Some [frame_f1; frame_f2]))
                (Hroom (Some [frame_f1; frame_f2]))) as [H _].
    destruct (H [frame_f1] frame_f2 eq_refl) as (w' & E & _ & _ & Hkeep & _).
    change (with_stack (Some [frame_f1; frame_f2]) world0) with world0 in E.
    rewrite E. f_equal. apply Hkeep. discriminate.
Defined.

(** C3: invariant (S1), the emitted frames are a prefix of the shadow stack,
    is kept by every operation of the stack tracker: whenever an operation
    returns from a state that satisfies (S1), the state it leaves satisfies
    (S1), whatever writes failed on the way; and the operation does return
    when the tracker exists, the counter has room and the entry frame is
    alive. *)
Theorem C3_S1_preserved env op w
  (HS1 : S1_world w) :
  (forall r w', run_op env op w = Ok r w' -> S1_world w')
  /\ (op_pre env w -> exists r w', run_op env op w = Ok r w').
Proof.
  unfold S1_world in *. split.
  - intros r w' H. destruct op; cbn [run_op] in H.
    + unfold bind in H. rewrite reset_eq in H. inversion H; subst.
      unfold stack_of. simpl.
      destruct (d_stack (t_python_stack_tracker w)); apply S1_nil.
    + unfold bind in H. rewrite pushPythonFrame_eq in H. inversion H; subst.
      unfold stack_of at 1. simpl. apply S1_push; auto.
    + unfold bind in H.
      destruct (popPythonFrame env w) as [[] w1| |] eqn:E; try discriminate.
      inversion H; subst w1. clear H.
      destruct (stack_of w) as [|x l] eqn:Es using rev_ind.
      * rewrite popPythonFrame_empty in E by assumption.
        inversion E; subst. unfold stack_of in *. simpl. rewrite Es. apply S1_nil.
      * clear IHl. unfold stack_of in Es.
        destruct (d_stack (t_python_stack_tracker w)) as [s|] eqn:Ed;
          [subst s | destruct l; discriminate].
        rewrite (popPythonFrame_snoc env w l x Ed) in E. cbv zeta in E.
        destruct (emitted x && _); [discriminate|].
        apply S1_prefix in HS1.
        destruct (empty l).
        -- apply emitPendingPops_Ok in E. unfold stack_of. rewrite E. simpl.
           assumption.
        -- inversion E; subst. assumption.
    + rewrite getCurrentPythonLineNumber_eq in H.
      destruct (_ || _); [|discriminate]. inversion H; subst. assumption.
    + unfold bind in H.
      destruct (emitPendingPops env w) as [[] w1| |] eqn:E; try discriminate.
      inversion H; subst w1. apply emitPendingPops_Ok in E.
      unfold stack_of. rewrite E. simpl. assumption.
    + unfold bind in H.
      destruct (emitPendingPushes env w) as [[] w1| |] eqn:E; try discriminate.
      inversion H; subst w1. apply emitPendingPushes_Ok in E as [m E].
      unfold stack_of in *. rewrite E.
      destruct (d_stack (t_python_stack_tracker w)); simpl;
        [apply S1_pushed_stack; assumption | apply S1_nil].
    + unfold bind in H. rewrite resetInChildProcess_eq in H. inversion H; subst.
      unfold stack_of. simpl.
      destruct (d_stack (t_python_stack_tracker w)); simpl;
        [apply S1_unmark | apply S1_nil].
  - intros (Hinst & Hroom & Halive). destruct op; cbn [run_op]; unfold bind.
    + rewrite reset_eq. eauto.
    + rewrite pushPythonFrame_eq. eauto.
    + destruct (stack_of w) as [|x l] eqn:Es using rev_ind.
      * rewrite popPythonFrame_empty by assumption. eauto.
      * clear IHl. unfold stack_of in Es.
        destruct (d_stack (t_python_stack_tracker w)) as [s|] eqn:Ed;
          [subst s | destruct l; discriminate].
        destruct (popPythonFrame_returns env w l x Hinst Hroom Ed) as (w' & E).
        rewrite E. eauto.
    + rewrite getCurrentPythonLineNumber_eq, entry_frame_alive_true by assumption.
      eauto.
    + destruct (emitPendingPops_spec env w Hinst) as (w' & run & E & _).
      rewrite E. eauto.
    + destruct (emitPendingPushes_spec env w Hinst) as (w' & recs & m & E & _).
      rewrite E. eauto.
    + rewrite resetInChildProcess_eq. eauto.
Qed.

Lemma C3_S1_preserved_witness :
  S1_world world_failing
  /\ exists w',
      run_op env0 OpEmitPendingPushes world_failing = Ok 0%Z w'
      /\ map emitted (stack_of w') = [true; true; false]
      /\ d_active w' = false
      /\ S1_world w'.
Proof.
  assert (HS1 : S1_world world_failing).
  { apply (S1_app [frame_f1] [frame_f2; frame_f3]); reflexivity. }
  split; [exact HS1|].
  destruct (C3_S1_preserved env0 OpEmitPendingPushes world_failing HS1) as [Hkeep Hret].
  destruct Hret as (r & w' & E).
  { split; [discriminate|]. split; [reflexivity | right; reflexivity]. }
  exists w'. pose proof (Hkeep r w' E) as HS1'.
  vm_compute in E. inversion E; subst.
  split; [reflexivity|]. split; [reflexivity|]. split; [reflexivity | exact HS1'].
Defined.

(** C4: when the recursion guard of the thread is set or the global active
    flag is false, [trackAllocationImpl] and [trackDeallocationImpl] return at
    once and leave the whole state as it was: nothing is written and the
    shadow stack, the pending-pop counter and the entry frame are untouched. *)
Theorem C4_gates env ptr size func w
  (Hgate : isActive w = true \/ d_active w = false) :
  trackAllocationImpl env ptr size func w = Ok tt w
  /\ trackDeallocationImpl env ptr size func w = Ok tt w.
Proof.
  unfold trackAllocationImpl, trackDeallocationImpl, bind, get.
  assert (E : isActive w || negb (d_active w) = true).
  { destruct Hgate as [-> | ->]; [reflexivity | apply orb_true_r]. }
  rewrite E. split; reflexivity.
Qed.

Lemma C4_gates_witness :
  trackAllocationImpl env0 170 16 1 (set_guard true world0) = Ok tt (set_guard true world0)
  /\ trackDeallocationImpl env0 170 16 1 (set_active false world0)
     = Ok tt (set_active false world0).
Proof.
  split.
  - apply (C4_gates env0 170 16 1 (set_guard true world0)). left. reflexivity.
  - apply (C4_gates env0 170 16 1 (set_active false world0)). right. reflexivity.
Defined.

(** C5: an allocation or deallocation event that passes the gates writes
    its records in this order: the [FRAME_POP] run, then the [FRAME_PUSH]
    records (each preceded by the [FRAME_INDEX] of a frame seen for the first
    time), then the native frames, then the [ALLOCATION] record; no pop
    follows a push of the same event.  When no write fails, the pops sum to
    the pending-pop counter, every pending frame gets its push and the
    allocation record is there.  The tracker has to exist and the entry
    frame has to satisfy the assertion of the code. *)
Theorem C5_pops_before_pushes env ptr size func w
  (Hguard : isActive w = false)
  (Hactive : d_active w = true)
  (Hinst : d_instance w <> None)
  (Halive : entry_frame_alive env w) :
  event_records_in_order w (trackAllocationImpl env ptr size func w)
  /\ event_records_in_order w (trackDeallocationImpl env ptr size func w).
Proof.
  assert (Egate : isActive w || negb (d_active w) = false)
    by (rewrite Hguard, Hactive; reflexivity).
  set (wg := set_guard true w).
  assert (Hline : getCurrentPythonLineNumber env wg = Ok (current_line env w) wg).
  { rewrite getCurrentPythonLineNumber_eq.
    change (t_python_stack_tracker wg) with (t_python_stack_tracker w).
    rewrite entry_frame_alive_true by assumption. reflexivity. }
  destruct (flushes_spec env wg Hinst) as (w2 & run & pushes & E2 & Em2 & F2 & H2).
  destruct (pop_records_sum (thread_id env) run) as [Fp Sp].
  assert (Ebody : forall k : M unit,
             (emitPendingPops env ;;; emitPendingPushes env ;;; k) wg = k w2).
  { intros k. unfold bind in *.
    destruct (emitPendingPops env wg) as [[] w1| |]; try discriminate.
    destruct (emitPendingPushes env w1) as [[] w2'| |]; try discriminate.
    inversion E2; subst. reflexivity. }
  split.
  - unfold trackAllocationImpl, bind at 1, get. rewrite Egate.
    unfold with_RecursionGuard. fold wg.
    rewrite (bind_Ok _ _ _ _ _ Hline), Ebody.
    destruct (d_instance w2) as [this|] eqn:Ethis; [|destruct (em_inst _ _ _ Em2 Ethis)].
    unfold bind at 1, getTracker. rewrite Ethis.
    assert (Hnat : exists idx w3 natives,
               (if d_unwind_native_frames this
                then
                  let trace := NativeTrace_fill env 2 in
                  if empty trace then ret 0
                  else getTraceIndex trace 0
                         (fun ip index => writeRecord (NATIVE_TRACE_INDEX ip index))
                else ret 0) w2 = Ok idx w3
               /\ Emits w2 w3 natives
               /\ forallb is_NATIVE_TRACE_INDEX natives = true).
    { assert (Hrefl : Emits w2 w2 []).
      { eapply Emits_of_Writes; [reflexivity|]. apply Writes_refl. congruence. }
      destruct (d_unwind_native_frames this); [|exists 0, w2, []; auto].
      cbv zeta. destruct (empty (NativeTrace_fill env 2)); [exists 0, w2, []; auto|].
      destruct (getTraceIndex_Writes (NativeTrace_fill env 2) 0 w2)
        as (idx & w3 & natives & E3 & W3 & F3); [congruence|].
      exists idx, w3, natives. split; [assumption|].
      split; [eapply Emits_of_Writes; [|exact W3]; reflexivity | assumption]. }
    destruct Hnat as (idx & w3 & natives & E3 & Em3 & F3).
    rewrite (bind_Ok _ _ _ _ _ E3).
    destruct (allocation_write_spec
                (mkAllocationRecord (thread_id env) ptr size func (current_line env w) idx)
                w3 (em_inst _ _ _ Em3))
      as (w4 & allocs & E4 & Em4 & F4 & L4 & H4).
    rewrite E4.
    exists (set_guard (isActive w) w4), (map (FRAME_POP (thread_id env)) run),
      pushes, natives, allocs.
    split; [reflexivity|].
    pose proof (Emits_trans _ _ _ _ _ (Emits_trans _ _ _ _ _ Em2 Em3) Em4) as Em.
    split.
    { change (output (set_guard (isActive w) w4)) with (output w4).
      rewrite (em_out _ _ _ Em). change (output wg) with (output w).
      rewrite <- !app_assoc. reflexivity. }
    repeat (split; [assumption|]).
    intros Hw. destruct (H2 Hw) as [Hs Hm].
    split; [rewrite Sp; exact Hs|]. split; [exact Hm|].
    apply H4. apply (em_ok _ _ _ Em3), (em_ok _ _ _ Em2), Hw.
  - unfold trackDeallocationImpl, bind at 1, get. rewrite Egate.
    unfold with_RecursionGuard. fold wg.
    rewrite (bind_Ok _ _ _ _ _ Hline), Ebody.
    destruct (allocation_write_spec
                (mkAllocationRecord (thread_id env) ptr size func (current_line env w) 0)
                w2 (em_inst _ _ _ Em2))
      as (w4 & allocs & E4 & Em4 & F4 & L4 & H4).
    rewrite E4.
    exists (set_guard (isActive w) w4), (map (FRAME_POP (thread_id env)) run),
      pushes, [], allocs.
    split; [reflexivity|].
    pose proof (Emits_trans _ _ _ _ _ Em2 Em4) as Em.
    split.
    { change (output (set_guard (isActive w) w4)) with (output w4).
      rewrite (em_out _ _ _ Em). change (output wg) with (output w).
      rewrite <- !app_assoc. reflexivity. }
    repeat (split; [assumption|]). split; [reflexivity|].
    repeat (split; [assumption|]).
    intros Hw. destruct (H2 Hw) as [Hs Hm].
    split; [rewrite Sp; exact Hs|]. split; [exact Hm|].
    apply H4. apply (em_ok _ _ _ Em2), Hw.
Qed.

Lemma C5_pops_before_pushes_witness :
  event_records_in_order world0 (trackAllocationImpl env0 187 32 1 world0)
  /\ event_records_in_order world0 (trackDeallocationImpl env0 187 32 1 world0).
Proof.
  apply (C5_pops_before_pushes env0 187 32 1 world0).
  - reflexivity.
  - reflexivity.
  - discriminate.
  - right. reflexivity.
Defined.

(** The same event with native traces, on the concrete input. *)
Example allocation_event_output :
  match trackAllocationImpl env0 187 32 1
          (set_instance (Some (mkTracker (mkWriter [] []) true 10 false [] [])) world0) with
  | Ok _ w' =>
      output w'
      = [FRAME_POP 42 3;
         FRAME_INDEX 0 (mkRawFrame "f2" "a.py" 10); FRAME_PUSH 0 42;
         NATIVE_TRACE_INDEX 11 0; NATIVE_TRACE_INDEX 12 1;
         ALLOCATION (mkAllocationRecord 42 187 32 1 20 2)]
  | _ => False
  end.
Proof. reflexivity. Qed.

(** C6: [emitPendingPops] writes a run of [FRAME_POP] records whose counts
    are each between 1 and 255 and resets the counter to zero; when no write
    fails the counts sum exactly to the counter, and a zero counter writes
    nothing.  The tracker has to exist, as the method goes through
    [Tracker::getTracker()]. *)
Theorem C6_flush_pending_pops env w
  (Hinst : d_instance w <> None) :
  exists w' run,
    emitPendingPops env w = Ok tt w'
    /\ output w' = output w ++ map (FRAME_POP (thread_id env)) run
    /\ Forall (fun c => 1 <= c <= 255) run
    /\ (healthy w -> sum_N run = d_num_pending_pops (t_python_stack_tracker w))
    /\ d_num_pending_pops (t_python_stack_tracker w') = 0
    /\ (d_num_pending_pops (t_python_stack_tracker w) = 0 -> run = []).
Proof.
  destruct (emitPendingPops_spec env w Hinst) as (w' & run & E & W & F & _ & S & Z0).
  exists w', run. split; [assumption|].
  split; [apply (wr_out _ _ _ W)|]. split; [assumption|]. split; [assumption|].
  split; [|assumption]. rewrite (wr_stack _ _ _ W). reflexivity.
Qed.

Lemma C6_flush_pending_pops_witness :
  exists w' run,
    emitPendingPops env0 (set_stack_tracker (mkStackTracker 600 7 None) world0) = Ok tt w'
    /\ output w' = [HEADER false] ++ map (FRAME_POP 42) run
    /\ Forall (fun c => 1 <= c <= 255) run
    /\ sum_N run = 600
    /\ d_num_pending_pops (t_python_stack_tracker w') = 0.
Proof.
  destruct (C6_flush_pending_pops env0
              (set_stack_tracker (mkStackTracker 600 7 None) world0))
    as (w' & run & E & Ho & F & Hsum & Hz & _); [discriminate|].
  exists w', run. split; [exact E|]. split; [exact Ho|]. split; [exact F|].
  split; [apply Hsum; reflexivity | exact Hz].
Defined.

(** C7: [getCurrentPythonLineNumber] returns the line of the top frame of the
    shadow stack when the stack is not empty, otherwise the line of the entry
    frame when one is set, otherwise 0.  The entry frame has to satisfy the
    assertion of the code and the frames on the stack are host frames, hence
    not null. *)
Theorem C7_current_line env w
  (Halive : entry_frame_alive env w)
  (Hframes : Forall (fun f => frame f <> nullptr) (stack_of w)) :
  getCurrentPythonLineNumber env w
  = Ok (match back (stack_of w) with
        | Some top => PyFrame_GetLineNumber env (frame top)
        | None =>
            if d_entry_frame (t_python_stack_tracker w) =? nullptr then 0%Z
            else PyFrame_GetLineNumber env (d_entry_frame (t_python_stack_tracker w))
        end) w.
Proof.
  rewrite getCurrentPythonLineNumber_eq, entry_frame_alive_true by assumption.
  unfold top_frame_ptr.
  destruct (back (stack_of w)) as [top|] eqn:Eb; [|reflexivity].
  assert (Hin : In top (stack_of w)).
  { unfold back in Eb. apply in_rev.
    destruct (rev (stack_of w)); inversion Eb; subst. now left. }
  rewrite Forall_forall in Hframes. specialize (Hframes top Hin).
  destruct (N.eqb_spec (frame top) nullptr); [contradiction | reflexivity].
Qed.

Lemma C7_current_line_witness :
  getCurrentPythonLineNumber env0 world0 = Ok 20%Z world0
  /\ getCurrentPythonLineNumber env0 (with_stack (Some []) world0) = Ok 70%Z (with_stack (Some []) world0)
  /\ getCurrentPythonLineNumber env0 world_blank = Ok 0%Z world_blank.
Proof.
  split; [|split].
  - apply (C7_current_line env0 world0).
    + right. reflexivity.
    + repeat constructor; discriminate.
  - apply (C7_current_line env0 (with_stack (Some []) world0)).
    + right. reflexivity.
    + constructor.
  - apply (C7_current_line env0 world_blank).
    + left. reflexivity.
    + constructor.
Defined.

(** C8: an operation other than push that finds the pointer [d_stack] null
    leaves it null, and returns what it returns on an empty stack, with the
    same effects on everything else; push is the operation that creates the
    container.  For the operation to return, the tracker has to exist and the
    entry frame has to satisfy the assertion of the code. *)
Theorem C8_null_container env w
  (Hnull : d_stack (t_python_stack_tracker w) = None)
  (Hinst : d_instance w <> None)
  (Halive : entry_frame_alive env w) :
  (forall op, is_push op = false ->
     exists r w',
       run_op env op w = Ok r w'
       /\ d_stack (t_python_stack_tracker w') = None
       /\ run_op env op (with_stack (Some []) w) = Ok r (with_stack (Some []) w'))
  /\ (forall f fn file l,
        exists w',
          run_op env (OpPush f fn file l) w = Ok 0%Z w'
          /\ d_stack (t_python_stack_tracker w')
             = Some [mkLazy f (mkRawFrame fn file l) false]).
Proof.
  split.
  - intros op Hop. destruct op; try discriminate; cbn [run_op]; unfold bind.
    + rewrite !reset_eq. simpl. rewrite Hnull. simpl.
      eexists; eexists. split; [reflexivity|]. split; reflexivity.
    + rewrite !popPythonFrame_empty by (unfold stack_of; simpl; now rewrite ?Hnull).
      eexists; eexists. split; [reflexivity|]. split; [exact Hnull | reflexivity].
    + rewrite !getCurrentPythonLineNumber_eq.
      assert (Et : top_frame_ptr (with_stack (Some []) w) = top_frame_ptr w).
      { unfold top_frame_ptr, stack_of. simpl. now rewrite Hnull. }
      rewrite Et. simpl. rewrite entry_frame_alive_true by assumption.
      eexists; eexists. split; [reflexivity|]. split; [exact Hnull | reflexivity].
    + rewrite emitPendingPops_with_stack.
      destruct (emitPendingPops_spec env w Hinst) as (w' & run & E & W & _).
      rewrite E. simpl. exists 0%Z, w'. split; [reflexivity|].
      split; [|reflexivity]. rewrite (wr_stack _ _ _ W). exact Hnull.
    + unfold emitPendingPushes, bind, tracker_get. simpl. rewrite Hnull.
      exists 0%Z, w. split; [reflexivity|]. split; [exact Hnull | reflexivity].
    + rewrite !resetInChildProcess_eq. simpl. rewrite Hnull. simpl.
      eexists; eexists. split; [reflexivity|]. split; reflexivity.
  - intros f fn file l. cbn [run_op]. unfold bind. rewrite pushPythonFrame_eq.
    eexists. split; [reflexivity|]. unfold stack_of. rewrite Hnull. reflexivity.
Qed.

Lemma C8_null_container_witness :
  (exists w',
      run_op env0 OpPop (with_stack None world0) = Ok 0%Z w'
      /\ d_stack (t_python_stack_tracker w') = None
      /\ run_op env0 OpPop (with_stack (Some []) world0)
         = Ok 0%Z (with_stack (Some []) w'))
  /\ exists w',
      run_op env0 (OpPush 5 "g" "b.py" 3) (with_stack None world0) = Ok 0%Z w'
      /\ d_stack (t_python_stack_tracker w')
         = Some [mkLazy 5 (mkRawFrame "g" "b.py" 3%Z) false].
Proof.
  destruct (C8_null_container env0 (with_stack None world0)) as [Hother Hpush].
  - reflexivity.
  - discriminate.
  - right. reflexivity.
  - split.
    + destruct (Hother OpPop eq_refl) as (r & w' & E & Hn & Ee).
      exists w'. assert (r = 0%Z) by (vm_compute in E; congruence). subst r.
      split; [exact E|]. split; [exact Hn | exact Ee].
    + apply Hpush.
Defined.

(** C9 as the claim states it fails: with tracking not active the hook
    returns 0 for a call event whose function name cannot be decoded. *)
Lemma C9_counterexample :
  PyUnicode_AsUTF8 env0 (co_name env0 666) = None
  /\ PyTraceFunction env0 666 PyTrace_CALL (set_active false world0)
     = Ok 0%Z (set_active false world0)
  /\ ~ hook_on_call_as_claimed env0 666 (set_active false world0).
Proof.
  split; [reflexivity|]. split; [reflexivity|].
  unfold hook_on_call_as_claimed. simpl.
  intros (w' & E & _). vm_compute in E. discriminate.
Qed.

(** C9, amended: for a call event delivered while tracking is active, the
    hook returns -1 and leaves the state as it was when the function name or
    the file name cannot be decoded, and otherwise pushes a frame that is not
    yet emitted, with the current line as the caller's line, and returns 0;
    while tracking is not active it returns 0 and changes nothing.  The entry
    frame has to satisfy the assertion of [getCurrentPythonLineNumber]. *)
Theorem C9_hook_on_call env frame w
  (Halive : entry_frame_alive env w) :
  PyTraceFunction env frame PyTrace_CALL w
  = if d_active w then
      match PyUnicode_AsUTF8 env (co_name env frame),
            PyUnicode_AsUTF8 env (co_filename env frame) with
      | Some fn, Some file =>
          Ok 0%Z
             (with_stack
                (Some (stack_of w
                       ++ [mkLazy frame (mkRawFrame fn file (current_line env w)) false]))
                w)
      | _, _ => Ok (-1)%Z w
      end
    else Ok 0%Z w.
Proof.
  unfold PyTraceFunction, with_RecursionGuard, bind at 1, Tracker_isActive.
  cbn [d_active set_guard]. destruct (d_active w); cbn [negb].
  - rewrite Z.eqb_refl.
    destruct (PyUnicode_AsUTF8 env (co_name env frame)) as [fn|];
      [|unfold ret; now rewrite set_guard_same].
    destruct (PyUnicode_AsUTF8 env (co_filename env frame)) as [file|];
      [|unfold ret; now rewrite set_guard_same].
    unfold bind. rewrite getCurrentPythonLineNumber_eq.
    change (t_python_stack_tracker (set_guard true w)) with (t_python_stack_tracker w).
    rewrite entry_frame_alive_true by assumption.
    rewrite pushPythonFrame_eq. unfold ret, with_stack.
    change (t_python_stack_tracker (set_guard true w)) with (t_python_stack_tracker w).
    rewrite set_guard_restore. reflexivity.
  - unfold ret. now rewrite set_guard_same.
Qed.

Lemma C9_hook_on_call_witness :
  PyTraceFunction env0 666 PyTrace_CALL world0 = Ok (-1)%Z world0
  /\ PyTraceFunction env0 667 PyTrace_CALL world0 = Ok (-1)%Z world0
  /\ PyTraceFunction env0 5 PyTrace_CALL world0
     = Ok 0%Z (with_stack
                 (Some [frame_f1; frame_f2; mkLazy 5 (mkRawFrame "name" "name" 20%Z) false])
                 world0).
Proof.
  assert (Halive : entry_frame_alive env0 world0) by (right; reflexivity).
  split; [|split].
  - apply (C9_hook_on_call env0 666 world0 Halive).
  - apply (C9_hook_on_call env0 667 world0 Halive).
  - apply (C9_hook_on_call env0 5 world0 Halive).
Defined.

(** C10: [reset] clears the shadow stack when its container exists and sets
    the entry frame, and leaves the pending-pop counter as it was: the next
    [emitPendingPops] still writes [FRAME_POP] records for the pops that were
    pending, which sum to the old counter when no write fails. *)
Theorem C10_reset_keeps_pending_pops env f w
  (Hinst : d_instance w <> None) :
  exists w1,
    reset f w = Ok tt w1
    /\ d_num_pending_pops (t_python_stack_tracker w1)
       = d_num_pending_pops (t_python_stack_tracker w)
    /\ d_entry_frame (t_python_stack_tracker w1) = f
    /\ d_stack (t_python_stack_tracker w1)
       = option_map (fun _ => []) (d_stack (t_python_stack_tracker w))
    /\ output w1 = output w
    /\ exists w2 run,
        emitPendingPops env w1 = Ok tt w2
        /\ output w2 = output w ++ map (FRAME_POP (thread_id env)) run
        /\ Forall (fun c => 1 <= c <= 255) run
        /\ (healthy w -> sum_N run = d_num_pending_pops (t_python_stack_tracker w)).
Proof.
  rewrite reset_eq. eexists. split; [reflexivity|]. simpl.
  repeat (split; [reflexivity|]).
  set (w1 := set_stack_tracker _ w).
  destruct (emitPendingPops_spec env w1 Hinst) as (w2 & run & E & W & F & _ & S & _).
  exists w2, run. split; [assumption|]. split; [apply (wr_out _ _ _ W)|].
  split; [assumption|]. intros Hw. apply S. exact Hw.
Qed.

Lemma C10_reset_keeps_pending_pops_witness :
  exists w1,
    reset 0 world0 = Ok tt w1
    /\ d_num_pending_pops (t_python_stack_tracker w1) = 3
    /\ d_stack (t_python_stack_tracker w1) = Some []
    /\ exists w2 run,
        emitPendingPops env0 w1 = Ok tt w2
        /\ output w2 = [HEADER false] ++ map (FRAME_POP 42) run
        /\ sum_N run = 3.
Proof.
  destruct (C10_reset_keeps_pending_pops env0 0 world0)
    as (w1 & E & Hn & _ & Hs & _ & w2 & run & E2 & Ho & _ & Hsum); [discriminate|].
  exists w1. split; [exact E|]. split; [exact Hn|]. split; [exact Hs|].
  exists w2, run. split; [exact E2|]. split; [exact Ho|].
  apply Hsum. reflexivity.
Defined.

(** * Further results *)

(** ** The recursion guard and the hook *)

Lemma with_RecursionGuard_restored {A} (body : M A) w :
  guard_restored w (with_RecursionGuard body w).
Proof.
  unfold with_RecursionGuard, guard_restored.
  destruct (body (set_guard true w)); reflexivity.
Qed.

Lemma event_gated env ptr size func w :
  isActive w = true \/ d_active w = false ->
  trackAllocationImpl env ptr size func w = Ok tt w
  /\ trackDeallocationImpl env ptr size func w = Ok tt w.
Proof.
  intros Hgate. unfold trackAllocationImpl, trackDeallocationImpl, bind, get.
  assert (E : isActive w || negb (d_active w) = true).
  { destruct Hgate as [-> | ->]; [reflexivity | apply orb_true_r]. }
  rewrite E. split; reflexivity.
Qed.

(** X1: an allocation or deallocation reported while the thread already
    holds a [RecursionGuard] (from inside the hook, the constructor or the
    tracker itself) is ignored: state and output stay as they were; the same
    holds between [prepareFork] and [parentFork], after which the flag is
    clear whatever it was before the fork. *)
Theorem X1_reentrant_event_ignored env ptr size func w :
  with_RecursionGuard (trackAllocationImpl env ptr size func) w = Ok tt w
  /\ with_RecursionGuard (trackDeallocationImpl env ptr size func) w = Ok tt w
  /\ (prepareFork ;;; trackAllocationImpl env ptr size func ;;; parentFork) w
     = Ok tt (set_guard false w).
Proof.
  destruct (event_gated env ptr size func (set_guard true w)) as [Ea Ed];
    [left; reflexivity|].
  unfold with_RecursionGuard. rewrite Ea, Ed, set_guard_same.
  split; [reflexivity|]. split; [reflexivity|].
  unfold prepareFork, parentFork, bind, modify. rewrite Ea.
  destruct w; reflexivity.
Qed.

(** X2: every function that takes a [RecursionGuard] leaves the thread's
    flag as it found it, whether it returns or throws. *)
Theorem X2_guard_restored env w :
  (forall ptr size func,
      guard_restored w (trackAllocationImpl env ptr size func w)
      /\ guard_restored w (trackDeallocationImpl env ptr size func w))
  /\ (forall frame what, guard_restored w (PyTraceFunction env frame what w))
  /\ guard_restored w (install_trace_function env w)
  /\ guard_restored w (invalidate_module_cache_impl env w)
  /\ guard_restored w (Tracker_dtor w).
Proof.
  split; [|split; [|split; [|split]]].
  - intros ptr size func. split.
    + unfold trackAllocationImpl, bind at 1, get.
      destruct (isActive w || negb (d_active w));
        [reflexivity | apply with_RecursionGuard_restored].
    + unfold trackDeallocationImpl, bind at 1, get.
      destruct (isActive w || negb (d_active w));
        [reflexivity | apply with_RecursionGuard_restored].
  - intros frame what. apply with_RecursionGuard_restored.
  - unfold install_trace_function, assert, bind at 1.
    destruct (PyGILState_Check env); [|exact I].
    apply with_RecursionGuard_restored.
  - apply with_RecursionGuard_restored.
  - apply with_RecursionGuard_restored.
Qed.

Lemma PyTraceFunction_call_eq env frame w :
  entry_frame_alive env w ->
  PyTraceFunction env frame PyTrace_CALL w
  = if d_active w then
      match PyUnicode_AsUTF8 env (co_name env frame),
            PyUnicode_AsUTF8 env (co_filename env frame) with
      | Some fn, Some file =>
          Ok 0%Z
             (with_stack
                (Some (stack_of w
                       ++ [mkLazy frame (mkRawFrame fn file (current_line env w)) false]))
                w)
      | _, _ => Ok (-1)%Z w
      end
    else Ok 0%Z w.
Proof.
  intros Halive.
  unfold PyTraceFunction, with_RecursionGuard, bind at 1, Tracker_isActive.
  cbn [d_active set_guard]. destruct (d_active w); cbn [negb].
  - rewrite Z.eqb_refl.
    destruct (PyUnicode_AsUTF8 env (co_name env frame)) as [fn|];
      [|unfold ret; now rewrite set_guard_same].
    destruct (PyUnicode_AsUTF8 env (co_filename env frame)) as [file|];
      [|unfold ret; now rewrite set_guard_same].
    unfold bind. rewrite getCurrentPythonLineNumber_eq.
    change (t_python_stack_tracker (set_guard true w)) with (t_python_stack_tracker w).
    rewrite entry_frame_alive_true by assumption.
    rewrite pushPythonFrame_eq. unfold ret, with_stack.
    change (t_python_stack_tracker (set_guard true w)) with (t_python_stack_tracker w).
    rewrite set_guard_restore. reflexivity.
  - unfold ret. now rewrite set_guard_same.
Qed.

Lemma PyTraceFunction_other_eq env frame what w :
  what <> PyTrace_CALL -> what <> PyTrace_RETURN ->
  PyTraceFunction env frame what w = Ok 0%Z w.
Proof.
  intros Hc Hr.
  unfold PyTraceFunction, with_RecursionGuard, bind at 1, Tracker_isActive.
  cbn [d_active set_guard].
  apply Z.eqb_neq in Hc. apply Z.eqb_neq in Hr. rewrite Hc, Hr.
  destruct (d_active w); cbn [negb]; unfold ret; now rewrite set_guard_same.
Qed.

(** X3: lazy emission.  An event of the hook other than a return writes no
    record and touches neither the tracker, the active flag, [cerr] nor the
    pending-pop counter; an event that is neither a call nor a return
    changes nothing at all. *)
Theorem X3_hook_writes_nothing_unless_return env frame what w
  (Halive : entry_frame_alive env w)
  (Hwhat : what <> PyTrace_RETURN) :
  exists r w',
    PyTraceFunction env frame what w = Ok r w'
    /\ d_instance w' = d_instance w
    /\ d_active w' = d_active w
    /\ cerr w' = cerr w
    /\ d_num_pending_pops (t_python_stack_tracker w')
       = d_num_pending_pops (t_python_stack_tracker w)
    /\ (what <> PyTrace_CALL -> r = 0%Z /\ w' = w).
Proof.
  destruct (Z.eq_dec what PyTrace_CALL) as [->|Hc].
  - rewrite PyTraceFunction_call_eq by assumption.
    destruct (d_active w) eqn:Ea;
      [destruct (PyUnicode_AsUTF8 env (co_name env frame));
       [destruct (PyUnicode_AsUTF8 env (co_filename env frame))|]|];
      eexists; eexists; (split; [reflexivity|]);
      do 4 (split; [cbn; congruence|]); intros C; contradiction.
  - rewrite PyTraceFunction_other_eq by assumption.
    exists 0%Z, w. do 5 (split; [reflexivity|]). intros _. split; reflexivity.
Qed.

Lemma X3_hook_writes_nothing_unless_return_witness :
  exists r w',
    PyTraceFunction env0 5 PyTrace_CALL world0 = Ok r w'
    /\ d_instance w' = d_instance world0
    /\ d_num_pending_pops (t_python_stack_tracker w') = 3.
Proof.
  destruct (X3_hook_writes_nothing_unless_return env0 5 PyTrace_CALL world0)
    as (r & w' & E & Hi & _ & _ & Hn & _).
  - right. reflexivity.
  - discriminate.
  - exists r, w'. split; [exact E|]. split; [exact Hi | exact Hn].
Defined.

Lemma PyTraceFunction_return_eq env frame w :
  d_active w = true ->
  PyTraceFunction env frame PyTrace_RETURN w
  = map_world (set_guard (isActive w))
      ((popPythonFrame env ;;; ret 0%Z) (set_guard true w)).
Proof.
  intros Ha.
  unfold PyTraceFunction, with_RecursionGuard, bind at 1, Tracker_isActive.
  cbn [d_active set_guard]. rewrite Ha. cbn [negb].
  change (PyTrace_RETURN =? PyTrace_CALL)%Z with false.
  rewrite Z.eqb_refl. cbv iota.
  destruct ((popPythonFrame env ;;; ret 0%Z) (set_guard true w)); reflexivity.
Qed.

(** X4: a call event followed by its return event, with no allocation in
    between, on a shadow stack that is not empty: the pushed frame was never
    emitted, so the pair writes nothing and the whole state is as before,
    counter included. *)
Theorem X4_call_return_round_trip env env' frame frame' w s
  (Hactive : d_active w = true)
  (Halive : entry_frame_alive env w)
  (Hname : PyUnicode_AsUTF8 env (co_name env frame) <> None)
  (Hfile : PyUnicode_AsUTF8 env (co_filename env frame) <> None)
  (Hstack : d_stack (t_python_stack_tracker w) = Some s)
  (Hne : s <> []) :
  (PyTraceFunction env frame PyTrace_CALL ;;;
   PyTraceFunction env' frame' PyTrace_RETURN) w = Ok 0%Z w.
Proof.
  unfold bind at 1. rewrite PyTraceFunction_call_eq, Hactive by assumption.
  destruct (PyUnicode_AsUTF8 env (co_name env frame)) as [fn|]; [|congruence].
  destruct (PyUnicode_AsUTF8 env (co_filename env frame)) as [file|]; [|congruence].
  set (f := mkLazy frame (mkRawFrame fn file (current_line env w)) false).
  set (w1 := with_stack (Some (stack_of w ++ [f])) w).
  rewrite PyTraceFunction_return_eq by exact Hactive.
  unfold bind.
  rewrite (popPythonFrame_snoc env' (set_guard true w1) (stack_of w) f) by reflexivity.
  cbv zeta. unfold popped_count. cbn [emitted f andb].
  unfold stack_of at 1. rewrite Hstack.
  destruct s as [|x s']; [contradiction|]. cbn [empty map_world ret].
  f_equal. destruct w as [a i g [n e st] p c]. simpl in *. subst st. reflexivity.
Qed.

Lemma X4_call_return_round_trip_witness :
  (PyTraceFunction env0 5 PyTrace_CALL ;;; PyTraceFunction env0 5 PyTrace_RETURN) world0
  = Ok 0%Z world0.
Proof.
  apply (X4_call_return_round_trip env0 env0 5 5 world0 [frame_f1; frame_f2]).
  - reflexivity.
  - right. reflexivity.
  - discriminate.
  - discriminate.
  - reflexivity.
  - discriminate.
Defined.

(** X5: [install_trace_function] is idempotent on a thread.  When the hook
    is already installed it changes nothing, so the entry frame and the
    shadow stack are kept; otherwise it installs the hook, takes the current
    frame as the entry frame and empties the stack.  The host's lock has to
    be held, which the code asserts. *)
Theorem X5_install_idempotent env env' w
  (Hgil : PyGILState_Check env = true)
  (Hgil' : PyGILState_Check env' = true) :
  (c_profilefunc w = true -> install_trace_function env w = Ok tt w)
  /\ (c_profilefunc w = false ->
      install_trace_function env w
      = Ok tt (set_profilefunc true
                 (set_stack_tracker
                    (mkStackTracker (d_num_pending_pops (t_python_stack_tracker w))
                       (PyEval_GetFrame env)
                       (option_map (fun _ => []) (d_stack (t_python_stack_tracker w))))
                    w)))
  /\ (install_trace_function env ;;; install_trace_function env') w
     = install_trace_function env w.
Proof.
  assert (Hyes : forall e v, PyGILState_Check e = true -> c_profilefunc v = true ->
                             install_trace_function e v = Ok tt v).
  { intros e v Hg Hp. unfold install_trace_function, assert. rewrite Hg.
    unfold bind at 1, ret at 1, with_RecursionGuard, bind, get.
    cbn [c_profilefunc set_guard]. rewrite Hp. unfold ret.
    now rewrite set_guard_same. }
  assert (Hno : c_profilefunc w = false ->
                install_trace_function env w
                = Ok tt (set_profilefunc true
                           (set_stack_tracker
                              (mkStackTracker (d_num_pending_pops (t_python_stack_tracker w))
                                 (PyEval_GetFrame env)
                                 (option_map (fun _ => [])
                                    (d_stack (t_python_stack_tracker w))))
                              w))).
  { intros Hp. unfold install_trace_function, assert. rewrite Hgil.
    unfold bind at 1, ret at 1, with_RecursionGuard, bind at 1, get.
    cbn [c_profilefunc set_guard]. rewrite Hp.
    unfold bind, modify. rewrite reset_eq. f_equal; destruct w; reflexivity. }
  split; [apply Hyes; assumption|]. split; [exact Hno|].
  unfold bind. destruct (c_profilefunc w) eqn:Hp.
  - rewrite (Hyes env w Hgil Hp). apply Hyes; assumption.
  - rewrite (Hno eq_refl). apply Hyes; [assumption | reflexivity].
Qed.

Lemma X5_install_idempotent_witness :
  install_trace_function env0 world0 = Ok tt world0
  /\ (install_trace_function env0 ;;; install_trace_function env0) world_blank
     = install_trace_function env0 world_blank.
Proof.
  split.
  - apply (X5_install_idempotent env0 env0 world0); reflexivity.
  - apply (X5_install_idempotent env0 env0 world_blank); reflexivity.
Defined.

(** ** Writes that are accepted *)

Lemma forallb_skipn {A} (p : A -> bool) n l :
  forallb p l = true -> forallb p (skipn n l) = true.
Proof.
  intros H. rewrite <- (firstn_skipn n l), forallb_app in H.
  now apply andb_true_iff in H.
Qed.

Lemma never_fails_write_all recs wr :
  never_fails wr = true -> never_fails (write_all recs wr) = true.
Proof. unfold never_fails, write_all. simpl. apply forallb_skipn. Qed.

Lemma writer_write_accepts r wr :
  never_fails wr = true -> writer_write r wr = (true, write_all [r] wr).
Proof.
  unfold never_fails, writer_write, write_all.
  destruct (w_oracle wr) as [|[] o]; simpl; intros H; try reflexivity; discriminate.
Qed.

Lemma write_all_nil wr : write_all [] wr = wr.
Proof. destruct wr. unfold write_all. simpl. now rewrite app_nil_r. Qed.

Lemma write_all_app r1 r2 wr :
  write_all r2 (write_all r1 wr) = write_all (r1 ++ r2) wr.
Proof.
  unfold write_all. simpl.
  rewrite skipn_skipn, length_app, app_assoc, (Nat.add_comm (List.length r2)).
  reflexivity.
Qed.

Lemma wrote_nil w : wrote [] w = w.
Proof.
  unfold wrote. destruct (d_instance w) as [t|] eqn:E; [|reflexivity].
  rewrite write_all_nil. destruct w, t. simpl in *. now rewrite E.
Qed.

Lemma wrote_app r1 r2 w : wrote r2 (wrote r1 w) = wrote (r1 ++ r2) w.
Proof.
  unfold wrote. destruct (d_instance w) as [t|] eqn:E; simpl; [|now rewrite E].
  rewrite write_all_app. reflexivity.
Qed.

Lemma healthy_wrote recs w : healthy w -> healthy (wrote recs w).
Proof.
  unfold healthy, wrote. destruct (d_instance w) as [t|]; simpl; [|tauto].
  apply never_fails_write_all.
Qed.

Lemma output_wrote recs w :
  d_instance w <> None -> output (wrote recs w) = output w ++ recs.
Proof.
  unfold output, wrote. destruct (d_instance w) as [t|]; [reflexivity | congruence].
Qed.

Lemma writeRecord_accepts r w :
  healthy w -> writeRecord r w = Ok true (wrote [r] w).
Proof.
  unfold healthy, wrote. destruct (d_instance w) as [t|] eqn:E; [|tauto].
  intros H. rewrite (writeRecord_eq r w t E), writer_write_accepts by assumption.
  reflexivity.
Qed.

(** ** The pop run *)

Lemma pop_run_0 : pop_run 0 = [].
Proof. reflexivity. Qed.

Lemma pop_run_step n :
  n <> 0 ->
  pop_run n
  = (if 255 <? n then 255 else n) :: pop_run (n - (if 255 <? n then 255 else n)).
Proof.
  intros Hn. unfold pop_run.
  pose proof (N.div_mod' n 255) as Hdm.
  pose proof (N.mod_lt n 255 ltac:(lia)) as Hlt.
  destruct (N.ltb_spec 255 n) as [Hbig|Hsmall].
  - assert (Hq1 : 1 <= n / 255).
    { destruct (N.eq_dec (n / 255) 0) as [e|]; [rewrite e in Hdm; lia | lia]. }
    assert (Hq : (n - 255) / 255 = n / 255 - 1).
    { symmetry. apply (N.div_unique (n - 255) 255 (n / 255 - 1) (n mod 255)); lia. }
    assert (Hr : (n - 255) mod 255 = n mod 255).
    { symmetry. apply (N.mod_unique (n - 255) 255 (n / 255 - 1) (n mod 255)); lia. }
    rewrite Hq, Hr.
    replace (N.to_nat (n / 255)) with (S (N.to_nat (n / 255 - 1))) by lia.
    reflexivity.
  - rewrite N.sub_diag. change (0 / 255) with 0. change (0 mod 255) with 0.
    simpl. destruct (N.eq_dec n 255) as [->|Hne]; [reflexivity|].
    rewrite N.div_small, N.mod_small by lia. simpl.
    destruct (N.eqb_spec n 0); [contradiction | reflexivity].
Qed.

Lemma sum_N_app a b : sum_N (a ++ b) = sum_N a + sum_N b.
Proof. induction a as [|x a IH]; simpl; [reflexivity | rewrite IH; lia]. Qed.

Lemma sum_N_repeat c k : sum_N (repeat c k) = c * N.of_nat k.
Proof. induction k as [|k IH]; simpl repeat; simpl sum_N; [lia | rewrite IH; lia]. Qed.

Lemma sum_N_bound run :
  Forall (fun c => c <= 255) run -> sum_N run <= 255 * N.of_nat (List.length run).
Proof.
  induction 1 as [|c run Hc _ IH]; simpl sum_N; simpl List.length; lia.
Qed.

Lemma pop_run_sum n : sum_N (pop_run n) = n.
Proof.
  unfold pop_run. rewrite sum_N_app, sum_N_repeat, N2Nat.id.
  pose proof (N.div_mod' n 255).
  destruct (N.eqb_spec (n mod 255) 0); cbn [sum_N]; lia.
Qed.

Lemma pop_run_length n : N.of_nat (List.length (pop_run n)) = (n + 254) / 255.
Proof.
  unfold pop_run. rewrite length_app, repeat_length.
  pose proof (N.div_mod' n 255) as Hdm.
  pose proof (N.mod_lt n 255 ltac:(lia)) as Hlt.
  destruct (N.eqb_spec (n mod 255) 0) as [Hz|Hnz]; simpl List.length;
    rewrite Nat2N.inj_add, N2Nat.id; simpl N.of_nat.
  - apply (N.div_unique (n + 254) 255 _ 254);
      set (q := n / 255) in *; set (r := n mod 255) in *; clearbody q r; lia.
  - apply (N.div_unique (n + 254) 255 _ (n mod 255 - 1));
      set (q := n / 255) in *; set (r := n mod 255) in *; clearbody q r; lia.
Qed.

Lemma popFrames_accepts env n :
  forall w,
    healthy w ->
    popFrames env n w = Ok true (wrote (map (FRAME_POP (thread_id env)) (pop_run n)) w).
Proof.
  induction n as [n IH] using (well_founded_induction N.lt_wf_0).
  intros w Hw. rewrite popFrames_step.
  destruct (N.eqb_spec n 0) as [->|Hn].
  - rewrite pop_run_0. simpl. now rewrite wrote_nil.
  - cbv zeta. rewrite writeRecord_accepts by assumption.
    rewrite IH; [| destruct (N.ltb_spec 255 n); lia | now apply healthy_wrote].
    rewrite wrote_app, (pop_run_step n Hn). reflexivity.
Qed.

(** X6: with a sink that accepts its records, [popFrames] writes the
    shortest possible run for [n] pops: the counts are between 1 and 255,
    they sum to [n], no run of counts up to 255 with that sum is shorter, and
    nothing but the sink changes. *)
Theorem X6_pop_run_minimal env n w
  (Hw : healthy w) :
  popFrames env n w = Ok true (wrote (map (FRAME_POP (thread_id env)) (pop_run n)) w)
  /\ sum_N (pop_run n) = n
  /\ Forall (fun c => 1 <= c <= 255) (pop_run n)
  /\ (forall run,
         Forall (fun c => c <= 255) run -> sum_N run = n ->
         (List.length (pop_run n) <= List.length run)%nat).
Proof.
  split; [now apply popFrames_accepts|]. split; [apply pop_run_sum|]. split.
  - unfold pop_run. apply Forall_app. split.
    + apply Forall_forall. intros c Hc. apply repeat_spec in Hc. lia.
    + pose proof (N.mod_lt n 255 ltac:(lia)).
      destruct (N.eqb_spec (n mod 255) 0); [constructor|].
      constructor; [|constructor].
      set (r := n mod 255) in *. clearbody r. lia.
  - intros run Hb Hs. pose proof (sum_N_bound run Hb) as Hle.
    pose proof (pop_run_length n) as Hlen.
    set (L := N.of_nat (List.length run)) in *.
    assert (H1 : (n + 254) / 255 <= (255 * L + 254) / 255)
      by (apply N.Div0.div_le_mono; lia).
    assert (H2 : (255 * L + 254) / 255 = L)
      by (symmetry; apply (N.div_unique _ 255 L 254); lia).
    rewrite H2, <- Hlen in H1. unfold L in H1. lia.
Qed.

Lemma X6_pop_run_minimal_witness :
  popFrames env0 600 world0
  = Ok true (wrote [FRAME_POP 42 255; FRAME_POP 42 255; FRAME_POP 42 90] world0)
  /\ sum_N (pop_run 600) = 600.
Proof.
  destruct (X6_pop_run_minimal env0 600 world0) as (E & S & _); [reflexivity|].
  split; [exact E | exact S].
Defined.

Lemma pop_run_nonempty n : pop_run n <> [] -> n <> 0.
Proof. intros H ->. apply H. reflexivity. Qed.

Lemma popFrames_refused env k :
  forall n w t o,
    d_instance w = Some t ->
    w_oracle (d_writer t) = repeat true k ++ false :: o ->
    (k < List.length (pop_run n))%nat ->
    exists w',
      popFrames env n w = Ok false w'
      /\ output w' = output w ++ map (FRAME_POP (thread_id env)) (firstn k (pop_run n))
      /\ oracle_of w' = o
      /\ d_active w' = false
      /\ cerr w' = cerr w ++ [write_failed_msg]
      /\ t_python_stack_tracker w' = t_python_stack_tracker w
      /\ isActive w' = isActive w.
Proof.
  induction k as [|k IH]; intros n w t o Et Eo Hk.
  - assert (Hn : n <> 0) by (apply pop_run_nonempty; intros E; rewrite E in Hk; inversion Hk).
    rewrite popFrames_step. destruct (N.eqb_spec n 0); [contradiction|]. cbv zeta.
    rewrite (writeRecord_eq _ w t Et). unfold writer_write. rewrite Eo. simpl.
    eexists. split; [reflexivity|]. unfold output, oracle_of. simpl.
    rewrite Et, app_nil_r. repeat split; reflexivity.
  - assert (Hn : n <> 0) by (apply pop_run_nonempty; intros E; rewrite E in Hk; inversion Hk).
    rewrite popFrames_step. destruct (N.eqb_spec n 0); [contradiction|]. cbv zeta.
    rewrite (writeRecord_eq _ w t Et). unfold writer_write. rewrite Eo. simpl.
    rewrite (pop_run_step n Hn) in Hk |- *.
    set (to_pop := if 255 <? n then 255 else n) in *.
    set (t1 := set_writer _ t). set (w1 := set_instance (Some t1) w).
    destruct (IH (n - to_pop) w1 t1 o eq_refl eq_refl) as (w' & E & Ho & Hor & Ha & Hc & Hs & Hg);
      [simpl in Hk; lia|].
    exists w'. split; [exact E|]. rewrite Ho, Hc, Hs, Hg.
    unfold output. simpl. rewrite Et. simpl. rewrite <- app_assoc.
    repeat split; auto.
Qed.

(** X7: when the sink refuses a record of the pop run, [popFrames] stops
    there: the records before it are in the output, no further write is
    attempted, tracking is deactivated and one line goes to [cerr]; and
    [emitPendingPops] clears the counter all the same, so the pops that were
    not written are never written. *)
Theorem X7_pop_run_refused env k w t o
  (Hinst : d_instance w = Some t)
  (Horacle : w_oracle (d_writer t) = repeat true k ++ false :: o)
  (Hk : (k < List.length (pop_run (d_num_pending_pops (t_python_stack_tracker w))))%nat) :
  exists w',
    emitPendingPops env w = Ok tt w'
    /\ output w'
       = output w
         ++ map (FRAME_POP (thread_id env))
              (firstn k (pop_run (d_num_pending_pops (t_python_stack_tracker w))))
    /\ oracle_of w' = o
    /\ d_active w' = false
    /\ cerr w' = cerr w ++ [write_failed_msg]
    /\ t_python_stack_tracker w' = set_pending 0 (t_python_stack_tracker w).
Proof.
  destruct (popFrames_refused env k _ w t o Hinst Horacle Hk)
    as (w1 & E & Ho & Hor & Ha & Hc & Hs & Hg).
  unfold emitPendingPops, bind, tracker_get, getTracker. rewrite Hinst, E.
  unfold tracker_upd, modify. eexists. split; [reflexivity|].
  rewrite Hs. repeat split; assumption.
Qed.

Lemma X7_pop_run_refused_witness :
  exists w',
    emitPendingPops env0
      (mkWorld true (Some tracker_failing) false (mkStackTracker 1000 7 None) true [])
    = Ok tt w'
    /\ output w' = [HEADER false; FRAME_POP 42 255; FRAME_POP 42 255; FRAME_POP 42 255]
    /\ oracle_of w' = []
    /\ d_active w' = false
    /\ d_num_pending_pops (t_python_stack_tracker w') = 0.
Proof.
  destruct (X7_pop_run_refused env0 3
              (mkWorld true (Some tracker_failing) false (mkStackTracker 1000 7 None) true [])
              tracker_failing [])
    as (w' & E & Ho & Hor & Ha & _ & Hs); [reflexivity | reflexivity | simpl; lia |].
  exists w'. split; [exact E|]. split; [exact Ho|]. split; [exact Hor|].
  split; [exact Ha|]. rewrite Hs. reflexivity.
Defined.

(** ** Flushing the pushes *)

Lemma mark_emitted_id f : emitted f = true -> mark_emitted f = f.
Proof. destruct f. simpl. intros ->. reflexivity. Qed.

Lemma map_mark_all_emitted l : all_emitted l = true -> map mark_emitted l = l.
Proof.
  induction l as [|f l IH]; simpl; [reflexivity|]. intros H.
  apply andb_true_iff in H as [Hf Hl]. now rewrite mark_emitted_id, IH.
Qed.

Lemma filter_unemitted_split a b :
  all_emitted a = true -> none_emitted b = true ->
  filter (fun f => negb (emitted f)) (a ++ b) = b.
Proof.
  intros Ha Hb. rewrite filter_app.
  replace (filter _ a) with (@nil LazilyEmittedFrame).
  - simpl. unfold none_emitted in Hb. clear Ha.
    induction b as [|f b IH]; simpl in *; [reflexivity|].
    apply andb_true_iff in Hb as [Hf Hb']. rewrite Hf. now rewrite IH.
  - unfold all_emitted in Ha. clear Hb.
    induction a as [|f a IH]; simpl in *; [reflexivity|].
    apply andb_true_iff in Ha as [Hf Ha']. rewrite Hf. simpl. now apply IH.
Qed.

Lemma pushed_stack_all a b :
  all_emitted a = true -> none_emitted b = true ->
  pushed_stack (List.length b) (a ++ b) = map mark_emitted (a ++ b).
Proof.
  intros Ha Hb. unfold pushed_stack.
  rewrite (last_emitted_base_split a b Ha Hb).
  rewrite firstn_app, skipn_app, Nat.sub_diag, firstn_all, skipn_all. simpl.
  rewrite firstn_all, skipn_all, !app_nil_r, map_app, (map_mark_all_emitted a Ha).
  reflexivity.
Qed.

Lemma emitPendingPushes_noop env w :
  all_emitted (stack_of w) = true -> emitPendingPushes env w = Ok tt w.
Proof.
  unfold stack_of, emitPendingPushes, bind at 1, tracker_get.
  destruct (d_stack (t_python_stack_tracker w)) as [s|] eqn:Es; [|reflexivity].
  intros Ha.
  pose proof (last_emitted_base_split s [] Ha eq_refl) as Hb.
  rewrite app_nil_r in Hb. rewrite Hb, skipn_all, firstn_all.
  unfold bind, emit_from, ret, tracker_upd, modify. rewrite app_nil_r.
  f_equal. destruct w as [a i g [n e st] p c]. simpl in *. now subst st.
Qed.

Lemma emitPendingPushes_accepts env w :
  healthy w -> S1_world w ->
  exists w' recs,
    emitPendingPushes env w = Ok tt w'
    /\ output w' = output w ++ recs
    /\ forallb is_push_or_index recs = true
    /\ List.length (filter is_FRAME_PUSH recs)
       = List.length (filter (fun f => negb (emitted f)) (stack_of w))
    /\ t_python_stack_tracker w'
       = set_stack (option_map (map mark_emitted) (d_stack (t_python_stack_tracker w)))
                   (t_python_stack_tracker w)
    /\ emitPendingPushes env w' = Ok tt w'.
Proof.
  intros Hw HS1.
  destruct (emitPendingPushes_spec env w (healthy_inst w Hw))
    as (w' & recs & m & E & W & F & C & _ & Hm).
  specialize (Hm Hw).
  destruct (S1_split _ HS1) as (a & b & Es & Ha & Hb).
  rewrite Es, (last_emitted_base_split a b Ha Hb), skipn_app, Nat.sub_diag,
    skipn_all in Hm.
  simpl in Hm.
  assert (Est : t_python_stack_tracker w'
                = set_stack (option_map (map mark_emitted)
                               (d_stack (t_python_stack_tracker w)))
                            (t_python_stack_tracker w)).
  { rewrite (wr_stack _ _ _ W). simpl. f_equal.
    unfold stack_of in Es.
    destruct (d_stack (t_python_stack_tracker w)) as [s|]; [|reflexivity].
    cbn [option_map]. subst s. rewrite Hm. now rewrite pushed_stack_all. }
  exists w', recs. split; [exact E|].
  split; [rewrite (wr_out _ _ _ W); reflexivity|]. split; [exact F|].
  split; [rewrite C, Hm, Es, filter_unemitted_split by assumption; reflexivity|].
  split; [exact Est|].
  apply emitPendingPushes_noop. unfold stack_of. rewrite Est. simpl.
  destruct (d_stack (t_python_stack_tracker w)); [apply all_emitted_mark | reflexivity].
Qed.

(** X8: with a sink that accepts its records and a shadow stack whose
    emitted frames form a prefix, [emitPendingPushes] writes one
    [FRAME_PUSH] for each frame that was not emitted (with nothing but frame
    indexes in between) and marks every frame emitted, leaving the frames
    themselves as they were; a second flush then changes nothing. *)
Theorem X8_push_flush_complete env w
  (Hw : healthy w)
  (HS1 : S1_world w) :
  exists w' recs,
    emitPendingPushes env w = Ok tt w'
    /\ output w' = output w ++ recs
    /\ forallb is_push_or_index recs = true
    /\ List.length (filter is_FRAME_PUSH recs)
       = List.length (filter (fun f => negb (emitted f)) (stack_of w))
    /\ t_python_stack_tracker w'
       = set_stack (option_map (map mark_emitted) (d_stack (t_python_stack_tracker w)))
                   (t_python_stack_tracker w)
    /\ emitPendingPushes env w' = Ok tt w'.
Proof. exact (emitPendingPushes_accepts env w Hw HS1). Qed.

Lemma X8_push_flush_complete_witness :
  exists w' recs,
    emitPendingPushes env0 world0 = Ok tt w'
    /\ output w' = [HEADER false] ++ recs
    /\ List.length (filter is_FRAME_PUSH recs) = 1%nat
    /\ map emitted (stack_of w') = [true; true]
    /\ emitPendingPushes env0 w' = Ok tt w'.
Proof.
  destruct (X8_push_flush_complete env0 world0) as (w' & recs & E & Ho & _ & C & Es & Ei).
  - reflexivity.
  - apply (S1_app [frame_f1] [frame_f2]); reflexivity.
  - exists w', recs. split; [exact E|]. split; [exact Ho|]. split; [exact C|].
    split; [|exact Ei]. unfold stack_of. rewrite Es. reflexivity.
Defined.

Lemma last_emitted_base_unmarked s : last_emitted_base (map unmark s) = O.
Proof.
  apply (last_emitted_base_split [] (map unmark s)); [reflexivity|].
  unfold none_emitted. induction s; simpl; auto.
Qed.

Lemma map_mark_unmark s :
  map mark_emitted (map unmark s) = map mark_emitted s.
Proof. rewrite map_map. reflexivity. Qed.

(** X9: after [resetInChildProcess] the next flush with a sink that accepts
    its records writes one [FRAME_PUSH] for every frame of the shadow stack,
    emitted before the fork or not, and leaves all of them emitted; the
    counter of pending pops is zero. *)
Theorem X9_child_reemits_stack env w
  (Hw : healthy w) :
  exists w' recs,
    (resetInChildProcess ;;; emitPendingPushes env) w = Ok tt w'
    /\ output w' = output w ++ recs
    /\ forallb is_push_or_index recs = true
    /\ List.length (filter is_FRAME_PUSH recs) = List.length (stack_of w)
    /\ t_python_stack_tracker w'
       = mkStackTracker 0 (d_entry_frame (t_python_stack_tracker w))
           (option_map (map mark_emitted) (d_stack (t_python_stack_tracker w))).
Proof.
  unfold bind. rewrite resetInChildProcess_eq.
  set (w1 := set_stack_tracker _ w).
  assert (Hw1 : healthy w1) by exact Hw.
  destruct (emitPendingPushes_spec env w1 (healthy_inst w1 Hw1))
    as (w' & recs & m & E & W & F & C & _ & Hm).
  specialize (Hm Hw1). exists w', recs. split; [exact E|].
  split; [rewrite (wr_out _ _ _ W); reflexivity|]. split; [exact F|].
  unfold stack_of in *. simpl in Hm.
  destruct (d_stack (t_python_stack_tracker w)) as [s|] eqn:Es; simpl in Hm.
  - rewrite last_emitted_base_unmarked in Hm. simpl in Hm. rewrite length_map in Hm.
    split; [congruence|]. rewrite (wr_stack _ _ _ W). subst w1.
    cbn [t_python_stack_tracker set_stack_tracker set_stack d_stack
         d_num_pending_pops d_entry_frame option_map].
    rewrite Hm, <- (length_map unmark s).
    change (map unmark s) with ([] ++ map unmark s) at 2.
    rewrite pushed_stack_all;
      [| reflexivity | unfold none_emitted; clear; induction s; simpl; auto].
    unfold set_stack. cbn. now rewrite map_mark_unmark.
  - split; [simpl; congruence|]. rewrite (wr_stack _ _ _ W). reflexivity.
Qed.

Lemma X9_child_reemits_stack_witness :
  exists w' recs,
    (resetInChildProcess ;;; emitPendingPushes env0) world0 = Ok tt w'
    /\ output w' = [HEADER false] ++ recs
    /\ List.length (filter is_FRAME_PUSH recs) = 2%nat
    /\ d_num_pending_pops (t_python_stack_tracker w') = 0.
Proof.
  destruct (X9_child_reemits_stack env0 world0) as (w' & recs & E & Ho & _ & C & Es);
    [reflexivity|].
  exists w', recs. split; [exact E|]. split; [exact Ho|]. split; [exact C|].
  rewrite Es. reflexivity.
Defined.

(** ** The module map and the constructor, with a sink that accepts *)

Lemma wrote_set_guard recs b w : wrote recs (set_guard b w) = set_guard b (wrote recs w).
Proof. unfold wrote. simpl. destruct (d_instance w); reflexivity. Qed.

Lemma d_instance_wrote recs w t :
  d_instance w = Some t ->
  d_instance (wrote recs w) = Some (set_writer (write_all recs (d_writer t)) t).
Proof. unfold wrote. intros ->. reflexivity. Qed.

Lemma write_segments_accepts segments :
  forall w,
    healthy w ->
    write_segments segments w
    = Ok 0%Z (wrote (map (fun s => SEGMENT (fst s) (snd s)) segments) w).
Proof.
  induction segments as [|[vaddr memsz] rest IH]; intros w Hw.
  - simpl. now rewrite wrote_nil.
  - cbn [write_segments]. unfold writeRecordUnsafe, bind.
    rewrite writeRecord_accepts by assumption.
    rewrite IH by now apply healthy_wrote. rewrite wrote_app. reflexivity.
Qed.

Lemma callback_accepts env info w :
  readlink_ok env = true -> healthy w ->
  dl_iterate_phdr_callback env info w
  = Ok 0%Z (wrote (object_records (executable env) info) w).
Proof.
  intros Hexe Hw. unfold dl_iterate_phdr_callback, object_records. cbv zeta.
  assert (Ef : (if String.eqb (dlpi_name info) "" then get_executable env
                else ret (dlpi_name info)) w
               = Ok (if String.eqb (dlpi_name info) "" then executable env
                     else dlpi_name info) w).
  { destruct (String.eqb (dlpi_name info) ""); [now apply get_executable_ok | reflexivity]. }
  rewrite (bind_Ok _ _ _ _ _ Ef).
  destruct (starts_with _ "linux-vdso.so").
  - unfold ret. now rewrite wrote_nil.
  - unfold writeRecordUnsafe, bind. rewrite writeRecord_accepts by assumption.
    rewrite write_segments_accepts by now apply healthy_wrote.
    rewrite wrote_app. reflexivity.
Qed.

Lemma dl_iterate_phdr_accepts env objects :
  forall w,
    readlink_ok env = true -> healthy w ->
    dl_iterate_phdr (dl_iterate_phdr_callback env) objects w
    = Ok 0%Z (wrote (flat_map (object_records (executable env)) objects) w).
Proof.
  induction objects as [|info rest IH]; intros w Hexe Hw.
  - simpl. now rewrite wrote_nil.
  - cbn [dl_iterate_phdr flat_map]. unfold bind.
    rewrite callback_accepts by assumption. cbn.
    rewrite IH by (try assumption; now apply healthy_wrote).
    rewrite wrote_app. reflexivity.
Qed.

Lemma updateModuleCache_accepts env w t :
  readlink_ok env = true -> healthy w -> d_instance w = Some t ->
  updateModuleCache env w
  = Ok tt (wrote (if d_unwind_native_frames t then module_map env else []) w).
Proof.
  intros Hexe Hw Et. unfold updateModuleCache, updateModuleCacheImpl.
  unfold bind at 1, getTracker. rewrite Et.
  destruct (d_unwind_native_frames t); cbn [negb].
  - unfold writeSimpleType, bind. rewrite writeRecord_accepts by assumption.
    unfold ret at 1.
    rewrite dl_iterate_phdr_accepts by (try assumption; now apply healthy_wrote).
    rewrite wrote_app. reflexivity.
  - unfold ret. now rewrite wrote_nil.
Qed.

(** The thread's stack tracker after [install_trace_function]. *)
Lemma install_trace_function_eq env w :
  PyGILState_Check env = true ->
  install_trace_function env w
  = Ok tt (if c_profilefunc w then w
           else set_profilefunc true
                  (set_stack_tracker
                     (mkStackTracker (d_num_pending_pops (t_python_stack_tracker w))
                        (PyEval_GetFrame env)
                        (option_map (fun _ => []) (d_stack (t_python_stack_tracker w))))
                     w)).
Proof.
  intros Hgil. unfold install_trace_function, assert. rewrite Hgil.
  unfold bind at 1, ret at 1, with_RecursionGuard, bind at 1, get.
  cbn [c_profilefunc set_guard]. destruct (c_profilefunc w) eqn:Hp.
  - unfold ret. now rewrite set_guard_same.
  - unfold bind, modify. rewrite reset_eq. f_equal; destruct w; reflexivity.
Qed.

Lemma Tracker_ctor_accepts env record_writer native_traces memory_interval follow_fork w :
  PyGILState_Check env = true ->
  statm_opens env = true ->
  readlink_ok env = true ->
  never_fails record_writer = true ->
  exists w',
    Tracker_ctor env record_writer native_traces memory_interval follow_fork w = Ok tt w'
    /\ d_instance w'
       = Some (mkTracker
                 (write_all (HEADER false :: (if native_traces then module_map env else []))
                            record_writer)
                 native_traces memory_interval follow_fork [] [])
    /\ d_active w' = true
    /\ isActive w' = isActive w
    /\ c_profilefunc w' = true
    /\ cerr w' = cerr w
    /\ t_python_stack_tracker w'
       = if c_profilefunc w then t_python_stack_tracker w
         else mkStackTracker (d_num_pending_pops (t_python_stack_tracker w))
                (PyEval_GetFrame env)
                (option_map (fun _ => []) (d_stack (t_python_stack_tracker w))).
Proof.
  intros Hgil Hstatm Hexe Hwriter.
  unfold Tracker_ctor. unfold bind at 1, modify at 1.
  set (t0 := mkTracker record_writer native_traces memory_interval follow_fork [] []).
  set (w1 := set_instance (Some t0) w).
  assert (H1 : healthy w1) by exact Hwriter.
  unfold writeHeader, bind at 1. rewrite writeRecord_accepts by assumption.
  cbn [negb]. unfold bind at 1.
  rewrite (updateModuleCache_accepts env _ _ Hexe (healthy_wrote _ _ H1)
             (d_instance_wrote _ w1 t0 eq_refl)).
  rewrite wrote_app. cbn [d_unwind_native_frames set_writer t0].
  unfold with_RecursionGuard, bind at 1.
  rewrite install_trace_function_eq by assumption. rewrite Hstatm.
  unfold bind, ret, Tracker_activate, modify.
  eexists. split; [reflexivity|].
  unfold wrote, w1. cbn.
  destruct (c_profilefunc w) eqn:Hp; cbn; rewrite ?Hp; repeat split; reflexivity.
Qed.

(** ** Destruction, fork and the smaller entry points *)

(** X10: the destructor of the singleton.  It deactivates tracking, empties
    the shadow stack and clears the entry frame, attempts the terminal
    header and drops the writer and the observer pointer.  It writes nothing
    else: pops that were pending are not flushed, and a refused terminal
    header goes unreported.  The hook stays installed, but from then on the
    hook and both allocation entry points leave the state as it is. *)
Theorem X10_destructor env w t
  (Hinst : d_instance w = Some t) :
  exists w',
    Tracker_dtor w = Ok (snd (writer_write (HEADER true) (d_writer t))) w'
    /\ w_log (snd (writer_write (HEADER true) (d_writer t)))
       = w_log (d_writer t)
         ++ (if fst (writer_write (HEADER true) (d_writer t)) then [HEADER true] else [])
    /\ w' = mkWorld false None (isActive w)
              (mkStackTracker (d_num_pending_pops (t_python_stack_tracker w)) nullptr
                 (option_map (fun _ => []) (d_stack (t_python_stack_tracker w))))
              (c_profilefunc w) (cerr w)
    /\ (forall ptr size func,
           trackAllocationImpl env ptr size func w' = Ok tt w'
           /\ trackDeallocationImpl env ptr size func w' = Ok tt w')
    /\ (forall frame what, PyTraceFunction env frame what w' = Ok 0%Z w').
Proof.
  eexists. split; [|split; [apply writer_write_log|split; [reflexivity|split]]].
  - unfold Tracker_dtor, with_RecursionGuard, bind at 1, Tracker_deactivate, modify at 1.
    unfold bind at 1. rewrite reset_eq. unfold writeHeader, bind at 1.
    erewrite writeRecord_eq by (cbn; exact Hinst).
    unfold bind, getTracker, modify, ret. cbn. reflexivity.
  - intros ptr size func. apply event_gated. right. reflexivity.
  - intros frame what.
    unfold PyTraceFunction, with_RecursionGuard, bind, Tracker_isActive, ret. cbn.
    reflexivity.
Qed.

Lemma X10_destructor_witness :
  exists w',
    Tracker_dtor world0 = Ok (mkWriter [HEADER false; HEADER true] []) w'
    /\ d_instance w' = None
    /\ d_num_pending_pops (t_python_stack_tracker w') = 3
    /\ trackAllocationImpl env0 187 32 1 w' = Ok tt w'.
Proof.
  destruct (X10_destructor env0 world0 tracker0 eq_refl) as (w' & E & _ & Ew & Hev & _).
  exists w'. split; [exact E|]. rewrite Ew at 1 2.
  split; [reflexivity|]. split; [reflexivity|]. apply Hev.
Defined.

(** X11: [childFork] when the child does not follow: there was no tracker,
    or tracking was not active, or [follow_fork] is off, or the writer could
    not be cloned.  The child ends without a tracker and with a clear
    recursion flag; every frame of the surviving shadow stack is marked not
    emitted and the pending pops are forgotten; nothing is written, and the
    active flag is left as it was inherited. *)
Theorem X11_child_not_following env cloneInChildProcess w
  (Hno : match d_instance w with
         | Some t =>
             d_active w && d_follow_fork t = false
             \/ cloneInChildProcess (d_writer t) = None
         | None => True
         end) :
  childFork env cloneInChildProcess w
  = Ok tt (mkWorld (d_active w) None false
             (mkStackTracker 0 (d_entry_frame (t_python_stack_tracker w))
                (option_map (map unmark) (d_stack (t_python_stack_tracker w))))
             (c_profilefunc w) (cerr w)).
Proof.
  unfold childFork, bind at 1. rewrite resetInChildProcess_eq.
  unfold bind at 1, get. cbn [d_instance d_active set_stack_tracker].
  destruct (d_instance w) as [t|].
  - assert (E : (if d_active w && d_follow_fork t then cloneInChildProcess (d_writer t)
                 else None) = None).
    { destruct Hno as [-> | Hc]; [reflexivity|].
      destruct (d_active w && d_follow_fork t); [exact Hc | reflexivity]. }
    rewrite E. reflexivity.
  - reflexivity.
Qed.

Lemma X11_child_not_following_witness :
  childFork env0 (fun wr => Some wr) world0
  = Ok tt (mkWorld true None false
             (mkStackTracker 0 7 (Some [unmark frame_f1; frame_f2])) true []).
Proof.
  apply (X11_child_not_following env0 (fun wr => Some wr) world0).
  left. reflexivity.
Defined.

(** X12: [childFork] when the child follows: an active tracker with
    [follow_fork] whose writer can be cloned, and a clone that accepts its
    records.  The child gets a new tracker around the clone with the
    inherited configuration and an empty frame registry; the clone receives
    a header and, with native traces, a module map; tracking is active and
    the recursion flag is clear.  On a thread where the hook was installed
    the shadow stack survives with every frame marked not emitted; on
    another thread the stack is emptied and the entry frame is the current
    frame. *)
Theorem X12_child_following env cloneInChildProcess w t wr
  (Hinst : d_instance w = Some t)
  (Hactive : d_active w = true)
  (Hfollow : d_follow_fork t = true)
  (Hclone : cloneInChildProcess (d_writer t) = Some wr)
  (Hwriter : never_fails wr = true)
  (Hgil : PyGILState_Check env = true)
  (Hstatm : statm_opens env = true)
  (Hexe : readlink_ok env = true) :
  exists w',
    childFork env cloneInChildProcess w = Ok tt w'
    /\ d_instance w'
       = Some (mkTracker
                 (write_all (HEADER false
                             :: (if d_unwind_native_frames t then module_map env else []))
                            wr)
                 (d_unwind_native_frames t) (d_memory_interval t) true [] [])
    /\ d_active w' = true
    /\ isActive w' = false
    /\ t_python_stack_tracker w'
       = if c_profilefunc w
         then mkStackTracker 0 (d_entry_frame (t_python_stack_tracker w))
                (option_map (map unmark) (d_stack (t_python_stack_tracker w)))
         else mkStackTracker 0 (PyEval_GetFrame env)
                (option_map (fun _ => []) (d_stack (t_python_stack_tracker w))).
Proof.
  unfold childFork, bind at 1. rewrite resetInChildProcess_eq.
  unfold bind at 1, get. cbn [d_instance d_active set_stack_tracker].
  rewrite Hinst, Hactive, Hfollow, Hclone. cbn [andb].
  set (w0 := set_stack_tracker _ w).
  destruct (Tracker_ctor_accepts env wr (d_unwind_native_frames t) (d_memory_interval t)
              true w0 Hgil Hstatm Hexe Hwriter)
    as (w1 & E & Hi & Ha & Hg & Hp & Hc & Hs).
  unfold bind, modify. rewrite E. eexists. split; [reflexivity|].
  cbn. rewrite Hi, Ha, Hs. cbn.
  repeat split. destruct (c_profilefunc w); [reflexivity|].
  destruct (d_stack (t_python_stack_tracker w)); reflexivity.
Qed.

Lemma X12_child_following_witness :
  exists w',
    childFork env0 (fun _ => Some (mkWriter [] []))
      (set_instance (Some (mkTracker (mkWriter [HEADER false] []) false 10 true [] []))
                    world0)
    = Ok tt w'
    /\ output w' = [HEADER false]
    /\ d_active w' = true
    /\ map emitted (stack_of w') = [false; false].
Proof.
  destruct (X12_child_following env0 (fun _ => Some (mkWriter [] []))
              (set_instance (Some (mkTracker (mkWriter [HEADER false] []) false 10 true [] []))
                            world0)
              (mkTracker (mkWriter [HEADER false] []) false 10 true [] [])
              (mkWriter [] []))
    as (w' & E & Hi & Ha & _ & Hs); try reflexivity.
  exists w'. split; [exact E|]. unfold output, stack_of. rewrite Hi, Hs.
  split; [reflexivity|]. split; [exact Ha | reflexivity].
Defined.

(** X13: [invalidate_module_cache_impl].  Without native traces it changes
    nothing, whatever the state of the sink; with native traces and a sink
    that accepts, it appends one complete module map and changes nothing
    else.  The recursion flag is as before in both cases. *)
Theorem X13_invalidate_module_cache env w t
  (Hinst : d_instance w = Some t) :
  (d_unwind_native_frames t = false -> invalidate_module_cache_impl env w = Ok tt w)
  /\ (d_unwind_native_frames t = true -> readlink_ok env = true -> healthy w ->
      invalidate_module_cache_impl env w = Ok tt (wrote (module_map env) w)).
Proof.
  unfold invalidate_module_cache_impl, with_RecursionGuard. split.
  - intros Hn. unfold updateModuleCache, updateModuleCacheImpl, bind, getTracker.
    cbn [d_instance set_guard]. rewrite Hinst, Hn. cbn [negb]. unfold ret.
    now rewrite set_guard_same.
  - intros Hn Hexe Hw.
    rewrite (updateModuleCache_accepts env (set_guard true w) t Hexe Hw Hinst), Hn.
    rewrite wrote_set_guard. f_equal. destruct w; unfold wrote; simpl.
    simpl in Hinst. rewrite Hinst. reflexivity.
Qed.

Lemma X13_invalidate_module_cache_witness :
  invalidate_module_cache_impl env0 world0 = Ok tt world0.
Proof.
  apply (X13_invalidate_module_cache env0 world0 tracker0 eq_refl). reflexivity.
Defined.

(** X14: [registerThreadNameImpl] appends one [THREAD_RECORD] with the
    calling thread's id when the sink accepts it; when the sink refuses it,
    nothing is appended, tracking is deactivated and one line goes to
    [cerr]. *)
Theorem X14_register_thread_name env name w t
  (Hinst : d_instance w = Some t) :
  (healthy w ->
   registerThreadNameImpl env name w
   = Ok tt (wrote [THREAD_RECORD (pthread_self env) name] w))
  /\ (forall o,
         w_oracle (d_writer t) = false :: o ->
         exists w',
           registerThreadNameImpl env name w = Ok tt w'
           /\ output w' = output w
           /\ oracle_of w' = o
           /\ d_active w' = false
           /\ cerr w' = cerr w ++ [write_failed_msg]).
Proof.
  unfold registerThreadNameImpl. split.
  - intros Hw. unfold bind. rewrite writeRecord_accepts by assumption. reflexivity.
  - intros o Ho. unfold bind. rewrite (writeRecord_eq _ w t Hinst).
    unfold writer_write. rewrite Ho. cbn.
    eexists. split; [reflexivity|]. unfold output, oracle_of. cbn.
    rewrite Hinst. repeat split; reflexivity.
Qed.

Lemma X14_register_thread_name_witness :
  registerThreadNameImpl env0 "worker" world0
  = Ok tt (wrote [THREAD_RECORD 42 "worker"] world0).
Proof.
  apply (X14_register_thread_name env0 "worker" world0 tracker0 eq_refl). reflexivity.
Defined.

(** ** The log and the shadow stack stay in agreement *)

Lemma net_pushes_app a b : net_pushes (a ++ b) = (net_pushes a + net_pushes b)%Z.
Proof. induction a as [|r a IH]; simpl; [reflexivity | rewrite IH; lia]. Qed.

Lemma net_pushes_pops tid run :
  net_pushes (map (FRAME_POP tid) run) = (- Z.of_N (sum_N run))%Z.
Proof. induction run as [|c run IH]; simpl; [reflexivity | rewrite IH; lia]. Qed.

Lemma net_pushes_pushes recs :
  forallb is_push_or_index recs = true ->
  net_pushes recs = Z.of_nat (List.length (filter is_FRAME_PUSH recs)).
Proof.
  induction recs as [|r recs IH]; simpl; [reflexivity|]. intros H.
  apply andb_true_iff in H as [Hr Hrest]. rewrite (IH Hrest).
  destruct r; try discriminate;
    cbn [depth_change is_FRAME_PUSH List.length]; lia.
Qed.


Lemma emitted_count_snoc s f :
  emitted_count (s ++ [f]) = (emitted_count s + (if emitted f then 1 else 0))%nat.
Proof.
  unfold emitted_count. rewrite filter_app, length_app. simpl.
  destruct (emitted f); reflexivity.
Qed.

Lemma emitted_count_mark s : emitted_count (map mark_emitted s) = List.length s.
Proof.
  unfold emitted_count. induction s as [|f s IH]; simpl; [reflexivity | now rewrite IH].
Qed.

Lemma S1_all_emitted s : all_emitted s = true -> S1 s.
Proof.
  intros H. rewrite <- (app_nil_r s). apply S1_app; [assumption | reflexivity].
Qed.

Lemma stack_of_marked st :
  match option_map (map mark_emitted) st with Some s => s | None => [] end
  = map mark_emitted (match st with Some s => s | None => [] end).
Proof. destruct st; reflexivity. Qed.

(** The push flush with everything the later results need. *)
Lemma emitPendingPushes_balanced env w :
  healthy w -> S1_world w ->
  exists w' recs,
    emitPendingPushes env w = Ok tt w'
    /\ output w' = output w ++ recs
    /\ net_pushes recs
       = (Z.of_nat (List.length (stack_of w)) - Z.of_nat (emitted_count (stack_of w)))%Z
    /\ healthy w'
    /\ isActive w' = isActive w
    /\ stack_of w' = map mark_emitted (stack_of w)
    /\ t_python_stack_tracker w'
       = set_stack (option_map (map mark_emitted) (d_stack (t_python_stack_tracker w)))
                   (t_python_stack_tracker w).
Proof.
  intros Hw HS1.
  destruct (emitPendingPushes_accepts env w Hw HS1) as (w' & recs & E & Ho & F & C & Es & _).
  destruct (emitPendingPushes_spec env w (healthy_inst w Hw)) as (w2 & recs2 & m & E2 & W & _).
  rewrite E in E2. inversion E2; subst w2. clear E2.
  exists w', recs. split; [exact E|]. split; [exact Ho|]. split.
  - rewrite (net_pushes_pushes recs F), C.
    pose proof (filter_length emitted (stack_of w)) as Hf. unfold emitted_count. lia.
  - split; [|split; [|split]].
    + pose proof (wr_ok _ _ _ W) as Hk. apply Hk. exact Hw.
    + rewrite (wr_guard _ _ _ W). reflexivity.
    + unfold stack_of. rewrite Es. simpl. apply stack_of_marked.
    + exact Es.
Qed.

(** X15: every operation of the stack tracker except the two resets keeps
    the log and the thread in agreement: the [FRAME_PUSH] records of the
    output minus the sum of its [FRAME_POP] counts is the number of emitted
    frames on the shadow stack plus the pending pops.  This holds with a
    sink that accepts its records, from a state where the emitted frames are
    a prefix; the operation returns and keeps both conditions. *)
Theorem X15_log_balance_kept env op w
  (Hop : keeps_balance op = true)
  (Hw : healthy w)
  (HS1 : S1_world w)
  (Hbal : balanced w)
  (Hroom : d_num_pending_pops (t_python_stack_tracker w) + 1 < UINT32_MOD)
  (Halive : entry_frame_alive env w) :
  exists r w',
    run_op env op w = Ok r w'
    /\ balanced w' /\ healthy w' /\ S1_world w'.
Proof.
  pose proof (healthy_inst w Hw) as Hinst.
  unfold balanced, S1_world in *.
  set (n := d_num_pending_pops (t_python_stack_tracker w)) in *.
  destruct op; try discriminate; cbn [run_op]; unfold bind.
  - (* push *)
    rewrite pushPythonFrame_eq.
    set (f := mkLazy _ _ false). set (w' := set_stack_tracker _ w).
    exists 0%Z, w'. split; [reflexivity|].
    change (output w') with (output w).
    change (stack_of w') with (stack_of w ++ [f]).
    change (d_num_pending_pops (t_python_stack_tracker w')) with n.
    rewrite emitted_count_snoc. cbn [emitted f].
    split; [rewrite Hbal; lia|]. split; [exact Hw|]. now apply S1_push.
  - (* pop *)
    destruct (stack_of w) as [|x l] eqn:Es using rev_ind.
    + rewrite popPythonFrame_empty by assumption.
      set (w' := set_stack_tracker _ w). exists 0%Z, w'. split; [reflexivity|].
      change (output w') with (output w).
      change (stack_of w') with (stack_of w).
      change (d_num_pending_pops (t_python_stack_tracker w')) with n.
      rewrite Es. split; [exact Hbal|]. split; [exact Hw | exact HS1].
    + clear IHl. unfold stack_of in Es.
      destruct (d_stack (t_python_stack_tracker w)) as [s|] eqn:Ed;
        [subst s | destruct l; discriminate].
      rewrite (popPythonFrame_snoc env w l x Ed). cbv zeta. fold n.
      assert (En : popped_count n x = if emitted x then n + 1 else n).
      { unfold popped_count. destruct (emitted x); [|reflexivity].
        now apply N.mod_small. }
      rewrite En.
      assert (Hz : emitted x && ((if emitted x then n + 1 else n) =? 0) = false).
      { destruct (emitted x); [|reflexivity]. simpl. apply N.eqb_neq. lia. }
      rewrite Hz. rewrite emitted_count_snoc in Hbal.
      set (n' := if emitted x then n + 1 else n) in *.
      set (w1 := set_stack_tracker _ w).
      assert (Hb1 : net_pushes (output w) = (Z.of_nat (emitted_count l) + Z.of_N n')%Z).
      { rewrite Hbal. unfold n'. destruct (emitted x); lia. }
      pose proof (S1_prefix _ _ HS1) as HS1l.
      destruct l as [|y l']; cbn [empty].
      * destruct (emitPendingPops_spec env w1 Hinst) as (w2 & run & E & W & _ & _ & S & _).
        rewrite E. exists 0%Z, w2. split; [reflexivity|].
        unfold stack_of. rewrite (wr_stack _ _ _ W), (wr_out _ _ _ W).
        change (output (set_stack_tracker _ w1)) with (output w).
        rewrite net_pushes_app, net_pushes_pops, Hb1, (S Hw).
        change (d_num_pending_pops (t_python_stack_tracker w1)) with n'.
        cbn. split; [unfold emitted_count in *; simpl in *; lia|].
        split; [apply (wr_ok _ _ _ W Hw) | apply S1_nil].
      * exists 0%Z, w1. split; [reflexivity|].
        change (output w1) with (output w).
        change (stack_of w1) with (y :: l').
        change (d_num_pending_pops (t_python_stack_tracker w1)) with n'.
        split; [exact Hb1|]. split; [exact Hw | exact HS1l].
  - (* current line *)
    rewrite getCurrentPythonLineNumber_eq, entry_frame_alive_true by assumption.
    eexists; exists w. split; [reflexivity|]. auto.
  - (* flush of the pops *)
    destruct (emitPendingPops_spec env w Hinst) as (w2 & run & E & W & _ & _ & S & _).
    rewrite E. exists 0%Z, w2. split; [reflexivity|].
    unfold stack_of in *. rewrite (wr_stack _ _ _ W), (wr_out _ _ _ W).
    change (output (set_stack_tracker _ w)) with (output w).
    rewrite net_pushes_app, net_pushes_pops, Hbal, (S Hw). fold n. cbn.
    split; [unfold emitted_count; lia|].
    split; [apply (wr_ok _ _ _ W Hw) | exact HS1].
  - (* flush of the pushes *)
    destruct (emitPendingPushes_balanced env w Hw HS1)
      as (w2 & recs & E & Ho & Hn & Hw2 & _ & Hs & Hst).
    rewrite E. exists 0%Z, w2. split; [reflexivity|].
    rewrite Ho, net_pushes_app, Hn, Hs, emitted_count_mark, Hst. cbn. fold n.
    split; [unfold emitted_count in *; lia|]. split; [exact Hw2|].
    apply S1_all_emitted, all_emitted_mark.
Qed.

Lemma X15_log_balance_kept_witness :
  exists r w',
    run_op env0 OpPop
      (set_instance
         (Some (mkTracker (mkWriter [FRAME_PUSH 0 42; FRAME_PUSH 1 42] []) false 10 false [] []))
         (set_stack_tracker (mkStackTracker 1 7 (Some [frame_f1])) world0))
    = Ok r w'
    /\ balanced w' /\ output w' = [FRAME_PUSH 0 42; FRAME_PUSH 1 42; FRAME_POP 42 2].
Proof.
  destruct (X15_log_balance_kept env0 OpPop
              (set_instance
                 (Some (mkTracker (mkWriter [FRAME_PUSH 0 42; FRAME_PUSH 1 42] []) false 10
                          false [] []))
                 (set_stack_tracker (mkStackTracker 1 7 (Some [frame_f1])) world0)))
    as (r & w' & E & Hb & _ & _).
  - reflexivity.
  - reflexivity.
  - apply (S1_app [frame_f1] []); reflexivity.
  - reflexivity.
  - reflexivity.
  - right. reflexivity.
  - exists r, w'. split; [exact E|]. split; [exact Hb|].
    vm_compute in E. inversion E. reflexivity.
Defined.






(** ** Refused writes are reported and end the tracking *)














(** The event of the witness: the sink refuses the allocation record, so the
    record is missing, one line is on [cerr] and tracking has ended. *)
Example refused_allocation_record :
  match trackDeallocationImpl env0 187 32 1 (set_instance (Some tracker_failing) world0) with
  | Ok _ w' =>
      output w' = [HEADER false; FRAME_POP 42 3;
                   FRAME_INDEX 0 (mkRawFrame "f2" "a.py" 10); FRAME_PUSH 0 42]
      /\ d_active w' = false
      /\ cerr w' = [write_failed_msg_short]
  | _ => False
  end.
Proof. repeat split. Qed.

(** ** The module map for any sink *)

Lemma ends_writing_Ok {A} P w (a : A) w' recs :
  Writes w w' recs -> forallb P recs = true -> ends_writing P w (Ok a w').
Proof. intros W F. exists recs. auto. Qed.

Lemma ends_writing_after {A} P w w1 r1 (r : Result A) :
  Writes w w1 r1 -> forallb P r1 = true ->
  ends_writing P w1 r -> ends_writing P w r.
Proof.
  intros W F. destruct r as [a w'|e w'|]; simpl; trivial;
    intros (recs & W' & F'); exists (r1 ++ recs);
    (split; [apply (Writes_trans _ _ _ _ _ W W') | rewrite forallb_app, F, F'; reflexivity]).
Qed.

Lemma Writes_fail_any msg w w' recs :
  Writes w w' recs -> ~ healthy w ->
  Writes w (set_active false (log_cerr msg w')) recs.
Proof. apply Writes_fail. Qed.

Lemma write_segments_ends P segments :
  (forall v m, P (SEGMENT v m) = true) ->
  forall w,
    d_instance w <> None ->
    ends_writing P w (write_segments segments w).
Proof.
  intros HP. induction segments as [|[vaddr memsz] rest IH]; intros w H.
  - simpl. exists []. split; [apply Writes_refl; assumption | reflexivity].
  - cbn [write_segments]. unfold writeRecordUnsafe.
    destruct (writeRecord_Writes (SEGMENT vaddr memsz) w H) as (ok & w1 & E & W & Hh).
    rewrite (bind_Ok _ _ _ _ _ E). destruct ok.
    + apply (ends_writing_after P w w1 [SEGMENT vaddr memsz]); [exact W | |].
      * simpl. now rewrite HP.
      * apply IH, (wr_inst _ _ _ W).
    + unfold fail_write, bind, modify, ret, Tracker_deactivate.
      exists []. split; [|reflexivity].
      apply Writes_fail; [exact W|]. intros Hw. specialize (Hh Hw). discriminate.
Qed.

Lemma callback_ends env info w :
  d_instance w <> None ->
  ends_writing snapshot_record w (dl_iterate_phdr_callback env info w).
Proof.
  intros H. unfold dl_iterate_phdr_callback.
  assert (Hrefl : Writes w w []) by (apply Writes_refl; assumption).
  unfold bind at 1.
  destruct ((if String.eqb (dlpi_name info) "" then get_executable env
             else ret (dlpi_name info)) w) as [file w0|e w0|] eqn:Ef.
  - assert (w0 = w).
    { destruct (String.eqb (dlpi_name info) "").
      - unfold get_executable in Ef. destruct (readlink_proc_self_exe env) as [len buff].
        destruct (PATH_MAX <? len)%Z; [discriminate|].
        destruct (len =? -1)%Z; [discriminate|]. inversion Ef. reflexivity.
      - inversion Ef. reflexivity. }
    subst w0. destruct (starts_with file "linux-vdso.so") eqn:Ev.
    + exists []. auto.
    + cbv zeta. unfold writeRecordUnsafe at 1.
      destruct (writeRecord_Writes
                  (SEGMENT_HEADER file (N.of_nat (List.length (load_segments info)))
                     (dlpi_addr info)) w H) as (ok & w1 & E & W & Hh).
      rewrite (bind_Ok _ _ _ _ _ E). destruct ok.
      * eapply (ends_writing_after snapshot_record w w1); [exact W | |].
        -- simpl. now rewrite Ev.
        -- apply write_segments_ends; [reflexivity | apply (wr_inst _ _ _ W)].
      * unfold fail_write, bind, modify, ret, Tracker_deactivate.
        exists []. split; [|reflexivity].
        apply Writes_fail; [exact W|]. intros Hw. specialize (Hh Hw). discriminate.
  - assert (w0 = w).
    { destruct (String.eqb (dlpi_name info) ""); [|discriminate].
      unfold get_executable, throw in Ef.
      destruct (readlink_proc_self_exe env) as [len buff].
      destruct (PATH_MAX <? len)%Z; [inversion Ef; reflexivity|].
      destruct (len =? -1)%Z; [inversion Ef; reflexivity | discriminate]. }
    subst w0. exists []. auto.
  - destruct (String.eqb (dlpi_name info) ""); [|discriminate].
    unfold get_executable, throw in Ef.
    destruct (readlink_proc_self_exe env) as [len buff].
    destruct (PATH_MAX <? len)%Z; [discriminate|].
    destruct (len =? -1)%Z; discriminate.
Qed.

Lemma dl_iterate_phdr_ends env objects :
  forall w,
    d_instance w <> None ->
    ends_writing snapshot_record w
      (dl_iterate_phdr (dl_iterate_phdr_callback env) objects w).
Proof.
  induction objects as [|info rest IH]; intros w H.
  - exists []. split; [apply Writes_refl; assumption | reflexivity].
  - cbn [dl_iterate_phdr]. unfold bind.
    pose proof (callback_ends env info w H) as Hc.
    destruct (dl_iterate_phdr_callback env info w) as [r w1|e w1|]; simpl in Hc.
    + destruct Hc as (r1 & W1 & F1).
      destruct (r =? 0)%Z.
      * apply (ends_writing_after _ w w1 r1 _ W1 F1), IH, (wr_inst _ _ _ W1).
      * exists r1. auto.
    + exact Hc.
    + exact Hc.
Qed.

(** X18: a module-map snapshot, whatever the sink does.  The call ends
    without stopping the process; what it adds to the output are only
    [MEMORY_MAP_START], [SEGMENT_HEADER] and [SEGMENT] records, and never a
    segment header for a file whose name starts with linux-vdso.so; the
    thread's stack tracker and recursion flag are not touched.  This holds
    also when the executable's path cannot be read and the call leaves by an
    exception. *)
Theorem X18_snapshot_records env w
  (Hinst : d_instance w <> None) :
  ends_writing snapshot_record w (updateModuleCacheImpl env w).
Proof.
  unfold updateModuleCacheImpl, bind at 1, getTracker.
  destruct (d_instance w) as [t|] eqn:Et; [|congruence].
  assert (Hi : d_instance w <> None) by congruence.
  destruct (negb (d_unwind_native_frames t)).
  - exists []. split; [apply Writes_refl; assumption | reflexivity].
  - unfold writeSimpleType.
    destruct (checked_write_Writes MEMORY_MAP_START write_failed_msg w Hi)
      as (ok & w1 & E & W & _).
    assert (E' : (ok <- writeRecord MEMORY_MAP_START ;;
                  (if ok then ret tt else fail_write write_failed_msg) ;;;
                  _ <- dl_iterate_phdr (dl_iterate_phdr_callback env) (loaded_objects env) ;;
                  ret tt) w
                 = (_ <- dl_iterate_phdr (dl_iterate_phdr_callback env) (loaded_objects env) ;;
                    ret tt) w1).
    { unfold bind in *. destruct (writeRecord MEMORY_MAP_START w) as [b v| |];
        try discriminate.
      destruct ((if b then ret tt else fail_write write_failed_msg) v) as [[] v'| |];
        try discriminate.
      inversion E; subst. reflexivity. }
    rewrite E'.
    apply (ends_writing_after _ w w1 (if ok then [MEMORY_MAP_START] else []));
      [exact W | destruct ok; reflexivity |].
    pose proof (dl_iterate_phdr_ends env (loaded_objects env) w1 (wr_inst _ _ _ W)) as Hd.
    unfold bind.
    destruct (dl_iterate_phdr (dl_iterate_phdr_callback env) (loaded_objects env) w1);
      exact Hd.
Qed.

Lemma X18_snapshot_records_witness :
  ends_writing snapshot_record
    (set_instance (Some (mkTracker (mkWriter [] [true; true; false; true]) true 10 false [] []))
       world0)
    (updateModuleCacheImpl env0
       (set_instance (Some (mkTracker (mkWriter [] [true; true; false; true]) true 10 false [] []))
          world0)).
Proof.
  apply (X18_snapshot_records env0
           (set_instance
              (Some (mkTracker (mkWriter [] [true; true; false; true]) true 10 false [] []))
              world0)).
  discriminate.
Defined.

(** X19: when the sink refuses the [MEMORY_MAP_START] marker, the snapshot
    reports it and deactivates tracking, and then still walks the loaded
    objects: with a sink that accepts from then on, all segment headers and
    segments are written, without the marker in front of them. *)
Theorem X19_snapshot_marker_refused env w t o
  (Hinst : d_instance w = Some t)
  (Hnative : d_unwind_native_frames t = true)
  (Horacle : w_oracle (d_writer t) = false :: o)
  (Hrest : forallb (fun b => b) o = true)
  (Hexe : readlink_ok env = true) :
  exists w',
    updateModuleCacheImpl env w = Ok tt w'
    /\ output w'
       = output w ++ flat_map (object_records (executable env)) (loaded_objects env)
    /\ d_active w' = false
    /\ cerr w' = cerr w ++ [write_failed_msg].
Proof.
  unfold updateModuleCacheImpl, bind at 1, getTracker. rewrite Hinst, Hnative.
  cbn [negb]. unfold writeSimpleType, bind at 1.
  rewrite (writeRecord_eq _ w t Hinst). unfold writer_write. rewrite Horacle.
  cbn [fst snd]. unfold bind at 1, fail_write, bind at 1, modify at 1,
    Tracker_deactivate, modify at 1.
  set (w1 := set_active false _).
  assert (Hw1 : healthy w1) by exact Hrest.
  unfold bind. rewrite (dl_iterate_phdr_accepts env _ w1 Hexe Hw1). unfold ret.
  eexists. split; [reflexivity|].
  rewrite output_wrote by discriminate.
  unfold wrote, output. cbn. rewrite Hinst. cbn. repeat split; reflexivity.
Qed.

Lemma X19_snapshot_marker_refused_witness :
  exists w',
    updateModuleCacheImpl env0
      (set_instance (Some (mkTracker (mkWriter [HEADER false] [false]) true 10 false [] []))
         world0)
    = Ok tt w'
    /\ output w'
       = [HEADER false;
          SEGMENT_HEADER "/bin/pyth" 2 4096; SEGMENT 0 100; SEGMENT 200 50;
          SEGMENT_HEADER "libc.so" 1 8192; SEGMENT 0 7]
    /\ d_active w' = false.
Proof.
  destruct (X19_snapshot_marker_refused env0
              (set_instance
                 (Some (mkTracker (mkWriter [HEADER false] [false]) true 10 false [] []))
                 world0)
              (mkTracker (mkWriter [HEADER false] [false]) true 10 false [] []) [])
    as (w' & E & Ho & Ha & _); try reflexivity.
  exists w'. split; [exact E|]. split; [exact Ho | exact Ha].
Defined.

(** ** The sampler thread *)

Lemma Tracker_deactivate_eq w : Tracker_deactivate w = Ok tt (set_active false w).
Proof. reflexivity. Qed.

(** X20: the sampler's loop, run by itself on a sink that accepts every
    write.  It writes one [MEMORY_RECORD] per wake-up, with the clock and the
    resident set size in bytes, until a wake-up finds the stop flag set or
    reads a resident set size of 0 (an unreadable statm text, no resident
    page, or a product that wraps to 0); that wake-up and the later ones
    write nothing.  Ending on a reading of 0 deactivates tracking, ending on
    the stop flag leaves the activity flag alone; the warning goes to [cerr]
    only when the statm text could not be read.  The stack tracker and the
    recursion flag of the modelled thread are not touched. *)
Theorem X20_sampler_samples pagesize ticks w
  (Hw : healthy w) :
  exists w',
    sampler_loop pagesize ticks w = Ok tt w'
    /\ output w' = output w ++ samples pagesize ticks
    /\ d_active w' = (if ends_on_zero pagesize ticks then false else d_active w)
    /\ cerr w' = cerr w ++ sampler_warnings pagesize ticks
    /\ t_python_stack_tracker w' = t_python_stack_tracker w
    /\ isActive w' = isActive w.
Proof.
  revert w Hw. induction ticks as [|t rest IH]; intros w Hw.
  - exists w. simpl. rewrite !app_nil_r. repeat split; reflexivity.
  - cbn [sampler_loop samples ends_on_zero sampler_warnings].
    destruct (tick_stop t); cbn [orb].
    + exists w. unfold ret. rewrite !app_nil_r. repeat split; reflexivity.
    + unfold getRSS, tick_rss. destruct (tick_statm t) as [rss|].
      * unfold bind at 1, ret at 1.
        destruct ((rss * pagesize) mod SIZE_MOD =? 0) eqn:Ez.
        -- rewrite Tracker_deactivate_eq. exists (set_active false w).
           rewrite !app_nil_r. destruct w. repeat split; reflexivity.
        -- unfold bind at 1.
           rewrite (writeRecord_accepts _ w Hw).
           destruct (IH _ (healthy_wrote [MEMORY_RECORD (tick_now t)
                                           ((rss * pagesize) mod SIZE_MOD)] w Hw))
             as (w' & E & Ho & Ha & Hc & Hs & Hg).
           exists w'. split; [exact E|].
           assert (Hi : d_instance w <> None).
           { unfold healthy in Hw. destruct (d_instance w); [discriminate | tauto]. }
           rewrite Ho, output_wrote by exact Hi. rewrite <- app_assoc.
           split; [reflexivity|].
           unfold wrote in Ha, Hc, Hs, Hg.
           destruct (d_instance w); [|congruence].
           repeat split; assumption.
      * unfold bind, modify, ret. cbn [N.eqb].
        rewrite Tracker_deactivate_eq.
        exists (set_active false (log_cerr rss_failed_msg w)).
        rewrite !app_nil_r. destruct w. repeat split; reflexivity.
Qed.

Lemma X20_sampler_samples_witness :
  exists w',
    sampler_loop 4096
      [mkTick false (Some 3) 100; mkTick false (Some 5) 110;
       mkTick false None 120; mkTick false (Some 9) 130] world0
    = Ok tt w'
    /\ output w'
       = output world0 ++ [MEMORY_RECORD 100 12288; MEMORY_RECORD 110 20480]
    /\ d_active w' = false
    /\ cerr w' = cerr world0 ++ [rss_failed_msg].
Proof.
  destruct (X20_sampler_samples 4096
              [mkTick false (Some 3) 100; mkTick false (Some 5) 110;
               mkTick false None 120; mkTick false (Some 9) 130] world0)
    as (w' & E & Ho & Ha & Hc & _); [reflexivity|].
  exists w'. split; [exact E|]. split; [exact Ho|]. split; [exact Ha | exact Hc].
Defined.

(** X21: the sampler's loop on a sink that accepts [k] writes and refuses the
    next one, when the wake-ups would give more than [k] samples.  The first
    [k] samples are written; the refusal is reported on [cerr] with the
    sampler's own message (without the pensieve prefix), tracking is
    deactivated and the loop ends: no later sample is tried. *)
Theorem X21_sampler_refused pagesize ticks :
  forall k w t o
    (Hinst : d_instance w = Some t)
    (Horacle : w_oracle (d_writer t) = repeat true k ++ false :: o)
    (Hmore : (k < List.length (samples pagesize ticks))%nat),
  exists w',
    sampler_loop pagesize ticks w = Ok tt w'
    /\ output w' = output w ++ firstn k (samples pagesize ticks)
    /\ oracle_of w' = o
    /\ d_active w' = false
    /\ cerr w' = cerr w ++ [write_failed_msg_short]
    /\ t_python_stack_tracker w' = t_python_stack_tracker w
    /\ isActive w' = isActive w.
Proof.
  induction ticks as [|tk rest IH]; intros k w t o Hinst Horacle Hmore.
  - simpl in Hmore. lia.
  - cbn [samples sampler_loop] in *.
    destruct (tick_stop tk); cbn [orb] in Hmore; [simpl in Hmore; lia|].
    unfold tick_rss in *. unfold getRSS.
    destruct (tick_statm tk) as [rss|]; [|simpl in Hmore; lia].
    unfold bind at 1, ret at 1.
    destruct ((rss * pagesize) mod SIZE_MOD =? 0) eqn:Ez; [simpl in Hmore; lia|].
    unfold bind at 1. rewrite (writeRecord_eq _ w t Hinst).
    unfold writer_write. rewrite Horacle.
    destruct k as [|k]; cbn [repeat app fst snd firstn].
    + unfold fail_write, bind, modify. rewrite Tracker_deactivate_eq.
      eexists. split; [reflexivity|].
      unfold output, oracle_of. cbn. rewrite Hinst, app_nil_r.
      repeat split; reflexivity.
    + set (t1 := set_writer _ t). set (w1 := set_instance (Some t1) w).
      destruct (IH k w1 t1 o eq_refl eq_refl) as (w' & E & Ho & Hor & Ha & Hc & Hs & Hg).
      { simpl in Hmore. lia. }
      exists w'. split; [exact E|]. rewrite Ho. cbn [orb].
      split.
      { unfold output. rewrite Hinst. subst w1 t1. cbn.
        rewrite <- app_assoc. reflexivity. }
      repeat split; assumption.
Qed.

Lemma X21_sampler_refused_witness :
  exists w',
    sampler_loop 4096
      [mkTick false (Some 3) 100; mkTick false (Some 5) 110; mkTick false (Some 9) 130]
      (set_instance (Some (mkTracker (mkWriter [] [true; false; true]) true 10 false [] []))
         world0)
    = Ok tt w'
    /\ output w' = [MEMORY_RECORD 100 12288]
    /\ oracle_of w' = [true]
    /\ d_active w' = false.
Proof.
  destruct (X21_sampler_refused 4096
              [mkTick false (Some 3) 100; mkTick false (Some 5) 110; mkTick false (Some 9) 130]
              1%nat
              (set_instance
                 (Some (mkTracker (mkWriter [] [true; false; true]) true 10 false [] []))
                 world0)
              (mkTracker (mkWriter [] [true; false; true]) true 10 false [] []) [true])
    as (w' & E & Ho & Hor & Ha & _); [reflexivity | reflexivity | simpl; lia |].
  exists w'. split; [exact E|]. split; [exact Ho|]. split; [exact Hor | exact Ha].
Defined.

(** ** Constructions that fail *)

(** X22: when the sink refuses the header, the constructor throws
    [IoError "Failed to write output header"] before anything else happens:
    nothing is written, no module map is taken, the profile hook is not
    installed, the activity flag, the recursion flag, [cerr] and the
    thread's stack tracker are as before.  The static instance pointer,
    which is set first, stays set. *)
Theorem X22_ctor_header_refused env record_writer native_traces memory_interval follow_fork w o
  (Horacle : w_oracle record_writer = false :: o) :
  exists w',
    Tracker_ctor env record_writer native_traces memory_interval follow_fork w
    = Throw (IoError "Failed to write output header") w'
    /\ output w' = w_log record_writer
    /\ oracle_of w' = o
    /\ d_instance w' <> None
    /\ d_active w' = d_active w
    /\ c_profilefunc w' = c_profilefunc w
    /\ isActive w' = isActive w
    /\ cerr w' = cerr w
    /\ t_python_stack_tracker w' = t_python_stack_tracker w.
Proof.
  unfold Tracker_ctor. unfold bind at 1, modify at 1.
  set (t0 := mkTracker record_writer native_traces memory_interval follow_fork [] []).
  unfold writeHeader, bind at 1.
  rewrite (writeRecord_eq _ (set_instance (Some t0) w) t0 eq_refl).
  unfold writer_write. cbn [d_writer t0]. rewrite Horacle. cbn [fst snd negb].
  unfold throw. eexists. split; [reflexivity|].
  unfold output, oracle_of. cbn. destruct w.
  repeat split; try reflexivity. discriminate.
Qed.

Lemma X22_ctor_header_refused_witness :
  exists w',
    Tracker_ctor env0 (mkWriter [] [false; true]) true 10 false world_blank
    = Throw (IoError "Failed to write output header") w'
    /\ output w' = []
    /\ d_active w' = d_active world_blank
    /\ c_profilefunc w' = c_profilefunc world_blank.
Proof.
  destruct (X22_ctor_header_refused env0 (mkWriter [] [false; true]) true 10 false
              world_blank [true] eq_refl)
    as (w' & E & Ho & _ & _ & Ha & Hp & _).
  exists w'. split; [exact E|]. split; [exact Ho|]. split; [exact Ha | exact Hp].
Defined.

(** X23: when the sink accepts every write but /proc/self/statm cannot be
    opened, the constructor throws [IoError "Failed to open
    /proc/self/statm"] after the header and the module map are written and
    the profile hook is installed.  Tracking is not activated, and the
    recursion flag is put back as the exception leaves the guard's scope. *)
Theorem X23_ctor_statm_fails env record_writer native_traces memory_interval follow_fork w
  (Hgil : PyGILState_Check env = true)
  (Hstatm : statm_opens env = false)
  (Hexe : readlink_ok env = true)
  (Hwriter : never_fails record_writer = true) :
  exists w',
    Tracker_ctor env record_writer native_traces memory_interval follow_fork w
    = Throw (IoError "Failed to open /proc/self/statm") w'
    /\ output w'
       = w_log record_writer
         ++ HEADER false :: (if native_traces then module_map env else [])
    /\ c_profilefunc w' = true
    /\ d_active w' = d_active w
    /\ isActive w' = isActive w
    /\ cerr w' = cerr w.
Proof.
  unfold Tracker_ctor. unfold bind at 1, modify at 1.
  set (t0 := mkTracker record_writer native_traces memory_interval follow_fork [] []).
  set (w1 := set_instance (Some t0) w).
  assert (H1 : healthy w1) by exact Hwriter.
  unfold writeHeader, bind at 1. rewrite writeRecord_accepts by assumption.
  cbn [negb]. unfold bind at 1.
  rewrite (updateModuleCache_accepts env _ _ Hexe (healthy_wrote _ _ H1)
             (d_instance_wrote _ w1 t0 eq_refl)).
  rewrite wrote_app. cbn [d_unwind_native_frames set_writer t0].
  unfold with_RecursionGuard, bind at 1.
  rewrite install_trace_function_eq by assumption. rewrite Hstatm.
  unfold bind, throw.
  eexists. split; [reflexivity|].
  unfold wrote, w1, output. cbn.
  destruct (c_profilefunc w) eqn:Hp; cbn; rewrite ?Hp; repeat split; reflexivity.
Qed.

Lemma X23_ctor_statm_fails_witness :
  exists w',
    Tracker_ctor
      (mkEnv (PyFrame_GetLineNumber env0) (Py_REFCNT env0) (co_name env0)
             (co_filename env0) (PyUnicode_AsUTF8 env0) (PyEval_GetFrame env0)
             (PyGILState_Check env0) (pthread_self env0) (NativeTrace_fill env0)
             (loaded_objects env0) (readlink_proc_self_exe env0) false)
      (mkWriter [] []) false 10 false world_blank
    = Throw (IoError "Failed to open /proc/self/statm") w'
    /\ output w' = [HEADER false]
    /\ c_profilefunc w' = true
    /\ d_active w' = false.
Proof.
  destruct (X23_ctor_statm_fails
              (mkEnv (PyFrame_GetLineNumber env0) (Py_REFCNT env0) (co_name env0)
                     (co_filename env0) (PyUnicode_AsUTF8 env0) (PyEval_GetFrame env0)
                     (PyGILState_Check env0) (pthread_self env0) (NativeTrace_fill env0)
                     (loaded_objects env0) (readlink_proc_self_exe env0) false)
              (mkWriter [] []) false 10 false world_blank)
    as (w' & E & Ho & Hp & Ha & _); try reflexivity.
  exists w'. split; [exact E|]. split; [exact Ho|]. split; [exact Hp | exact Ha].
Defined.

(** ** A whole session *)



